(** * MindEase backend: a shallow embedding of the screening, triage, chatbot,
      self-care and clinician code, and the properties proved about it.

    The Python sources are embedded function by function.  Python integers
    are [Z]; a [str] is the [string] of its UTF-8 bytes, cut into its
    characters by [code_points]; Python floats
    are the binary64 floats of [PrimFloat]; a raised exception is the [Raise]
    case of [result]; the relational store is a record of tables, each a list
    of rows in primary-key order. *)

From Stdlib Require Import ZArith List String Ascii Bool Lia Floats.
From Stdlib Require Import Numbers.DecimalString.
Import ListNotations.

Set Warnings "-inexact-float,-register-all".

Open Scope string_scope.
Open Scope Z_scope.

(* ===================================================================== *)
(** * Part I.  The embedding                                              *)
(* ===================================================================== *)

(** ** Python values, strings and exceptions *)

Module Py.

(** The exception classes the embedded code raises or catches. *)
Inductive PyExc : Type :=
| ValueError (msg : string)
| TypeError (msg : string)
| RuntimeError (msg : string)
| FileNotFoundError (msg : string)
| DoesNotExist (model : string)
| MultipleObjectsReturned (model : string)
| IntegrityError (msg : string)
| Http404.

Inductive result (A : Type) : Type :=
| Ok (a : A)
| Raise (e : PyExc).

Arguments Ok {A} a.
Arguments Raise {A} e.

Definition bind {A B : Type} (r : result A) (k : A -> result B) : result B :=
  match r with
  | Ok a => k a
  | Raise e => Raise e
  end.

(** The line feed of a Python ["\n"]. *)
Definition nl : string := String (ascii_of_nat 10) EmptyString.

(** [str(n)] for an integer. *)
Definition str_of_int (z : Z) : string :=
  NilZero.string_of_int (Z.to_int z).

(** A [str] is held as its UTF-8 bytes.  [code_points] cuts it into its
    characters: a byte of the form 10xxxxxx continues the character before
    it. *)
Definition is_continuation (c : ascii) : bool :=
  let n := nat_of_ascii c in
  (Nat.leb 128 n && Nat.leb n 191)%bool.

Fixpoint code_points (s : string) : list string :=
  match s with
  | EmptyString => []
  | String c t =>
      let rest := code_points t in
      match t with
      | String d _ =>
          if is_continuation d then
            match rest with
            | g :: gs => String c g :: gs
            | [] => [String c EmptyString]
            end
          else String c EmptyString :: rest
      | EmptyString => String c EmptyString :: rest
      end
  end.

(** The string made of the given pieces. *)
Fixpoint join (pieces : list string) : string :=
  match pieces with
  | [] => EmptyString
  | x :: rest => x ++ join rest
  end.

(** [len(s)] and [s[:n]] count characters. *)
Definition len (s : string) : nat := List.length (code_points s).

Definition take (n : nat) (s : string) : string :=
  join (firstn n (code_points s)).

(** [ord(c)] of one character, decoded from its bytes. *)
Definition lead_value (n : N) : N :=
  (if n <? 128 then n
   else if n <? 224 then n - 192
   else if n <? 240 then n - 224
   else n - 240)%N.

Definition ord (c : string) : N :=
  match c with
  | EmptyString => 0%N
  | String b t =>
      fold_left (fun acc d => (acc * 64 + (N_of_ascii d - 128))%N)
                (list_ascii_of_string t) (lead_value (N_of_ascii b))
  end.

(** [c.isspace()]: the white space of Unicode, which is what [str.strip]
    and [str.split] remove: U+0009-000D, U+001C-0020, U+0085, U+00A0,
    U+1680, U+2000-200A, U+2028, U+2029, U+202F, U+205F and U+3000. *)
Definition isspace (c : string) : bool :=
  let n := ord c in
  (((9 <=? n) && (n <=? 13)) || ((28 <=? n) && (n <=? 32)) ||
   (n =? 133) || (n =? 160) || (n =? 5760) ||
   ((8192 <=? n) && (n <=? 8202)) ||
   (n =? 8232) || (n =? 8233) || (n =? 8239) || (n =? 8287) || (n =? 12288))%N%bool.

Fixpoint drop_spaces (points : list string) : list string :=
  match points with
  | [] => []
  | c :: rest => if isspace c then drop_spaces rest else points
  end.

Definition lstrip (s : string) : string :=
  join (drop_spaces (code_points s)).

Definition rstrip (s : string) : string :=
  join (rev (drop_spaces (rev (code_points s)))).

(** [s.strip()]. *)
Definition strip (s : string) : string :=
  join (rev (drop_spaces (rev (drop_spaces (code_points s))))).

(** [s.lower()] maps every character to its lowercase form, one or more
    characters, which for a few characters depends on their neighbours.
    The mapping of the Unicode tables is a parameter: [to_lower before c
    after] is the lowercase form of [c] standing between [before], nearest
    character first, and [after]. *)
Section Lower.

Variable to_lower : list string -> string -> list string -> string.

Fixpoint lower_points (before points : list string) : list string :=
  match points with
  | [] => []
  | c :: after => to_lower before c after :: lower_points (c :: before) after
  end.

Definition lower (s : string) : string :=
  join (lower_points [] (code_points s)).

End Lower.

(** The lowercase and uppercase forms of the ASCII letters; the other
    characters of ASCII text have none. *)
Definition lower_char (c : ascii) : ascii :=
  let n := nat_of_ascii c in
  if (Nat.leb 65 n && Nat.leb n 90)%bool then ascii_of_nat (n + 32) else c.

Definition upper_char (c : ascii) : ascii :=
  let n := nat_of_ascii c in
  if (Nat.leb 97 n && Nat.leb n 122)%bool then ascii_of_nat (n - 32) else c.

Fixpoint map_bytes (f : ascii -> ascii) (s : string) : string :=
  match s with
  | EmptyString => EmptyString
  | String c t => String (f c) (map_bytes f t)
  end.

(** The lowercase mapping on ASCII text. *)
Definition ascii_to_lower (before : list string) (c : string) (after : list string)
  : string :=
  map_bytes lower_char c.

(** [s.upper()] as the code uses it, on the names of the two surveys. *)
Definition upper (s : string) : string := map_bytes upper_char s.

(** [needle in hay] on strings. *)
Fixpoint contains (needle hay : string) : bool :=
  (String.prefix needle hay ||
   match hay with
   | EmptyString => false
   | String _ t => contains needle t
   end)%bool.

(** Truth value of a string: [bool(s)]. *)
Definition nonempty (s : string) : bool :=
  match s with
  | EmptyString => false
  | String _ _ => true
  end.

(** The values a decoded JSON request body can hold. *)
Inductive PyVal : Type :=
| VNone
| VBool (b : bool)
| VInt (z : Z)
| VFloat (f : float)
| VStr (s : string)
| VList (items : list PyVal)
| VDict (entries : list (string * PyVal)).

(** [bool(v)]. *)
Definition truthy (v : PyVal) : bool :=
  match v with
  | VNone => false
  | VBool b => b
  | VInt z => negb (z =? 0)
  | VFloat f => negb (PrimFloat.eqb f 0%float)
  | VStr s => nonempty s
  | VList items => match items with [] => false | _ :: _ => true end
  | VDict entries => match entries with [] => false | _ :: _ => true end
  end.

Definition chars (s : string) : list PyVal := map VStr (code_points s).

(** The items a [for] loop over [v] visits: the elements of a list, the
    characters of a string, the keys of a dict; the other values are not
    iterable, and they have no [len] either. *)
Definition iter (v : PyVal) : result (list PyVal) :=
  match v with
  | VList items => Ok items
  | VStr s => Ok (chars s)
  | VDict entries => Ok (map (fun kv => VStr (fst kv)) entries)
  | VNone => Raise (TypeError "object of type 'NoneType' has no len()")
  | VBool _ => Raise (TypeError "object of type 'bool' has no len()")
  | VInt _ => Raise (TypeError "object of type 'int' has no len()")
  | VFloat _ => Raise (TypeError "object of type 'float' has no len()")
  end.

(** [isinstance(v, int)], with the integer it stands for: [bool] is a
    subclass of [int] in Python, [True] is 1 and [False] is 0. *)
Definition int_value (v : PyVal) : option Z :=
  match v with
  | VInt z => Some z
  | VBool b => Some (if b then 1 else 0)
  | _ => None
  end.

(** [sum(items)] over items that passed [isinstance(_, int)]. *)
Definition sum_ints (items : list PyVal) : Z :=
  fold_left (fun acc v => acc + match int_value v with Some z => z | None => 0 end)
            items 0.

End Py.

Import Py.

Notation "x <- r ;; k" := (bind r (fun x => k))
  (at level 61, r at next level, right associativity).

(** ** screening/models.py: the screening records and their [save] *)

(** [PHQ9Screening]: the nine answers, the fields [save] derives, and the
    columns the store fills on insertion ([id], [created_at]). *)
Module PHQ9Screening.

Record t : Type := mk {
  id : Z;
  patient : Z;
  q1_interest : Z;
  q2_depressed : Z;
  q3_sleep : Z;
  q4_energy : Z;
  q5_appetite : Z;
  q6_self_esteem : Z;
  q7_concentration : Z;
  q8_psychomotor : Z;
  q9_suicidal : Z;
  total_score : Z;
  severity_level : string;
  requires_immediate_attention : bool;
  requires_teleconsult : bool;
  risk_level : string;
  created_at : Z
}.

(** The instance [PHQ9Screening(patient=..., q1_interest=..., ...)] before
    it is saved: both flags at their default [False], nothing derived yet. *)
Definition new (patient q1 q2 q3 q4 q5 q6 q7 q8 q9 : Z) : t :=
  mk 0 patient q1 q2 q3 q4 q5 q6 q7 q8 q9 0 "" false false "" 0.

(** [PHQ9Screening.save], up to the call of [super().save]: the derived
    fields are assigned on [self]; a flag that no branch assigns keeps the
    value it had. *)
Definition save (self : t) : t :=
  let total :=
    q1_interest self + q2_depressed self + q3_sleep self +
    q4_energy self + q5_appetite self + q6_self_esteem self +
    q7_concentration self + q8_psychomotor self + q9_suicidal self in
  let severity :=
    if total <=? 4 then "minimal"
    else if total <=? 9 then "mild"
    else if total <=? 14 then "moderate"
    else if total <=? 19 then "moderately_severe"
    else "severe" in
  let '(attention, teleconsult, risk) :=
    if ((total >=? 15) || (q9_suicidal self >=? 2))%bool then
      (true, true, "critical")
    else if total >=? 10 then
      (requires_immediate_attention self, true, "high")
    else if total >=? 5 then
      (requires_immediate_attention self, requires_teleconsult self, "medium")
    else
      (requires_immediate_attention self, requires_teleconsult self, "low") in
  mk (id self) (patient self)
     (q1_interest self) (q2_depressed self) (q3_sleep self) (q4_energy self)
     (q5_appetite self) (q6_self_esteem self) (q7_concentration self)
     (q8_psychomotor self) (q9_suicidal self)
     total severity attention teleconsult risk (created_at self).

End PHQ9Screening.

Module GAD7Screening.

Record t : Type := mk {
  id : Z;
  patient : Z;
  q1_nervous : Z;
  q2_worry : Z;
  q3_worry_control : Z;
  q4_trouble_relaxing : Z;
  q5_restless : Z;
  q6_irritable : Z;
  q7_afraid : Z;
  total_score : Z;
  severity_level : string;
  requires_immediate_attention : bool;
  requires_teleconsult : bool;
  risk_level : string;
  created_at : Z
}.

Definition new (patient q1 q2 q3 q4 q5 q6 q7 : Z) : t :=
  mk 0 patient q1 q2 q3 q4 q5 q6 q7 0 "" false false "" 0.

(** [GAD7Screening.save], up to the call of [super().save]. *)
Definition save (self : t) : t :=
  let total :=
    q1_nervous self + q2_worry self + q3_worry_control self +
    q4_trouble_relaxing self + q5_restless self + q6_irritable self +
    q7_afraid self in
  let severity :=
    if total <=? 4 then "minimal"
    else if total <=? 9 then "mild"
    else if total <=? 14 then "moderate"
    else "severe" in
  let '(attention, teleconsult, risk) :=
    if total >=? 15 then
      (true, true, "critical")
    else if total >=? 10 then
      (requires_immediate_attention self, true, "high")
    else if total >=? 5 then
      (requires_immediate_attention self, requires_teleconsult self, "medium")
    else
      (requires_immediate_attention self, requires_teleconsult self, "low") in
  mk (id self) (patient self)
     (q1_nervous self) (q2_worry self) (q3_worry_control self)
     (q4_trouble_relaxing self) (q5_restless self) (q6_irritable self)
     (q7_afraid self)
     total severity attention teleconsult risk (created_at self).

End GAD7Screening.

(** ** The relational store *)

(** Query-set operations of the ORM, on a table held as a list of rows. *)
Module Orm.

Section Queries.
Context {A : Type}.

(** [Model.objects.get(...)]: exactly one row must match. *)
Definition get (model : string) (p : A -> bool) (rows : list A) : result A :=
  match filter p rows with
  | [] => Raise (DoesNotExist model)
  | [x] => Ok x
  | _ :: _ :: _ => Raise (MultipleObjectsReturned model)
  end.

(** The row with the least [key]; among equal keys the first of the table. *)
Fixpoint min_by (key : A -> Z) (rows : list A) : option A :=
  match rows with
  | [] => None
  | x :: rest =>
      match min_by key rest with
      | None => Some x
      | Some y => if key x <=? key y then Some x else Some y
      end
  end.

(** The row with the greatest [key]; among equal keys the first of the table. *)
Fixpoint max_by (key : A -> Z) (rows : list A) : option A :=
  match rows with
  | [] => None
  | x :: rest =>
      match max_by key rest with
      | None => Some x
      | Some y => if key y <=? key x then Some x else Some y
      end
  end.

(** [qs.first()] on a query set with no ordering: the ORM orders it by
    primary key, so the matching row with the least [pk] is returned. *)
Definition first_unordered (pk : A -> Z) (rows : list A) : option A :=
  min_by pk rows.

(** [qs.order_by('-created_at').first()]. *)
Definition first_newest (created_at : A -> Z) (rows : list A) : option A :=
  max_by created_at rows.

(** The primary key given to the next inserted row. *)
Definition next_pk (pk : A -> Z) (rows : list A) : Z :=
  fold_left (fun acc r => Z.max acc (pk r)) rows 0 + 1.

End Queries.

End Orm.

Module Patient.
Record t : Type := mk {
  id : Z;
  user : Z;
  firebase_uid : string;
  phone_number : string
}.
End Patient.

Module ScreeningAlert.
Record t : Type := mk {
  id : Z;
  patient : Z;
  alert_type : string;
  message : string;
  is_resolved : bool;
  created_at : Z
}.
End ScreeningAlert.

Module TeleconsultReferral.
Record t : Type := mk {
  id : Z;
  patient : Z;
  reason : string;
  priority : string;
  status : string;
  created_at : Z
}.
End TeleconsultReferral.

Module ChatbotConversation.
Record t : Type := mk {
  id : Z;
  patient : Z;
  session_id : string
}.
End ChatbotConversation.

Module ChatbotMessage.
Record t : Type := mk {
  id : Z;
  conversation : Z;
  message_type : string;
  content : string;
  detected_emotion : string;
  emotion_confidence : option float;
  risk_level : string;
  risk_keywords : list string;
  created_at : Z
}.
End ChatbotMessage.

(** selfcare/models.py *)
Module SelfCarePathway.
Record t : Type := mk {
  id : Z;
  name : string;
  target_severity : string;
  is_active : bool
}.
End SelfCarePathway.

(** clinician/models.py *)
Module Clinician.
Record t : Type := mk {
  id : Z;
  user : Z;
  license_number : string
}.
End Clinician.

Module PatientAssignment.
Record t : Type := mk {
  id : Z;
  patient : Z;
  clinician : Z;
  is_active : bool
}.
End PatientAssignment.

Module PatientTrend.
Record t : Type := mk {
  id : Z;
  patient : Z;
  date : Z;
  phq9_score : option Z;
  gad7_score : option Z;
  risk_level : string
}.
End PatientTrend.

Module TreatmentPlan.
Record t : Type := mk {
  id : Z;
  patient : Z;
  clinician : Z;
  diagnosis : string
}.
End TreatmentPlan.

Module ClinicalNote.
Record t : Type := mk {
  id : Z;
  patient : Z;
  clinician : Z;
  note_type : string;
  content : string
}.
End ClinicalNote.

Module AlertResponse.
Record t : Type := mk {
  id : Z;
  alert : Z;
  clinician : Z;
  response : string
}.
End AlertResponse.

(** A job handed to the task queue by [task.delay(...)]. *)
Inductive Task : Type :=
| send_alert_notification (alert_id : Z) (priority : string).

Module Store.

Record t : Type := mk {
  patients : list Patient.t;
  phq9_screenings : list PHQ9Screening.t;
  gad7_screenings : list GAD7Screening.t;
  screening_alerts : list ScreeningAlert.t;
  teleconsult_referrals : list TeleconsultReferral.t;
  chatbot_messages : list ChatbotMessage.t;
  pathways : list SelfCarePathway.t;
  clinicians : list Clinician.t;
  assignments : list PatientAssignment.t;
  trends : list PatientTrend.t;
  treatment_plans : list TreatmentPlan.t;
  clinical_notes : list ClinicalNote.t;
  alert_responses : list AlertResponse.t;
  task_queue : list Task
}.

Definition empty : t := mk [] [] [] [] [] [] [] [] [] [] [] [] [] [].

Definition with_patients (v : list Patient.t) (s : t) : t :=
  mk v (phq9_screenings s) (gad7_screenings s) (screening_alerts s)
     (teleconsult_referrals s) (chatbot_messages s) (pathways s) (clinicians s)
     (assignments s) (trends s) (treatment_plans s) (clinical_notes s)
     (alert_responses s) (task_queue s).

Definition with_phq9_screenings (v : list PHQ9Screening.t) (s : t) : t :=
  mk (patients s) v (gad7_screenings s) (screening_alerts s)
     (teleconsult_referrals s) (chatbot_messages s) (pathways s) (clinicians s)
     (assignments s) (trends s) (treatment_plans s) (clinical_notes s)
     (alert_responses s) (task_queue s).

Definition with_gad7_screenings (v : list GAD7Screening.t) (s : t) : t :=
  mk (patients s) (phq9_screenings s) v (screening_alerts s)
     (teleconsult_referrals s) (chatbot_messages s) (pathways s) (clinicians s)
     (assignments s) (trends s) (treatment_plans s) (clinical_notes s)
     (alert_responses s) (task_queue s).

Definition with_screening_alerts (v : list ScreeningAlert.t) (s : t) : t :=
  mk (patients s) (phq9_screenings s) (gad7_screenings s) v
     (teleconsult_referrals s) (chatbot_messages s) (pathways s) (clinicians s)
     (assignments s) (trends s) (treatment_plans s) (clinical_notes s)
     (alert_responses s) (task_queue s).

Definition with_teleconsult_referrals (v : list TeleconsultReferral.t) (s : t) : t :=
  mk (patients s) (phq9_screenings s) (gad7_screenings s) (screening_alerts s)
     v (chatbot_messages s) (pathways s) (clinicians s)
     (assignments s) (trends s) (treatment_plans s) (clinical_notes s)
     (alert_responses s) (task_queue s).

Definition with_chatbot_messages (v : list ChatbotMessage.t) (s : t) : t :=
  mk (patients s) (phq9_screenings s) (gad7_screenings s) (screening_alerts s)
     (teleconsult_referrals s) v (pathways s) (clinicians s)
     (assignments s) (trends s) (treatment_plans s) (clinical_notes s)
     (alert_responses s) (task_queue s).

Definition with_task_queue (v : list Task) (s : t) : t :=
  mk (patients s) (phq9_screenings s) (gad7_screenings s) (screening_alerts s)
     (teleconsult_referrals s) (chatbot_messages s) (pathways s) (clinicians s)
     (assignments s) (trends s) (treatment_plans s) (clinical_notes s)
     (alert_responses s) v.

(** [ScreeningAlert.objects.create(...)] at clock reading [now]: the new row
    and the store that holds it. *)
Definition create_alert (now patient : Z) (alert_type message : string) (s : t)
  : ScreeningAlert.t * t :=
  let row := ScreeningAlert.mk (Orm.next_pk ScreeningAlert.id (screening_alerts s))
                               patient alert_type message false now in
  (row, with_screening_alerts (screening_alerts s ++ [row]) s).

(** [TeleconsultReferral.objects.create(...)]. *)
Definition create_referral (now patient : Z) (reason priority status : string) (s : t)
  : TeleconsultReferral.t * t :=
  let row := TeleconsultReferral.mk
               (Orm.next_pk TeleconsultReferral.id (teleconsult_referrals s))
               patient reason priority status now in
  (row, with_teleconsult_referrals (teleconsult_referrals s ++ [row]) s).

(** [task.delay(...)]. *)
Definition delay (job : Task) (s : t) : t :=
  with_task_queue (task_queue s ++ [job]) s.

(** [PHQ9Screening.objects.create] on the answer fields: the model's [save] derives the
    fields, then the row is inserted with a fresh key and [auto_now_add]. *)
Definition create_phq9 (now : Z) (unsaved : PHQ9Screening.t) (s : t)
  : PHQ9Screening.t * t :=
  let d := PHQ9Screening.save unsaved in
  let row := PHQ9Screening.mk
               (Orm.next_pk PHQ9Screening.id (phq9_screenings s))
               (PHQ9Screening.patient d)
               (PHQ9Screening.q1_interest d) (PHQ9Screening.q2_depressed d)
               (PHQ9Screening.q3_sleep d) (PHQ9Screening.q4_energy d)
               (PHQ9Screening.q5_appetite d) (PHQ9Screening.q6_self_esteem d)
               (PHQ9Screening.q7_concentration d) (PHQ9Screening.q8_psychomotor d)
               (PHQ9Screening.q9_suicidal d)
               (PHQ9Screening.total_score d) (PHQ9Screening.severity_level d)
               (PHQ9Screening.requires_immediate_attention d)
               (PHQ9Screening.requires_teleconsult d)
               (PHQ9Screening.risk_level d) now in
  (row, with_phq9_screenings (phq9_screenings s ++ [row]) s).

(** [GAD7Screening.objects.create] on the answer fields. *)
Definition create_gad7 (now : Z) (unsaved : GAD7Screening.t) (s : t)
  : GAD7Screening.t * t :=
  let d := GAD7Screening.save unsaved in
  let row := GAD7Screening.mk
               (Orm.next_pk GAD7Screening.id (gad7_screenings s))
               (GAD7Screening.patient d)
               (GAD7Screening.q1_nervous d) (GAD7Screening.q2_worry d)
               (GAD7Screening.q3_worry_control d) (GAD7Screening.q4_trouble_relaxing d)
               (GAD7Screening.q5_restless d) (GAD7Screening.q6_irritable d)
               (GAD7Screening.q7_afraid d)
               (GAD7Screening.total_score d) (GAD7Screening.severity_level d)
               (GAD7Screening.requires_immediate_attention d)
               (GAD7Screening.requires_teleconsult d)
               (GAD7Screening.risk_level d) now in
  (row, with_gad7_screenings (gad7_screenings s ++ [row]) s).

End Store.

(** ** screening/triage_service.py: [TriageService] *)

Module TriageService.

(** *** The calculators *)

Record ScoreResult : Type := mkScore {
  total_score : Z;
  severity_level : string;
  severity_label : string
}.

Definition _get_phq9_severity (score : Z) : string :=
  if score <=? 4 then "minimal"
  else if score <=? 9 then "mild"
  else if score <=? 14 then "moderate"
  else if score <=? 19 then "moderately_severe"
  else "severe".

Definition _get_gad7_severity (score : Z) : string :=
  if score <=? 4 then "minimal"
  else if score <=? 9 then "mild"
  else if score <=? 14 then "moderate"
  else "severe".

(** [labels.get(severity_level, 'Unknown')]; [survey_type] is not read. *)
Definition _get_severity_label (severity_level survey_type : string) : string :=
  if String.eqb severity_level "minimal" then "Minimal"
  else if String.eqb severity_level "mild" then "Mild"
  else if String.eqb severity_level "moderate" then "Moderate"
  else if String.eqb severity_level "moderately_severe" then "Moderately Severe"
  else if String.eqb severity_level "severe" then "Severe"
  else "Unknown".

(** The validation loop [for i, answer in enumerate(answers)], entered at
    index [i]: the first item that is no [int] instance, or lies outside
    0..3, raises. *)
Fixpoint check_answers (name : string) (i : nat) (items : list PyVal) : result unit :=
  match items with
  | [] => Ok tt
  | answer :: rest =>
      match int_value answer with
      | Some z =>
          if ((z <? 0) || (z >? 3))%bool then
            Raise (ValueError (name ++ " answer " ++ str_of_int (Z.of_nat i + 1)
                               ++ " must be between 0 and 3"))
          else check_answers name (S i) rest
      | None =>
          Raise (ValueError (name ++ " answer " ++ str_of_int (Z.of_nat i + 1)
                             ++ " must be between 0 and 3"))
      end
  end.

(** The body shared by the two calculators, which differ in the name, the
    number of answers and the severity bands. *)
Definition calculate (name : string) (n : nat) (severity : Z -> string)
           (survey_type : string) (answers : PyVal) : result ScoreResult :=
  if negb (truthy answers) then
    Raise (ValueError (name ++ " requires exactly " ++ str_of_int (Z.of_nat n)
                       ++ " answers (0-3 each)"))
  else
    items <- iter answers ;;
    if negb (Nat.eqb (List.length items) n) then
      Raise (ValueError (name ++ " requires exactly " ++ str_of_int (Z.of_nat n)
                         ++ " answers (0-3 each)"))
    else
      _ <- check_answers name 0 items ;;
      let total := sum_ints items in
      let level := severity total in
      Ok (mkScore total level (_get_severity_label level survey_type)).

Definition calculate_phq9 (answers : PyVal) : result ScoreResult :=
  calculate "PHQ-9" 9 _get_phq9_severity "phq9" answers.

Definition calculate_gad7 (answers : PyVal) : result ScoreResult :=
  calculate "GAD-7" 7 _get_gad7_severity "gad7" answers.

(** *** The triage rules *)

Record TriageResult : Type := mkTriage {
  triageAction : string;
  recommendedModule : option string;
  alertCreated : bool;
  referralCreated : bool
}.

(** [timedelta(days=d)], in microseconds, the resolution of a timestamp. *)
Definition timedelta_days (d : Z) : Z := d * 86400 * 1000000.

(** [_check_score_increase]: the newest screening of the patient created
    in the last fourteen days is taken as the previous one.  [now] is the
    reading of [timezone.now()]. *)
Definition _check_score_increase (now : Z) (patient : Patient.t)
           (survey_type : string) (current_score : Z) (st : Store.t) : option Z :=
  let two_weeks_ago := now - timedelta_days 14 in
  if String.eqb survey_type "phq9" then
    match Orm.first_newest PHQ9Screening.created_at
            (filter (fun s => ((PHQ9Screening.patient s =? Patient.id patient) &&
                               (PHQ9Screening.created_at s >=? two_weeks_ago))%bool)
                    (Store.phq9_screenings st)) with
    | Some previous_screening =>
        let score_increase := current_score - PHQ9Screening.total_score previous_screening in
        if score_increase >=? 5 then Some score_increase else None
    | None => None
    end
  else if String.eqb survey_type "gad7" then
    match Orm.first_newest GAD7Screening.created_at
            (filter (fun s => ((GAD7Screening.patient s =? Patient.id patient) &&
                               (GAD7Screening.created_at s >=? two_weeks_ago))%bool)
                    (Store.gad7_screenings st)) with
    | Some previous_screening =>
        let score_increase := current_score - GAD7Screening.total_score previous_screening in
        if score_increase >=? 5 then Some score_increase else None
    | None => None
    end
  else None.

(** [_create_clinician_alert]: the alert row, then its notification job. *)
Definition _create_clinician_alert (now : Z) (patient : Patient.t)
           (survey_type : string) (score_increase : Z) (st : Store.t) : Store.t :=
  let '(alert, st1) :=
    Store.create_alert now (Patient.id patient) "score_increase"
      ("Significant " ++ upper survey_type ++ " score increase of "
       ++ str_of_int score_increase
       ++ " points within 2 weeks. Patient requires clinician review.") st in
  Store.delay (send_alert_notification (ScreeningAlert.id alert) "high") st1.

Definition _create_teleconsult_referral (now : Z) (patient : Patient.t)
           (survey_type : string) (score : Z) (reason : string) (st : Store.t) : Store.t :=
  snd (Store.create_referral now (Patient.id patient) reason
         (if score >=? 15 then "high" else "medium") "pending" st).

Definition _get_self_care_recommendation (survey_type : string) (score : Z)
           (severity_level : string) : string :=
  if (String.eqb severity_level "minimal" || String.eqb severity_level "mild")%bool then
    if String.eqb survey_type "gad7" then "4-7-8 Breathing"
    else "Mindfulness Meditation"
  else if String.eqb severity_level "moderate" then
    if String.eqb survey_type "gad7" then "Progressive Muscle Relaxation"
    else "Journaling and Gratitude"
  else "Guided Relaxation Exercises".

(** [process_triage]: the result (or the exception raised) and the store
    the call leaves behind. *)
Definition process_triage (now patient_id : Z) (survey_type : string) (score : Z)
           (severity_level : string) (st : Store.t) : result TriageResult * Store.t :=
  match Orm.get "Patient" (fun p => Patient.id p =? patient_id) (Store.patients st) with
  | Raise (DoesNotExist _) =>
      (Raise (ValueError ("Patient with ID " ++ str_of_int patient_id ++ " not found")), st)
  | Raise e => (Raise e, st)
  | Ok patient =>
      (* Rule 1 *)
      let '(triage_action, referral_created, st1) :=
        if (String.eqb survey_type "phq9" && (score >=? 15))%bool then
          ("TriggerReferral", true,
           _create_teleconsult_referral now patient survey_type score
             ("PHQ-9 score of " ++ str_of_int score ++ " indicates "
              ++ severity_level ++ " depression") st)
        else if (String.eqb survey_type "gad7" && (score >=? 15))%bool then
          ("TriggerReferral", true,
           _create_teleconsult_referral now patient survey_type score
             ("GAD-7 score of " ++ str_of_int score ++ " indicates "
              ++ severity_level ++ " anxiety") st)
        else ("None", false, st) in
      (* Rule 2 *)
      let '(triage_action, alert_created, st2) :=
        if String.eqb survey_type "phq9" then
          match _check_score_increase now patient survey_type score st1 with
          | Some score_increase =>
              if (negb (score_increase =? 0) && (score_increase >=? 5))%bool then
                ((if String.eqb triage_action "None" then "TriggerClinicianAlert"
                  else triage_action),
                 true,
                 _create_clinician_alert now patient survey_type score_increase st1)
              else (triage_action, false, st1)
          | None => (triage_action, false, st1)
          end
        else (triage_action, false, st1) in
      (* Rule 3 *)
      let '(triage_action, recommended_module) :=
        if String.eqb triage_action "None" then
          let m := _get_self_care_recommendation survey_type score severity_level in
          ((if nonempty m then "RecommendSelfCare" else triage_action), Some m)
        else (triage_action, None) in
      (Ok (mkTriage triage_action recommended_module alert_created referral_created), st2)
  end.

(** [_get_treatment_recommendations]. *)
Definition _get_treatment_recommendations (risk_level : string) : list string :=
  if String.eqb risk_level "critical" then
    ["Immediate crisis intervention"; "Crisis hotline: 988";
     "Emergency services: 911"; "24/7 monitoring required"]
  else if String.eqb risk_level "high" then
    ["Urgent teleconsultation within 24 hours"; "Consider medication evaluation";
     "Intensive therapy program"; "Regular safety checks"]
  else if String.eqb risk_level "medium" then
    ["Teleconsultation within 1 week"; "Self-care pathway activation";
     "Regular mood monitoring"; "Therapy referral"]
  else if String.eqb risk_level "low" then
    ["Self-care pathway"; "Regular screening";
     "Lifestyle modifications"; "Preventive measures"]
  else [].

(** [score and score >= k] for an optional score. *)
Definition score_at_least (score : option Z) (k : Z) : bool :=
  match score with
  | Some v => (negb (v =? 0) && (v >=? k))%bool
  | None => false
  end.

(** [get_comprehensive_assessment]: the risk tier and its recommendations. *)
Definition get_comprehensive_assessment (phq9_score gad7_score : option Z)
           (suicidal_ideation : bool) : string * list string :=
  let risk_level :=
    if suicidal_ideation then "critical"
    else if (score_at_least phq9_score 20 || score_at_least gad7_score 15)%bool then "critical"
    else if (score_at_least phq9_score 15 || score_at_least gad7_score 10)%bool then "high"
    else if (score_at_least phq9_score 10 || score_at_least gad7_score 7)%bool then "medium"
    else "low" in
  (risk_level, _get_treatment_recommendations risk_level).

End TriageService.

(** ** screening/survey_views.py *)

Module SurveySubmissionViewSet.

(** An authenticated request: the account behind [request.user] and the two
    entries of [request.data] the views read.  [answers] is [None] when the
    key is absent; [firebase_uid] is [request.data.get('firebase_uid', '')]. *)
Record Request : Type := mkRequest {
  user : Z;
  username : string;
  answers : option PyVal;
  firebase_uid : string
}.

Inductive Body : Type :=
| ErrorBody (error : string)
| SubmitBody (totalScore : Z) (severityLevel severityCode triageAction : string)
             (recommendedModule : option string) (screeningId : Z) (message : string).

Record Response : Type := mkResponse {
  status : Z;
  body : Body
}.

(** [str(e)] of a caught exception. *)
Definition exc_str (e : PyExc) : string :=
  match e with
  | ValueError m | TypeError m | RuntimeError m | FileNotFoundError m
  | IntegrityError m => m
  | DoesNotExist model => model ++ " matching query does not exist."
  | MultipleObjectsReturned model => "get() returned more than one " ++ model
  | Http404 => ""
  end.

(** The two [except] clauses that close both submission views. *)
Definition handle_exception (e : PyExc) : Response :=
  match e with
  | ValueError _ => mkResponse 400 (ErrorBody (exc_str e))
  | _ => mkResponse 500 (ErrorBody ("An error occurred: " ++ exc_str e))
  end.

(** [_get_or_create_patient]; [firebase_uid] is unique among patients, so
    the insertion is refused when another patient holds the identifier. *)
Definition _get_or_create_patient (request : Request) (st : Store.t)
  : result Patient.t * Store.t :=
  match Orm.get "Patient" (fun p => Patient.user p =? user request) (Store.patients st) with
  | Ok patient => (Ok patient, st)
  | Raise (DoesNotExist _) =>
      let uid := if nonempty (firebase_uid request) then firebase_uid request
                 else username request in
      if existsb (fun p => String.eqb (Patient.firebase_uid p) uid) (Store.patients st) then
        (Raise (IntegrityError "UNIQUE constraint failed: screening_patient.firebase_uid"), st)
      else
        let row := Patient.mk (Orm.next_pk Patient.id (Store.patients st))
                              (user request) uid "" in
        (Ok row, Store.with_patients (Store.patients st ++ [row]) st)
  | Raise e => (Raise e, st)
  end.

(** [answers[i]] once the answers passed the validation of the calculator. *)
Definition answer_at (items : list PyVal) (i : nat) : Z :=
  match nth_error items i with
  | Some v => match int_value v with Some z => z | None => 0 end
  | None => 0
  end.

Definition option_str (o : option string) : string :=
  match o with
  | Some s => s
  | None => "None"
  end.

Definition _get_action_message (triage_action severity_label : string)
           (recommended_module : option string) : string :=
  if String.eqb triage_action "TriggerReferral" then
    "Your " ++ severity_label ++ " symptoms indicate you may benefit from professional support. A teleconsultation referral has been created."
  else if String.eqb triage_action "TriggerClinicianAlert" then
    "Your symptoms have changed significantly. A clinician will review your case."
  else if String.eqb triage_action "RecommendSelfCare" then
    "Based on your assessment, we recommend trying: " ++ option_str recommended_module
    ++ ". This can help manage your symptoms."
  else if String.eqb triage_action "None" then
    "Thank you for completing the assessment. Continue monitoring your symptoms."
  else "Assessment completed successfully.".

Definition request_answers (request : Request) : PyVal :=
  match answers request with
  | Some v => v
  | None => VList []
  end.

(** [submit_phq9].  [t_create] is the clock reading that stamps the new
    screening, [t_triage] the later reading taken inside [process_triage]. *)
Definition submit_phq9 (t_create t_triage : Z) (request : Request) (st : Store.t)
  : Response * Store.t :=
  let answers := request_answers request in
  if negb (truthy answers) then
    (mkResponse 400 (ErrorBody "Answers array is required"), st)
  else
    match TriageService.calculate_phq9 answers with
    | Raise e => (handle_exception e, st)
    | Ok score_result =>
        let total_score := TriageService.total_score score_result in
        let severity_level := TriageService.severity_level score_result in
        let severity_label := TriageService.severity_label score_result in
        match _get_or_create_patient request st with
        | (Raise e, st1) => (handle_exception e, st1)
        | (Ok patient, st1) =>
            let items := match iter answers with Ok l => l | Raise _ => [] end in
            let '(screening, st2) :=
              Store.create_phq9 t_create
                (PHQ9Screening.new (Patient.id patient)
                   (answer_at items 0) (answer_at items 1) (answer_at items 2)
                   (answer_at items 3) (answer_at items 4) (answer_at items 5)
                   (answer_at items 6) (answer_at items 7) (answer_at items 8)) st1 in
            match TriageService.process_triage t_triage (Patient.id patient)
                    "phq9" total_score severity_level st2 with
            | (Raise e, st3) => (handle_exception e, st3)
            | (Ok triage_result, st3) =>
                let triage_action := TriageService.triageAction triage_result in
                let recommended_module := TriageService.recommendedModule triage_result in
                (mkResponse 201
                   (SubmitBody total_score severity_label severity_level triage_action
                      recommended_module (PHQ9Screening.id screening)
                      (_get_action_message triage_action severity_label recommended_module)),
                 st3)
            end
        end
    end.


End SurveySubmissionViewSet.

(** ** screening/views.py: the [latest] operations *)

Module ScreeningViews.

Inductive Body (A : Type) : Type :=
| Serialized (row : A)
| Message (message : string).

Arguments Serialized {A} row.
Arguments Message {A} message.

Record Response (A : Type) : Type := mkResponse {
  status : Z;
  body : Body A
}.

Arguments mkResponse {A} status body.
Arguments status {A} r.
Arguments body {A} r.

End ScreeningViews.

Module PHQ9ScreeningViewSet.

(** [latest]: the patient of the calling account, then [.first()] of that
    patient's screenings, a query set that carries no ordering.  An
    exception of the patient lookup leaves the view. *)
Definition latest (request_user : Z) (st : Store.t)
  : result (ScreeningViews.Response PHQ9Screening.t) :=
  patient <- Orm.get "Patient" (fun p => Patient.user p =? request_user)
                     (Store.patients st) ;;
  match Orm.first_unordered PHQ9Screening.id
          (filter (fun s => PHQ9Screening.patient s =? Patient.id patient)
                  (Store.phq9_screenings st)) with
  | Some latest_screening =>
      Ok (ScreeningViews.mkResponse 200 (ScreeningViews.Serialized latest_screening))
  | None =>
      Ok (ScreeningViews.mkResponse 404 (ScreeningViews.Message "No screenings found"))
  end.

End PHQ9ScreeningViewSet.

Module GAD7ScreeningViewSet.

Definition latest (request_user : Z) (st : Store.t)
  : result (ScreeningViews.Response GAD7Screening.t) :=
  patient <- Orm.get "Patient" (fun p => Patient.user p =? request_user)
                     (Store.patients st) ;;
  match Orm.first_unordered GAD7Screening.id
          (filter (fun s => GAD7Screening.patient s =? Patient.id patient)
                  (Store.gad7_screenings st)) with
  | Some latest_screening =>
      Ok (ScreeningViews.mkResponse 200 (ScreeningViews.Serialized latest_screening))
  | None =>
      Ok (ScreeningViews.mkResponse 404 (ScreeningViews.Message "No screenings found"))
  end.

End GAD7ScreeningViewSet.

(** ** selfcare/views.py: [SelfCarePathwayViewSet] *)

Module SelfCarePathwayViewSet.

Inductive Body : Type :=
| Pathways (rows : list SelfCarePathway.t)
| ErrorBody (error : string).

Record Response : Type := mkResponse {
  status : Z;
  body : Body
}.

(** The class attribute [queryset]: the active pathways. *)
Definition queryset (st : Store.t) : list SelfCarePathway.t :=
  filter SelfCarePathway.is_active (Store.pathways st).

(** The tier chosen from the two screenings [recommended] looked up. *)
Definition target_severity (latest_phq9 : option PHQ9Screening.t)
           (latest_gad7 : option GAD7Screening.t) : string :=
  match latest_phq9, latest_gad7 with
  | Some p, Some g =>
      let max_score := Z.max (PHQ9Screening.total_score p) (GAD7Screening.total_score g) in
      if max_score >=? 15 then "severe"
      else if max_score >=? 10 then "moderate"
      else if max_score >=? 5 then "mild"
      else "minimal"
  | _, _ => "minimal"
  end.

(** [recommended]: [patient.phq9_screenings.first()] and
    [patient.gad7_screenings.first()] are taken on related managers with no
    ordering. *)
Definition recommended (request_user : Z) (st : Store.t) : result Response :=
  match Orm.get "Patient" (fun p => Patient.user p =? request_user) (Store.patients st) with
  | Raise (DoesNotExist _) => Ok (mkResponse 404 (ErrorBody "Patient not found"))
  | Raise e => Raise e
  | Ok patient =>
      let latest_phq9 :=
        Orm.first_unordered PHQ9Screening.id
          (filter (fun s => PHQ9Screening.patient s =? Patient.id patient)
                  (Store.phq9_screenings st)) in
      let latest_gad7 :=
        Orm.first_unordered GAD7Screening.id
          (filter (fun s => GAD7Screening.patient s =? Patient.id patient)
                  (Store.gad7_screenings st)) in
      let tier := target_severity latest_phq9 latest_gad7 in
      Ok (mkResponse 200
            (Pathways (filter (fun p => String.eqb (SelfCarePathway.target_severity p) tier)
                              (queryset st))))
  end.

End SelfCarePathwayViewSet.

(** ** clinician/views.py: the clinician-scoped query sets *)

Module ClinicianViews.

(** [PatientAssignment.objects.filter(clinician=clinician, is_active=True)
    .values_list('patient', flat=True)]. *)
Definition assigned_patients (clinician : Clinician.t) (st : Store.t) : list Z :=
  map PatientAssignment.patient
      (filter (fun a => ((PatientAssignment.clinician a =? Clinician.id clinician) &&
                         PatientAssignment.is_active a)%bool)
              (Store.assignments st)).

(** [Clinician.objects.get(user=self.request.user)]. *)
Definition get_clinician (request_user : Z) (st : Store.t) : result Clinician.t :=
  Orm.get "Clinician" (fun c => Clinician.user c =? request_user) (Store.clinicians st).

(** [value__in=ids]. *)
Definition is_in (ids : list Z) (v : Z) : bool := existsb (Z.eqb v) ids.

End ClinicianViews.

Module PatientTrendViewSet.

Definition get_queryset (request_user : Z) (st : Store.t) : result (list PatientTrend.t) :=
  clinician <- ClinicianViews.get_clinician request_user st ;;
  let assigned_patients := ClinicianViews.assigned_patients clinician st in
  Ok (filter (fun r => ClinicianViews.is_in assigned_patients (PatientTrend.patient r))
             (Store.trends st)).

(** [order_by('date')], as a stable insertion sort. *)
Fixpoint insert_by_date (r : PatientTrend.t) (rows : list PatientTrend.t)
  : list PatientTrend.t :=
  match rows with
  | [] => [r]
  | x :: rest =>
      if PatientTrend.date r <=? PatientTrend.date x then r :: rows
      else x :: insert_by_date r rest
  end.

Definition order_by_date (rows : list PatientTrend.t) : list PatientTrend.t :=
  fold_right insert_by_date [] rows.

Inductive Body : Type :=
| Rows (rows : list PatientTrend.t)
| ErrorBody (error : string).

(** [by_patient]: [patient_id] is the query parameter, [None] when absent. *)
Definition by_patient (request_user : Z) (patient_id : option Z) (st : Store.t)
  : result (Z * Body) :=
  match patient_id with
  | None => Ok (400, ErrorBody "Patient ID required")
  | Some pid =>
      rows <- get_queryset request_user st ;;
      Ok (200, Rows (order_by_date
                       (filter (fun r => PatientTrend.patient r =? pid) rows)))
  end.

End PatientTrendViewSet.

Module TreatmentPlanViewSet.

Definition get_queryset (request_user : Z) (st : Store.t) : result (list TreatmentPlan.t) :=
  clinician <- ClinicianViews.get_clinician request_user st ;;
  let assigned_patients := ClinicianViews.assigned_patients clinician st in
  Ok (filter (fun r => ClinicianViews.is_in assigned_patients (TreatmentPlan.patient r))
             (Store.treatment_plans st)).

End TreatmentPlanViewSet.

Module ClinicalNoteViewSet.

Definition get_queryset (request_user : Z) (st : Store.t) : result (list ClinicalNote.t) :=
  clinician <- ClinicianViews.get_clinician request_user st ;;
  let assigned_patients := ClinicianViews.assigned_patients clinician st in
  Ok (filter (fun r => ClinicianViews.is_in assigned_patients (ClinicalNote.patient r))
             (Store.clinical_notes st)).

End ClinicalNoteViewSet.

Module AlertResponseViewSet.

Definition get_queryset (request_user : Z) (st : Store.t) : result (list AlertResponse.t) :=
  clinician <- ClinicianViews.get_clinician request_user st ;;
  let assigned_patients := ClinicianViews.assigned_patients clinician st in
  let alerts :=
    filter (fun a => ClinicianViews.is_in assigned_patients (ScreeningAlert.patient a))
           (Store.screening_alerts st) in
  Ok (filter (fun r => ClinicianViews.is_in (map ScreeningAlert.id alerts)
                                            (AlertResponse.alert r))
             (Store.alert_responses st)).

End AlertResponseViewSet.

(** ** screening/nlp_utils.py: [EmotionDetector] *)

Module EmotionDetector.

Record EmotionalContext : Type := mkContext {
  emotions : list (string * float);
  primary_emotion : string;
  confidence : float;
  risk_level : string;
  risk_keywords : list string;
  text_length : nat;
  word_count : nat
}.

(** [len(text.split())]: the number of maximal runs of non-space characters. *)
Fixpoint count_words (in_word : bool) (points : list string) : nat :=
  match points with
  | [] => 0
  | c :: t =>
      if isspace c then count_words false t
      else if in_word then count_words true t
      else S (count_words true t)
  end.

(** [emotions.get(key, 0)]. *)
Fixpoint get_score (key : string) (emotions : list (string * float)) : float :=
  match emotions with
  | [] => 0%float
  | (k, v) :: rest => if String.eqb k key then v else get_score key rest
  end.

(** [max(emotions.items(), key=lambda x: x[1])], started at [best]: a later
    item replaces the running maximum only when its score is greater. *)
Fixpoint max_item (best : string * float) (items : list (string * float))
  : string * float :=
  match items with
  | [] => best
  | x :: rest => max_item (if PrimFloat.ltb (snd best) (snd x) then x else best) rest
  end.

Definition suicidal_keywords : list string :=
  ["suicide"; "kill myself"; "end it all"; "not worth living";
   "better off dead"; "want to die"; "no point"].

Definition self_harm_keywords : list string :=
  ["hurt myself"; "cut myself"; "self harm"; "harm myself"].

Section Detector.

(** The lowercase mapping of [str.lower]. *)
Variable to_lower : list string -> string -> list string -> string.

(** The keyword scoring of [detect_emotions] on a non-empty text: the
    regular-expression counts with their intensity multipliers, normalised
    to a distribution over the emotions that matched, in table order. *)
Variable keyword_scores : string -> list (string * float).

(** [detect_risk_keywords]. *)
Definition detect_risk_keywords (text : string) : list string :=
  let text_lower := lower to_lower text in
  (if existsb (fun keyword => contains keyword text_lower) suicidal_keywords
   then ["suicidal_ideation"] else [])
  ++
  (if existsb (fun keyword => contains keyword text_lower) self_harm_keywords
   then ["self_harm"] else []).

Definition detect_emotions (text : string) : list (string * float) :=
  if negb (nonempty text) then [] else keyword_scores text.

Definition get_primary_emotion (text : string) : string * float :=
  match detect_emotions text with
  | [] => ("neutral", 1%float)
  | first :: rest => max_item first rest
  end.

Definition assess_risk_level (text : string) : string :=
  match detect_risk_keywords text with
  | _ :: _ => "critical"
  | [] =>
      let emotions := detect_emotions text in
      if PrimFloat.ltb 0 (get_score "suicidal" emotions) then "critical"
      else if (PrimFloat.ltb 0.5 (get_score "sad" emotions) ||
               PrimFloat.ltb 0.5 (get_score "anxious" emotions))%bool then "high"
      else if (PrimFloat.ltb 0.2 (get_score "sad" emotions) ||
               PrimFloat.ltb 0.2 (get_score "anxious" emotions))%bool then "medium"
      else "low"
  end.

Definition get_emotional_context (text : string) : EmotionalContext :=
  let emotions := detect_emotions text in
  let '(primary_emotion, confidence) := get_primary_emotion text in
  mkContext emotions primary_emotion confidence
            (assess_risk_level text) (detect_risk_keywords text)
            (len text) (count_words false (code_points text)).

End Detector.

End EmotionDetector.

(** ** screening/intent_recognizer.py *)

Module IntentRecognizer.

(** What [predict_intent] returns: the tag alone, or the tag with its
    confidence when [return_confidence] is set. *)
Inductive Prediction : Type :=
| Tag (tag : string)
| TagConfidence (tag : string) (confidence : float).

(** A constructed recognizer.  [pipeline] is the unpickled classifier as the
    method uses it inside its [try]: from a preprocessed text, the predicted
    tag and its confidence, or the exception the classifier raises.
    [_preprocess] is the tokenising, stop-word and lemmatising step, with
    the exception it raises when a tokeniser or corpus lookup fails. *)
Record t : Type := mk {
  pipeline : option (string -> result (string * float));
  _preprocess : string -> result string
}.

Definition unknown (return_confidence : bool) : Prediction :=
  if return_confidence then TagConfidence "unknown" 0%float else Tag "unknown".

(** The method [IntentRecognizer.predict_intent].  Beside the outcome it
    reports the texts handed to the classifier, one per invocation.  The
    preprocessing runs before the [try], so that its exception leaves the
    method. *)
Definition predict_intent (self : t) (text : string) (return_confidence : bool)
  : result Prediction * list string :=
  match pipeline self with
  | None => (Raise (RuntimeError "Model not loaded. Call _load_model() first."), [])
  | Some classifier =>
      if (negb (nonempty text) || negb (nonempty (strip text)))%bool then
        (Ok (unknown return_confidence), [])
      else
        match _preprocess self text with
        | Raise e => (Raise e, [])
        | Ok preprocessed =>
            match classifier preprocessed with
            | Ok (predicted_tag, confidence) =>
                (Ok (if return_confidence then TagConfidence predicted_tag confidence
                     else Tag predicted_tag),
                 [preprocessed])
            | Raise _ => (Ok (unknown return_confidence), [preprocessed])
            end
        end
  end.

End IntentRecognizer.

Module Intent.

Import IntentRecognizer.

Definition DEFAULT_CONFIDENCE_THRESHOLD : float := 0.6%float.

(** The outcome of a call of the module-level function: what it returns or
    raises, the value of the global [_recognizer_instance] afterwards, and
    the texts handed to the classifier during the call. *)
Record Outcome : Type := mkOutcome {
  returned : result Prediction;
  instance_after : option IntentRecognizer.t;
  classifier_calls : list string
}.

(** [tag, confidence = result] and the threshold test. *)
Definition apply_threshold (p : Prediction) (confidence_threshold : float)
  : string * float :=
  match p with
  | TagConfidence tag confidence =>
      (if PrimFloat.ltb confidence confidence_threshold then "out_of_scope" else tag,
       confidence)
  | Tag tag => (tag, 0%float)
  end.

(** The module-level [predict_intent].  [construct] is what
    [IntentRecognizer()] gives when the singleton has to be built: the
    recognizer, or the exception of [_load_model]; [instance] is the global
    [_recognizer_instance] on entry. *)
Definition predict_intent (construct : result IntentRecognizer.t)
           (instance : option IntentRecognizer.t)
           (text : string) (return_confidence : bool) (confidence_threshold : float)
  : Outcome :=
  let run (recognizer : IntentRecognizer.t) : Outcome :=
    match IntentRecognizer.predict_intent recognizer text return_confidence with
    | (Raise e, calls) => mkOutcome (Raise e) (Some recognizer) calls
    | (Ok result, calls) =>
        if return_confidence then
          let '(tag, confidence) := apply_threshold result confidence_threshold in
          mkOutcome (Ok (TagConfidence tag confidence)) (Some recognizer) calls
        else
          match IntentRecognizer.predict_intent recognizer text true with
          | (Raise e, calls2) => mkOutcome (Raise e) (Some recognizer) (calls ++ calls2)
          | (Ok result2, calls2) =>
              let '(tag, _) := apply_threshold result2 confidence_threshold in
              mkOutcome (Ok (Tag tag)) (Some recognizer) (calls ++ calls2)
          end
    end in
  match instance with
  | Some recognizer => run recognizer
  | None =>
      match construct with
      | Ok recognizer => run recognizer
      | Raise (FileNotFoundError _) => mkOutcome (Ok (unknown return_confidence)) None []
      | Raise e => mkOutcome (Raise e) None []
      end
  end.

End Intent.

(** ** screening/views.py: [ChatbotConversationViewSet] *)

Module ChatbotConversationViewSet.

(** The bullet the reply templates start their list items with, as the
    source file spells it. *)
Definition bullet : string := "‚Ä¢".

(** The crisis reply of [_generate_bot_response]. *)
Definition crisis_response : string :=
  "I'm concerned about what you're sharing. Your safety is important. Please reach out for immediate help:"
  ++ nl ++ nl
  ++ bullet ++ " Crisis Hotline: 988 (available 24/7)" ++ nl
  ++ bullet ++ " Text HOME to: 741741" ++ nl
  ++ bullet ++ " Emergency: 911" ++ nl ++ nl
  ++ "Would you like me to help you connect with a mental health professional? I'm here to support you.".

Definition screening_navigation : string :=
  "Great ‚Äî let's get you to the screenings. We have PHQ-9 (depression) and GAD-7 (anxiety)."
  ++ nl ++ nl
  ++ "You can start from the Screening section. Would you like me to take you there now?".

Definition self_care_navigation : string :=
  "Self-care coming right up. We offer guided breathing, mindfulness, journaling and more."
  ++ nl ++ nl
  ++ "Open the Self-Care section and I can recommend something to match your current mood.".

Definition dashboard_navigation : string :=
  "Your dashboard shows trends, latest PHQ-9/GAD-7 results, and recommendations."
  ++ nl ++ nl ++ "Shall I open the Dashboard for you?".

Definition capability_menu : string :=
  "I'm focused on supporting your mental health journey. I can help you with:" ++ nl
  ++ bullet ++ " Screening tests (PHQ-9, GAD-7)" ++ nl
  ++ bullet ++ " Self-care exercises" ++ nl
  ++ bullet ++ " Your dashboard and progress" ++ nl ++ nl
  ++ "Which would you like to open?".

(** [any(k in message_lower for k in words)]. *)
Definition any_in (words : list string) (message_lower : string) : bool :=
  existsb (fun k => contains k message_lower) words.

(** Truth value of the optional recommendation. *)
Definition given (triage_recommendation : option string) : option string :=
  match triage_recommendation with
  | Some r => if nonempty r then Some r else None
  | None => None
  end.

(** [max(a, b)] on floats: [b] only when it is greater than [a]. *)
Definition float_max (a b : float) : float :=
  if PrimFloat.ltb a b then b else a.

(** The reply chosen inside the [try] of the intent routing, [None] when no
    branch returns and control reaches the emotion-based replies. *)
Definition intent_reply (intent_tag message_lower : string)
           (triage_recommendation : option string) : option string :=
  if String.eqb intent_tag "out_of_scope" then
    if any_in ["screen"; "phq"; "gad"; "assessment"; "test"] message_lower then
      Some screening_navigation
    else if any_in ["self care"; "self-care"; "breath"; "breathing"; "meditation";
                    "mindful"; "exercise"] message_lower then
      Some self_care_navigation
    else if any_in ["dashboard"; "progress"; "results"; "report"] message_lower then
      Some dashboard_navigation
    else Some capability_menu
  else if String.eqb intent_tag "greeting" then
    Some ("Hello! I'm here to support you. How are you feeling today? You can share what's on your mind, or I can help you navigate the app."
          ++ match given triage_recommendation with
             | Some r => nl ++ nl ++ "Based on your recent assessment, I'd recommend trying: " ++ r
             | None => ""
             end)
  else if String.eqb intent_tag "find_screening" then
    Some ("I can help you take a screening test! We have:" ++ nl
          ++ bullet ++ " PHQ-9: For depression symptoms" ++ nl
          ++ bullet ++ " GAD-7: For anxiety symptoms" ++ nl ++ nl
          ++ "These take just a few minutes and give you clear next steps."
          ++ nl ++ nl ++ "[Go to Screening]")
  else if String.eqb intent_tag "find_self_care" then
    Some ("Great! I can help you find self-care exercises. We have:" ++ nl
          ++ bullet ++ " Breathing exercises" ++ nl
          ++ bullet ++ " Mindfulness meditation" ++ nl
          ++ bullet ++ " Journaling prompts" ++ nl
          ++ bullet ++ " Stress management techniques" ++ nl ++ nl
          ++ match given triage_recommendation with
             | Some r => "Based on your recent assessment, I'd especially recommend: "
                         ++ r ++ "." ++ nl ++ nl
             | None => ""
             end
          ++ "[Open Self-Care]")
  else if String.eqb intent_tag "view_dashboard" then
    Some ("Your dashboard shows your mental health journey, including:" ++ nl
          ++ bullet ++ " Your screening test results" ++ nl
          ++ bullet ++ " Progress over time" ++ nl
          ++ bullet ++ " Personalized recommendations" ++ nl ++ nl
          ++ "[Open Dashboard]")
  else if String.eqb intent_tag "need_help" then
    Some ("I'm here to help! Here's what I can assist you with:" ++ nl ++ nl
          ++ "üîç **Screening Tests**: Take PHQ-9 or GAD-7 assessments" ++ nl
          ++ "üßò **Self-Care**: Access mindfulness, breathing, and wellness exercises" ++ nl
          ++ "üìä **Dashboard**: View your progress and test results" ++ nl
          ++ "üí¨ **Chat**: Talk about what's on your mind" ++ nl ++ nl
          ++ "What would you like to explore?")
  else if String.eqb intent_tag "goodbye" then
    Some "Take care! Remember, I'm here whenever you need support. Don't hesitate to come back if you need help with your mental health journey."
  else if String.eqb intent_tag "thanks" then
    Some "You're very welcome! I'm glad I could help. Feel free to reach out anytime you need support."
  else None.

(** The emotion-based replies and the general fallbacks that follow the
    intent routing. *)
Definition emotion_reply (user_message message_lower emotion : string)
           (triage_recommendation : option string) : string :=
  if String.eqb emotion "sad" then
    "I understand you're feeling down. It's okay to feel this way. Would you like to talk about what's making you feel sad? Sometimes sharing can help."
    ++ match given triage_recommendation with
       | Some r => " I'd also recommend trying: " ++ r ++ "."
       | None => " You might also consider trying one of our self-care exercises."
       end
  else if String.eqb emotion "anxious" then
    "I hear that you're feeling anxious. That can be really challenging. "
    ++ match given triage_recommendation with
       | Some r => "I'd recommend trying: " ++ r ++ ". "
       | None => "Would it help to try a breathing exercise together? "
       end
    ++ "Or would you prefer to talk about what's causing your anxiety?"
  else if String.eqb emotion "happy" then
    "I'm glad to hear you're feeling positive! It's great that you're doing well. Is there anything specific you'd like to discuss or work on today?"
  else
    match given triage_recommendation with
    | Some r =>
        if any_in ["help"; "suggest"; "recommend"; "what should"] message_lower then
          "Based on your recent assessment, I'd recommend trying: " ++ r
          ++ ". This can help manage your symptoms. Would you like me to guide you through it?"
        else if (len user_message <? 20)%nat then
          "I'd like to understand better. Can you tell me more about what you're experiencing? Or if you're looking for something specific, I can help you with:" ++ nl
          ++ bullet ++ " Screening tests" ++ nl
          ++ bullet ++ " Self-care exercises" ++ nl
          ++ bullet ++ " Your dashboard"
        else
          "I appreciate you sharing that. What would be most helpful for you right now?"
          ++ " You might also find '" ++ r ++ "' helpful."
    | None =>
        if (len user_message <? 20)%nat then
          "I'd like to understand better. Can you tell me more about what you're experiencing? Or if you're looking for something specific, I can help you with:" ++ nl
          ++ bullet ++ " Screening tests" ++ nl
          ++ bullet ++ " Self-care exercises" ++ nl
          ++ bullet ++ " Your dashboard"
        else
          "I appreciate you sharing that. What would be most helpful for you right now?"
    end.

Inductive Body : Type :=
| ErrorBody (error : string)
| ReplyBody (user_message bot_response : ChatbotMessage.t)
            (emotional_context : EmotionDetector.EmotionalContext)
            (triage_recommendation : option string).

Record Response : Type := mkResponse {
  status : Z;
  body : Body
}.

Section Chatbot.

(** The collaborators of the chatbot: the lowercase mapping of
    [str.lower], the keyword scoring of the emotion detector, what
    constructing the intent recognizer gives, and the global recognizer
    instance when the request arrives. *)
Variable to_lower : list string -> string -> list string -> string.
Variable keyword_scores : string -> list (string * float).
Variable construct : result IntentRecognizer.t.
Variable instance : option IntentRecognizer.t.

(** [_generate_bot_response].  An exception of [predict_intent] is caught
    and, like an intent no branch handles, leads to the emotion-based
    replies. *)
Definition _generate_bot_response (user_message emotion risk_level : string)
           (risk_keywords : list string) (triage_recommendation : option string)
  : string :=
  let message_lower := lower to_lower user_message in
  if (String.eqb risk_level "critical" ||
      match risk_keywords with [] => false | _ :: _ => true end)%bool then
    crisis_response
  else
    let routed :=
      match Intent.returned
              (Intent.predict_intent construct instance user_message true
                 (float_max 0 (PrimFloat.sub Intent.DEFAULT_CONFIDENCE_THRESHOLD 0.2)))
      with
      | Ok (IntentRecognizer.TagConfidence intent_tag _) =>
          intent_reply intent_tag message_lower triage_recommendation
      | Ok (IntentRecognizer.Tag intent_tag) =>
          intent_reply intent_tag message_lower triage_recommendation
      | Raise _ => None
      end in
    match routed with
    | Some reply => reply
    | None => emotion_reply user_message message_lower emotion triage_recommendation
    end.

(** [send_message] from the point where the conversation has been looked
    up: [conversation] is the conversation the lookup settled on, [None]
    when it found none; [message] is the request's ['message'] entry; the
    store is the one the lookup leaves, which may have created an account
    and a patient for the caller. *)
Definition send_message (now : Z) (conversation : option ChatbotConversation.t)
           (message : option string) (st : Store.t) : Response * Store.t :=
  match conversation with
  | None => (mkResponse 404 (ErrorBody "Conversation not found"), st)
  | Some conversation =>
      let user_message := strip (match message with Some m => m | None => "" end) in
      if negb (nonempty user_message) then
        (mkResponse 400 (ErrorBody "Message cannot be empty"), st)
      else
        let emotional_context :=
          EmotionDetector.get_emotional_context to_lower keyword_scores user_message in
        let '(primary_emotion, confidence) :=
          EmotionDetector.get_primary_emotion keyword_scores user_message in
        let risk_level := EmotionDetector.risk_level emotional_context in
        let risk_keywords := EmotionDetector.risk_keywords emotional_context in
        let patient := ChatbotConversation.patient conversation in
        let latest_phq9 :=
          Orm.first_newest PHQ9Screening.created_at
            (filter (fun s => PHQ9Screening.patient s =? patient)
                    (Store.phq9_screenings st)) in
        let latest_gad7 :=
          Orm.first_newest GAD7Screening.created_at
            (filter (fun s => GAD7Screening.patient s =? patient)
                    (Store.gad7_screenings st)) in
        let triage_recommendation :=
          match latest_phq9, latest_gad7 with
          | None, None => None
          | _, _ =>
              let assessment :=
                TriageService.get_comprehensive_assessment
                  (option_map PHQ9Screening.total_score latest_phq9)
                  (option_map GAD7Screening.total_score latest_gad7)
                  (match latest_phq9 with
                   | Some s => PHQ9Screening.q9_suicidal s >=? 2
                   | None => false
                   end) in
              match snd assessment with
              | r :: _ => Some r
              | [] => None
              end
          end in
        let user_msg :=
          ChatbotMessage.mk (Orm.next_pk ChatbotMessage.id (Store.chatbot_messages st))
            (ChatbotConversation.id conversation) "user" user_message
            primary_emotion (Some confidence) risk_level risk_keywords now in
        let st1 := Store.with_chatbot_messages (Store.chatbot_messages st ++ [user_msg]) st in
        let bot_response :=
          _generate_bot_response user_message primary_emotion risk_level risk_keywords
                                 triage_recommendation in
        let bot_msg :=
          ChatbotMessage.mk (Orm.next_pk ChatbotMessage.id (Store.chatbot_messages st1))
            (ChatbotConversation.id conversation) "bot" bot_response
            "" None "" [] now in
        let st2 := Store.with_chatbot_messages (Store.chatbot_messages st1 ++ [bot_msg]) st1 in
        let st3 :=
          if String.eqb risk_level "critical" then
            let '(alert, st') :=
              Store.create_alert now patient "crisis"
                ("Critical risk detected in chatbot conversation: "
                 ++ take 100 user_message) st2 in
            Store.delay (send_alert_notification (ScreeningAlert.id alert) "critical") st'
          else st2 in
        (mkResponse 200 (ReplyBody user_msg bot_msg emotional_context triage_recommendation),
         st3)
  end.

End Chatbot.

End ChatbotConversationViewSet.

(** ** screening/triage_engine.py: the legacy [TriageEngine] *)

Module TriageEngine.

(** [_create_alert]: the alert row, then its notification job at priority
    "high".  [patient] is the key of the patient. *)
Definition _create_alert (now patient : Z) (alert_type message : string)
           (st : Store.t) : Store.t :=
  let '(alert, st1) := Store.create_alert now patient alert_type message st in
  Store.delay (send_alert_notification (ScreeningAlert.id alert) "high") st1.

(** [_check_score_increase].  Of [current_screening] the method reads the
    key and the total, given here as [current_id] and [current_total]; any
    [screening_type] other than "phq9" is looked up among the GAD-7
    screenings. *)
Definition _check_score_increase (now patient current_id current_total : Z)
           (screening_type : string) (st : Store.t) : Store.t :=
  let two_weeks_ago := now - TriageService.timedelta_days 14 in
  let previous_total :=
    if String.eqb screening_type "phq9" then
      option_map PHQ9Screening.total_score
        (Orm.first_newest PHQ9Screening.created_at
           (filter (fun s => negb (PHQ9Screening.id s =? current_id))
              (filter (fun s => ((PHQ9Screening.patient s =? patient) &&
                                 (PHQ9Screening.created_at s >=? two_weeks_ago))%bool)
                      (Store.phq9_screenings st))))
    else
      option_map GAD7Screening.total_score
        (Orm.first_newest GAD7Screening.created_at
           (filter (fun s => negb (GAD7Screening.id s =? current_id))
              (filter (fun s => ((GAD7Screening.patient s =? patient) &&
                                 (GAD7Screening.created_at s >=? two_weeks_ago))%bool)
                      (Store.gad7_screenings st)))) in
  match previous_total with
  | Some previous =>
      let score_increase := current_total - previous in
      if score_increase >=? 5 then
        _create_alert now patient "score_increase"
          ("Significant " ++ upper screening_type ++ " score increase of "
           ++ str_of_int score_increase ++ " points in 2 weeks") st
      else st
  | None => st
  end.

(** [assess_risk_level]. *)
Definition assess_risk_level (phq9_score gad7_score : Z) (suicidal_ideation : bool)
  : string :=
  if (suicidal_ideation || (phq9_score >=? 20) || (gad7_score >=? 15))%bool then "critical"
  else if ((phq9_score >=? 15) || (gad7_score >=? 10))%bool then "high"
  else if ((phq9_score >=? 10) || (gad7_score >=? 7))%bool then "medium"
  else "low".

(** [get_recommendations]; the two scores are not read. *)
Definition get_recommendations (phq9_score gad7_score : Z) (risk_level : string)
  : list string :=
  if String.eqb risk_level "critical" then
    ["Immediate crisis intervention required"; "Consider hospitalization";
     "24/7 monitoring"; "Crisis hotline contact"]
  else if String.eqb risk_level "high" then
    ["Urgent teleconsultation within 24 hours"; "Consider medication evaluation";
     "Intensive therapy program"; "Regular safety checks"]
  else if String.eqb risk_level "medium" then
    ["Teleconsultation within 1 week"; "Self-care pathway activation";
     "Regular mood monitoring"; "Therapy referral"]
  else
    ["Self-care pathway"; "Regular screening";
     "Lifestyle modifications"; "Preventive measures"].

End TriageEngine.

(** ** screening/tasks.py: [schedule_teleconsult] *)

Module Tasks.

Definition mark_scheduled (r : TeleconsultReferral.t) : TeleconsultReferral.t :=
  TeleconsultReferral.mk (TeleconsultReferral.id r) (TeleconsultReferral.patient r)
    (TeleconsultReferral.reason r) (TeleconsultReferral.priority r) "scheduled"
    (TeleconsultReferral.created_at r).

(** [schedule_teleconsult]: the referral is loaded, its status set to
    "scheduled" and the row saved under its key; any exception (an unknown
    key) is logged and swallowed. *)
Definition schedule_teleconsult (referral_id : Z) (st : Store.t) : Store.t :=
  match Orm.get "TeleconsultReferral"
          (fun r => TeleconsultReferral.id r =? referral_id)
          (Store.teleconsult_referrals st) with
  | Ok referral =>
      Store.with_teleconsult_referrals
        (map (fun r => if TeleconsultReferral.id r =? TeleconsultReferral.id referral
                       then mark_scheduled referral else r)
             (Store.teleconsult_referrals st)) st
  | Raise _ => st
  end.

End Tasks.

(** ** screening/views.py: the patient-scoped query sets and the summary *)

Module PatientScopedViews.

(** [patient__user=self.request.user]: the row's patient belongs to the
    calling account. *)
Definition owned_by (request_user : Z) (st : Store.t) (patient : Z) : bool :=
  existsb (fun p => ((Patient.id p =? patient) && (Patient.user p =? request_user))%bool)
          (Store.patients st).

(** [PHQ9ScreeningViewSet.get_queryset]. *)
Definition phq9_queryset (request_user : Z) (st : Store.t) : list PHQ9Screening.t :=
  filter (fun s => owned_by request_user st (PHQ9Screening.patient s))
         (Store.phq9_screenings st).

(** [GAD7ScreeningViewSet.get_queryset]. *)
Definition gad7_queryset (request_user : Z) (st : Store.t) : list GAD7Screening.t :=
  filter (fun s => owned_by request_user st (GAD7Screening.patient s))
         (Store.gad7_screenings st).

(** [ScreeningAlertViewSet.get_queryset]. *)
Definition alert_queryset (request_user : Z) (st : Store.t) : list ScreeningAlert.t :=
  filter (fun a => owned_by request_user st (ScreeningAlert.patient a))
         (Store.screening_alerts st).

(** [TeleconsultReferralViewSet.get_queryset]. *)
Definition referral_queryset (request_user : Z) (st : Store.t)
  : list TeleconsultReferral.t :=
  filter (fun r => owned_by request_user st (TeleconsultReferral.patient r))
         (Store.teleconsult_referrals st).

End PatientScopedViews.

Module ScreeningSummaryViewSet.

(** The summary document, but for [patient_name], which is read from the
    account. *)
Record Summary : Type := mkSummary {
  patient_id : Z;
  latest_phq9_score : option Z;
  latest_gad7_score : option Z;
  risk_level : string;
  last_screening_date : option Z;
  requires_attention : bool
}.

(** The escalation of [list] over the risk levels of the two screenings it
    looked up: the overall level and the attention flag. *)
Definition escalate (phq9_risk gad7_risk : option string) : string * bool :=
  let '(risk_level, requires_attention) :=
    match phq9_risk with
    | Some r =>
        if String.eqb r "critical" then ("critical", true)
        else if String.eqb r "high" then ("high", true)
        else if String.eqb r "medium" then ("medium", false)
        else ("low", false)
    | None => ("low", false)
    end in
  match gad7_risk with
  | Some r =>
      if (String.eqb r "critical" && negb (String.eqb risk_level "critical"))%bool then
        ("critical", true)
      else if (String.eqb r "high" &&
               (String.eqb risk_level "low" || String.eqb risk_level "medium"))%bool then
        ("high", true)
      else (risk_level, requires_attention)
  | None => (risk_level, requires_attention)
  end.

(** [list]: both screenings come from [.first()] on a query set with no
    ordering. *)
Definition list (request_user : Z) (st : Store.t) : result Summary :=
  patient <- Orm.get "Patient" (fun p => Patient.user p =? request_user)
                     (Store.patients st) ;;
  let latest_phq9 :=
    Orm.first_unordered PHQ9Screening.id
      (filter (fun s => PHQ9Screening.patient s =? Patient.id patient)
              (Store.phq9_screenings st)) in
  let latest_gad7 :=
    Orm.first_unordered GAD7Screening.id
      (filter (fun s => GAD7Screening.patient s =? Patient.id patient)
              (Store.gad7_screenings st)) in
  let '(risk_level, requires_attention) :=
    escalate (option_map PHQ9Screening.risk_level latest_phq9)
             (option_map GAD7Screening.risk_level latest_gad7) in
  Ok (mkSummary (Patient.id patient)
        (option_map PHQ9Screening.total_score latest_phq9)
        (option_map GAD7Screening.total_score latest_gad7)
        risk_level
        (option_map PHQ9Screening.created_at latest_phq9)
        requires_attention).

End ScreeningSummaryViewSet.

(** ** selfcare/models.py and selfcare/views.py: exercises and progress *)

Module SelfCareExercise.
Record t : Type := mk {
  id : Z;
  name : string;
  exercise_type : string;
  is_active : bool
}.
End SelfCareExercise.

Module PatientSelfCareProgress.
Record t : Type := mk {
  id : Z;
  patient : Z;
  pathway : Z;
  is_completed : bool;
  completed_at : option Z;
  progress_percentage : float
}.
End PatientSelfCareProgress.

Module ExerciseCompletion.
Record t : Type := mk {
  id : Z;
  patient : Z;
  exercise : Z;
  completed_at : Z;
  duration_actual : option Z;
  rating : option Z;
  notes : string
}.
End ExerciseCompletion.

(** The tables of the self-care application that the progress views read
    and write, beside the patients of the store. *)
Module SelfCareDb.
Record t : Type := mk {
  exercises : list SelfCareExercise.t;
  progress : list PatientSelfCareProgress.t;
  completions : list ExerciseCompletion.t
}.
End SelfCareDb.

Module SelfCareExerciseViewSet.

(** The class attribute [queryset]: the active exercises. *)
Definition queryset (db : SelfCareDb.t) : list SelfCareExercise.t :=
  filter SelfCareExercise.is_active (SelfCareDb.exercises db).

Inductive Body : Type :=
| Exercises (rows : list SelfCareExercise.t)
| ErrorBody (error : string).

(** [by_type]: [exercise_type] is the query parameter ['type'], [None] when
    absent; an empty value counts as absent. *)
Definition by_type (exercise_type : option string) (db : SelfCareDb.t) : Z * Body :=
  match exercise_type with
  | Some ty =>
      if nonempty ty then
        (200, Exercises (filter (fun e => String.eqb (SelfCareExercise.exercise_type e) ty)
                                (queryset db)))
      else (400, ErrorBody "Type parameter required")
  | None => (400, ErrorBody "Type parameter required")
  end.

End SelfCareExerciseViewSet.

Module PatientSelfCareProgressViewSet.

Record Response : Type := mkResponse {
  status : Z;
  text : string
}.

(** [get_queryset]: the progress rows of the calling account's patient. *)
Definition get_queryset (request_user : Z) (st : Store.t) (db : SelfCareDb.t)
  : result (list PatientSelfCareProgress.t) :=
  patient <- Orm.get "Patient" (fun p => Patient.user p =? request_user)
                     (Store.patients st) ;;
  Ok (filter (fun r => PatientSelfCareProgress.patient r =? Patient.id patient)
             (SelfCareDb.progress db)).

(** [get_object]: the row of key [pk] within [get_queryset], [Http404] when
    there is none. *)
Definition get_object (request_user pk : Z) (st : Store.t) (db : SelfCareDb.t)
  : result PatientSelfCareProgress.t :=
  rows <- get_queryset request_user st db ;;
  match Orm.get "PatientSelfCareProgress"
          (fun r => PatientSelfCareProgress.id r =? pk) rows with
  | Raise (DoesNotExist _) => Raise Http404
  | other => other
  end.

(** [min(a, b)] on floats: [b] only when it is less than [a]. *)
Definition float_min (a b : float) : float :=
  if PrimFloat.ltb b a then b else a.

(** The update of the progress record in [complete_exercise]. *)
Definition advance (now : Z) (progress : PatientSelfCareProgress.t)
  : PatientSelfCareProgress.t :=
  let percentage :=
    float_min 100%float
      (PrimFloat.add (PatientSelfCareProgress.progress_percentage progress) 10%float) in
  if PrimFloat.leb 100%float percentage then
    PatientSelfCareProgress.mk (PatientSelfCareProgress.id progress)
      (PatientSelfCareProgress.patient progress) (PatientSelfCareProgress.pathway progress)
      true (Some now) percentage
  else
    PatientSelfCareProgress.mk (PatientSelfCareProgress.id progress)
      (PatientSelfCareProgress.patient progress) (PatientSelfCareProgress.pathway progress)
      (PatientSelfCareProgress.is_completed progress)
      (PatientSelfCareProgress.completed_at progress) percentage.

(** [progress.save()]: the row of the same key is replaced. *)
Definition save_progress (row : PatientSelfCareProgress.t) (db : SelfCareDb.t)
  : SelfCareDb.t :=
  SelfCareDb.mk (SelfCareDb.exercises db)
    (map (fun r => if PatientSelfCareProgress.id r =? PatientSelfCareProgress.id row
                   then row else r)
         (SelfCareDb.progress db))
    (SelfCareDb.completions db).

(** [complete_exercise].  [exercise_id] is the integer of the request body,
    [None] when the key is absent; [duration_actual], [rating] and [notes]
    are the other entries.  A completion of the same patient and exercise
    at the same instant violates the uniqueness of the table. *)
Definition complete_exercise (now request_user pk : Z) (exercise_id : option Z)
           (duration_actual rating : option Z) (notes : string)
           (st : Store.t) (db : SelfCareDb.t) : result Response * SelfCareDb.t :=
  match get_object request_user pk st db with
  | Raise e => (Raise e, db)
  | Ok progress =>
      match exercise_id with
      | None => (Ok (mkResponse 400 "Exercise ID required"), db)
      | Some exercise_id =>
          if exercise_id =? 0 then (Ok (mkResponse 400 "Exercise ID required"), db)
          else
            match Orm.get "SelfCareExercise"
                    (fun e => SelfCareExercise.id e =? exercise_id)
                    (SelfCareDb.exercises db) with
            | Raise (DoesNotExist _) => (Ok (mkResponse 404 "Exercise not found"), db)
            | Raise e => (Raise e, db)
            | Ok exercise =>
                if existsb
                     (fun c => ((ExerciseCompletion.patient c
                                 =? PatientSelfCareProgress.patient progress) &&
                                (ExerciseCompletion.exercise c
                                 =? SelfCareExercise.id exercise) &&
                                (ExerciseCompletion.completed_at c =? now))%bool)
                     (SelfCareDb.completions db)
                then
                  (Raise (IntegrityError
                            "UNIQUE constraint failed: selfcare_exercisecompletion"), db)
                else
                  let completion :=
                    ExerciseCompletion.mk
                      (Orm.next_pk ExerciseCompletion.id (SelfCareDb.completions db))
                      (PatientSelfCareProgress.patient progress)
                      (SelfCareExercise.id exercise) now duration_actual rating notes in
                  let db1 :=
                    SelfCareDb.mk (SelfCareDb.exercises db) (SelfCareDb.progress db)
                                  (SelfCareDb.completions db ++ [completion]) in
                  (Ok (mkResponse 200 "Exercise completed successfully"),
                   save_progress (advance now progress) db1)
            end
      end
  end.

End PatientSelfCareProgressViewSet.

(** ** clinician/views.py: assignments, appointments and the dashboard *)

Module Appointment.
Record t : Type := mk {
  id : Z;
  patient : Z;
  clinician : Z;
  scheduled_date : Z;
  status : string;
  clinician_notes : string;
  completed_at : option Z
}.
End Appointment.

Module PatientAssignmentViewSet.

Definition get_queryset (request_user : Z) (st : Store.t)
  : result (list PatientAssignment.t) :=
  clinician <- ClinicianViews.get_clinician request_user st ;;
  Ok (filter (fun a => ((PatientAssignment.clinician a =? Clinician.id clinician) &&
                        PatientAssignment.is_active a)%bool)
             (Store.assignments st)).

End PatientAssignmentViewSet.

Module AppointmentViewSet.

(** [get_queryset]: the appointments of the calling clinician; the table of
    appointments is passed beside the store. *)
Definition get_queryset (request_user : Z) (st : Store.t)
           (appointments : list Appointment.t) : result (list Appointment.t) :=
  clinician <- ClinicianViews.get_clinician request_user st ;;
  Ok (filter (fun a => Appointment.clinician a =? Clinician.id clinician) appointments).

(** [complete]: the appointment of key [pk] among the caller's is marked
    completed, stamped and given the notes of the request; the table after
    the save is returned. *)
Definition complete (now request_user pk : Z) (clinician_notes : string)
           (st : Store.t) (appointments : list Appointment.t)
  : result (list Appointment.t) :=
  rows <- get_queryset request_user st appointments ;;
  match Orm.get "Appointment" (fun a => Appointment.id a =? pk) rows with
  | Raise (DoesNotExist _) => Raise Http404
  | Raise e => Raise e
  | Ok appointment =>
      let saved :=
        Appointment.mk (Appointment.id appointment) (Appointment.patient appointment)
          (Appointment.clinician appointment) (Appointment.scheduled_date appointment)
          "completed" clinician_notes (Some now) in
      Ok (map (fun a => if Appointment.id a =? Appointment.id saved then saved else a)
              appointments)
  end.

End AppointmentViewSet.

Module ClinicianDashboardViewSet.

Record Stats : Type := mkStats {
  total_patients : Z;
  high_risk_patients : Z;
  new_screenings_today : Z;
  alerts_pending : Z;
  appointments_today : Z;
  risk_low : Z;
  risk_medium : Z;
  risk_high : Z;
  risk_critical : Z
}.

Inductive Body : Type :=
| StatsBody (stats : Stats)
| ErrorBody (error : string).

(** [.count()]. *)
Definition count {A : Type} (rows : list A) : Z := Z.of_nat (List.length rows).

(** The trends of the assigned patients at a given risk level. *)
Definition trends_at (assigned_patients : list Z) (level : string) (st : Store.t)
  : list PatientTrend.t :=
  filter (fun r => (ClinicianViews.is_in assigned_patients (PatientTrend.patient r) &&
                    String.eqb (PatientTrend.risk_level r) level)%bool)
         (Store.trends st).

Section Stats.

(** The calendar date of a timestamp in the active time zone. *)
Variable date_of : Z -> Z.

(** [stats]: [today] is [date.today()]; the table of appointments is passed
    beside the store.  The screening trends of the document stay empty. *)
Definition stats (today request_user : Z) (st : Store.t)
           (appointments : list Appointment.t) : result (Z * Body) :=
  match ClinicianViews.get_clinician request_user st with
  | Raise (DoesNotExist _) => Ok (404, ErrorBody "Clinician not found")
  | Raise e => Raise e
  | Ok clinician =>
      let assigned_patients := ClinicianViews.assigned_patients clinician st in
      let high_risk :=
        nodup Z.eq_dec
          (map PatientTrend.patient
               (filter (fun r =>
                          (ClinicianViews.is_in assigned_patients (PatientTrend.patient r) &&
                           (String.eqb (PatientTrend.risk_level r) "high" ||
                            String.eqb (PatientTrend.risk_level r) "critical"))%bool)
                       (Store.trends st))) in
      Ok (200,
          StatsBody
            (mkStats
               (count assigned_patients)
               (count high_risk)
               0
               (count (filter (fun a =>
                                 (ClinicianViews.is_in assigned_patients
                                    (ScreeningAlert.patient a) &&
                                  negb (ScreeningAlert.is_resolved a))%bool)
                              (Store.screening_alerts st)))
               (count (filter (fun a =>
                                 ((Appointment.clinician a =? Clinician.id clinician) &&
                                  (date_of (Appointment.scheduled_date a) =? today))%bool)
                              appointments))
               (count (trends_at assigned_patients "low" st))
               (count (trends_at assigned_patients "medium" st))
               (count (trends_at assigned_patients "high" st))
               (count (trends_at assigned_patients "critical" st))))
  end.

End Stats.

End ClinicianDashboardViewSet.

(* ===================================================================== *)
(** * Part II.  Properties                                                *)
(* ===================================================================== *)

(** ** Scoring on the persisted record *)

Module ScoringProps.

(** An answer on the 0..3 scale. *)
Definition on_scale (a : Z) : Prop := 0 <= a <= 3.

Definition phq9_on_scale (s : PHQ9Screening.t) : Prop :=
  on_scale (PHQ9Screening.q1_interest s) /\ on_scale (PHQ9Screening.q2_depressed s) /\
  on_scale (PHQ9Screening.q3_sleep s) /\ on_scale (PHQ9Screening.q4_energy s) /\
  on_scale (PHQ9Screening.q5_appetite s) /\ on_scale (PHQ9Screening.q6_self_esteem s) /\
  on_scale (PHQ9Screening.q7_concentration s) /\ on_scale (PHQ9Screening.q8_psychomotor s) /\
  on_scale (PHQ9Screening.q9_suicidal s).

(** The sum of the nine answers of a record. *)
Definition phq9_sum (s : PHQ9Screening.t) : Z :=
  PHQ9Screening.q1_interest s + PHQ9Screening.q2_depressed s +
  PHQ9Screening.q3_sleep s + PHQ9Screening.q4_energy s +
  PHQ9Screening.q5_appetite s + PHQ9Screening.q6_self_esteem s +
  PHQ9Screening.q7_concentration s + PHQ9Screening.q8_psychomotor s +
  PHQ9Screening.q9_suicidal s.

(** The severity bands of the PHQ-9 and of the GAD-7, as the specification
    words them. *)
Definition phq9_band (total : Z) (level : string) : Prop :=
  (total <= 4 -> level = "minimal") /\
  (4 < total <= 9 -> level = "mild") /\
  (9 < total <= 14 -> level = "moderate") /\
  (14 < total <= 19 -> level = "moderately_severe") /\
  (19 < total -> level = "severe").

Definition gad7_band (total : Z) (level : string) : Prop :=
  (total <= 4 -> level = "minimal") /\
  (4 < total <= 9 -> level = "mild") /\
  (9 < total <= 14 -> level = "moderate") /\
  (14 < total -> level = "severe").

(** The record built from an answer vector the way the submission views
    build it, item by item. *)
Definition phq9_of_answers (patient : Z) (l : list Z) : PHQ9Screening.t :=
  PHQ9Screening.new patient (nth 0 l 0) (nth 1 l 0) (nth 2 l 0) (nth 3 l 0)
    (nth 4 l 0) (nth 5 l 0) (nth 6 l 0) (nth 7 l 0) (nth 8 l 0).

Definition gad7_of_answers (patient : Z) (l : list Z) : GAD7Screening.t :=
  GAD7Screening.new patient (nth 0 l 0) (nth 1 l 0) (nth 2 l 0) (nth 3 l 0)
    (nth 4 l 0) (nth 5 l 0) (nth 6 l 0).

(** Decides the integer comparisons met in the goal, one at a time. *)
Ltac split_comparisons :=
  repeat match goal with
         | |- context [?a <=? ?b] => destruct (Z.leb_spec a b)
         | |- context [?a >=? ?b] =>
             rewrite (Z.geb_leb a b); destruct (Z.leb_spec b a)
         | |- context [?a <? ?b] => destruct (Z.ltb_spec a b)
         | |- context [?a >? ?b] =>
             rewrite (Z.gtb_ltb a b); destruct (Z.ltb_spec b a)
         end.

Lemma phq9_save_total (self : PHQ9Screening.t) :
  PHQ9Screening.total_score (PHQ9Screening.save self) = phq9_sum self.
Proof.
  unfold PHQ9Screening.save, phq9_sum.
  destruct (_ || _)%bool; [reflexivity|].
  destruct (_ >=? 10); [reflexivity|].
  destruct (_ >=? 5); reflexivity.
Qed.

Lemma phq9_save_severity (self : PHQ9Screening.t) :
  PHQ9Screening.severity_level (PHQ9Screening.save self)
  = TriageService._get_phq9_severity (phq9_sum self).
Proof.
  unfold PHQ9Screening.save, phq9_sum, TriageService._get_phq9_severity.
  destruct (_ || _)%bool; [reflexivity|].
  destruct (_ >=? 10); [reflexivity|].
  destruct (_ >=? 5); reflexivity.
Qed.

Lemma phq9_severity_band (total : Z) :
  phq9_band total (TriageService._get_phq9_severity total).
Proof.
  unfold phq9_band, TriageService._get_phq9_severity.
  split_comparisons; repeat split; intros; try reflexivity; lia.
Qed.

Lemma gad7_severity_band (total : Z) :
  gad7_band total (TriageService._get_gad7_severity total).
Proof.
  unfold gad7_band, TriageService._get_gad7_severity.
  split_comparisons; repeat split; intros; try reflexivity; lia.
Qed.

(** C1.  For a PHQ-9 record whose nine answers lie in 0..3, [save] leaves a
    record whose total is the sum of the answers (between 0 and 27), whose
    severity follows the bands, and whose risk is "critical" with both flags
    set exactly when the total is at least 15 or the ninth answer at least
    2; otherwise "high" with the teleconsult flag set from a total of 10,
    otherwise "medium" from a total of 5, otherwise "low". *)
Theorem phq9_save_scores_and_risk (self : PHQ9Screening.t) :
  phq9_on_scale self ->
  let saved := PHQ9Screening.save self in
  let total := phq9_sum self in
  let critical := total >= 15 \/ PHQ9Screening.q9_suicidal self >= 2 in
  PHQ9Screening.total_score saved = total /\
  0 <= total <= 27 /\
  phq9_band total (PHQ9Screening.severity_level saved) /\
  ((PHQ9Screening.risk_level saved = "critical" /\
    PHQ9Screening.requires_immediate_attention saved = true /\
    PHQ9Screening.requires_teleconsult saved = true) <-> critical) /\
  (~ critical -> total >= 10 ->
   PHQ9Screening.risk_level saved = "high" /\
   PHQ9Screening.requires_teleconsult saved = true) /\
  (~ critical -> total < 10 -> total >= 5 ->
   PHQ9Screening.risk_level saved = "medium") /\
  (~ critical -> total < 5 -> PHQ9Screening.risk_level saved = "low").
Proof.
  intros Hscale saved total critical.
  split; [apply phq9_save_total|].
  split.
  { unfold phq9_on_scale, on_scale in Hscale. subst total. unfold phq9_sum. lia. }
  split.
  { subst saved. rewrite phq9_save_severity. apply phq9_severity_band. }
  subst saved critical total.
  unfold PHQ9Screening.save. fold (phq9_sum self).
  generalize (phq9_sum self) as total. intro total.
  rewrite !Z.geb_leb.
  destruct (Z.leb_spec 15 total); cbn.
  { repeat split; intros; try lia; tauto. }
  destruct (Z.leb_spec 2 (PHQ9Screening.q9_suicidal self)); cbn.
  { repeat split; intros; try lia; tauto. }
  destruct (Z.leb_spec 10 total); cbn.
  { repeat split; intros; try lia; try discriminate.
    destruct H2 as [H2 _]. discriminate. }
  destruct (Z.leb_spec 5 total); cbn.
  { repeat split; intros; try lia; try discriminate.
    destruct H3 as [H3 _]. discriminate. }
  repeat split; intros; try lia; try discriminate.
  destruct H3 as [H3 _]. discriminate.
Qed.

(** The record of the specification's first example: answers
    0,1,2,1,0,2,1,0,1. *)
Definition phq9_example : PHQ9Screening.t :=
  PHQ9Screening.new 1 0 1 2 1 0 2 1 0 1.

Lemma phq9_save_scores_and_risk_witness :
  phq9_on_scale phq9_example /\
  PHQ9Screening.total_score (PHQ9Screening.save phq9_example) = 8.
Proof.
  assert (H : phq9_on_scale phq9_example).
  { unfold phq9_on_scale, on_scale, phq9_example. cbn. lia. }
  split; [exact H|].
  exact (proj1 (phq9_save_scores_and_risk phq9_example H)).
Defined.

End ScoringProps.

(** ** The calculators of the rule engine and the submission views *)

Module SurveyProps.

Import ScoringProps.

Definition gad7_sum (s : GAD7Screening.t) : Z :=
  GAD7Screening.q1_nervous s + GAD7Screening.q2_worry s +
  GAD7Screening.q3_worry_control s + GAD7Screening.q4_trouble_relaxing s +
  GAD7Screening.q5_restless s + GAD7Screening.q6_irritable s +
  GAD7Screening.q7_afraid s.

Lemma gad7_save_total (self : GAD7Screening.t) :
  GAD7Screening.total_score (GAD7Screening.save self) = gad7_sum self.
Proof.
  unfold GAD7Screening.save, gad7_sum.
  destruct (_ >=? 15); [reflexivity|].
  destruct (_ >=? 10); [reflexivity|].
  destruct (_ >=? 5); reflexivity.
Qed.

Lemma gad7_save_severity (self : GAD7Screening.t) :
  GAD7Screening.severity_level (GAD7Screening.save self)
  = TriageService._get_gad7_severity (gad7_sum self).
Proof.
  unfold GAD7Screening.save, gad7_sum, TriageService._get_gad7_severity.
  destruct (_ >=? 15); [reflexivity|].
  destruct (_ >=? 10); [reflexivity|].
  destruct (_ >=? 5); reflexivity.
Qed.

(** The validation loop accepts a vector of integers on the scale. *)
Lemma check_answers_on_scale (name : string) (l : list Z) :
  Forall on_scale l ->
  forall i, TriageService.check_answers name i (map VInt l) = Ok tt.
Proof.
  induction 1 as [|a l Ha _ IH]; intro i; cbn; [reflexivity|].
  unfold on_scale in Ha.
  destruct (Z.ltb_spec a 0); [lia|].
  rewrite Z.gtb_ltb. destruct (Z.ltb_spec 3 a); [lia|].
  cbn. apply IH.
Qed.

Lemma sum_ints_from (l : list Z) :
  forall acc,
    fold_left (fun acc v => acc + match int_value v with Some z => z | None => 0 end)
              (map VInt l) acc
    = fold_left Z.add l acc.
Proof.
  induction l as [|a l IH]; intro acc; cbn; [reflexivity|]. apply IH.
Qed.

Lemma sum_ints_map (l : list Z) : sum_ints (map VInt l) = fold_left Z.add l 0.
Proof. unfold sum_ints. apply sum_ints_from. Qed.

(** The calculators succeed on a well-formed vector and return its sum with
    the band of the sum. *)
Lemma calculate_on_scale (name : string) (n : nat) (severity : Z -> string)
      (survey_type : string) (l : list Z) :
  n <> 0%nat -> List.length l = n -> Forall on_scale l ->
  TriageService.calculate name n severity survey_type (VList (map VInt l))
  = Ok (TriageService.mkScore (fold_left Z.add l 0) (severity (fold_left Z.add l 0))
          (TriageService._get_severity_label (severity (fold_left Z.add l 0)) survey_type)).
Proof.
  intros Hn Hlen Hall. unfold TriageService.calculate.
  destruct l as [|a l]; [cbn in Hlen; congruence|].
  cbn [truthy map negb iter bind].
  change (VInt a :: map VInt l) with (map VInt (a :: l)).
  rewrite length_map, Hlen, Nat.eqb_refl. cbn [negb].
  rewrite (check_answers_on_scale name (a :: l) Hall 0). cbn [bind].
  rewrite sum_ints_map. reflexivity.
Qed.

(** C3.  On a vector of exactly nine integers in 0..3, [calculate_phq9]
    returns the total and the severity that [PHQ9Screening.save] derives for
    the record persisted from the same answers; on seven integers in 0..3,
    [calculate_gad7] agrees in the same way with [GAD7Screening.save]. *)
Theorem calculators_agree_with_save (now patient : Z) (st : Store.t) :
  (forall l : list Z,
      List.length l = 9%nat -> Forall on_scale l ->
      exists r,
        TriageService.calculate_phq9 (VList (map VInt l)) = Ok r /\
        let row := fst (Store.create_phq9 now (phq9_of_answers patient l) st) in
        TriageService.total_score r = PHQ9Screening.total_score row /\
        TriageService.severity_level r = PHQ9Screening.severity_level row) /\
  (forall l : list Z,
      List.length l = 7%nat -> Forall on_scale l ->
      exists r,
        TriageService.calculate_gad7 (VList (map VInt l)) = Ok r /\
        let row := fst (Store.create_gad7 now (gad7_of_answers patient l) st) in
        TriageService.total_score r = GAD7Screening.total_score row /\
        TriageService.severity_level r = GAD7Screening.severity_level row).
Proof.
  split; intros l Hlen Hall.
  - eexists. split.
    { unfold TriageService.calculate_phq9.
      apply calculate_on_scale; [discriminate | exact Hlen | exact Hall]. }
    cbn [fst Store.create_phq9 PHQ9Screening.total_score PHQ9Screening.severity_level
         TriageService.total_score TriageService.severity_level].
    rewrite phq9_save_total, phq9_save_severity.
    do 10 (destruct l as [|? l]; try discriminate Hlen).
    unfold phq9_sum, phq9_of_answers, PHQ9Screening.new. cbn.
    split; [lia | f_equal; lia].
  - eexists. split.
    { unfold TriageService.calculate_gad7.
      apply calculate_on_scale; [discriminate | exact Hlen | exact Hall]. }
    cbn [fst Store.create_gad7 GAD7Screening.total_score GAD7Screening.severity_level
         TriageService.total_score TriageService.severity_level].
    rewrite gad7_save_total, gad7_save_severity.
    do 8 (destruct l as [|? l]; try discriminate Hlen).
    unfold gad7_sum, gad7_of_answers, GAD7Screening.new. cbn.
    split; [lia | f_equal; lia].
Qed.

(** The submission views read the answers of a validated vector item by
    item; on a vector of integers they read the integers. *)
Lemma answer_at_integers (l : list Z) (i : nat) :
  SurveySubmissionViewSet.answer_at (map VInt l) i = nth i l 0.
Proof.
  unfold SurveySubmissionViewSet.answer_at. revert i.
  induction l as [|a l IH]; intros [|i]; cbn; try reflexivity. apply IH.
Qed.

Lemma on_scale_example : Forall on_scale [0; 1; 2; 1; 0; 2; 1; 0; 1].
Proof. repeat constructor; unfold on_scale; lia. Qed.

Lemma calculators_agree_with_save_witness :
  exists r,
    TriageService.calculate_phq9 (VList (map VInt [0; 1; 2; 1; 0; 2; 1; 0; 1])) = Ok r /\
    TriageService.total_score r = 8 /\ TriageService.severity_level r = "mild".
Proof.
  destruct (proj1 (calculators_agree_with_save 0 1 Store.empty)
                  [0; 1; 2; 1; 0; 2; 1; 0; 1] eq_refl on_scale_example)
    as [r [Hr [Ht Hs]]].
  exists r. split; [exact Hr|]. split; [exact Ht | exact Hs].
Defined.

End SurveyProps.

(** ** Rejected submissions *)

Module RejectionProps.

Import SurveySubmissionViewSet.










(** At the edge of C10: the validation takes a JSON boolean for an integer,
    since [bool] is a subclass of [int]; and an [answers] entry that is a
    number, not an array, ends in status 500, the store again untouched. *)
Remark boolean_entries_pass_validation :
  exists r,
    TriageService.calculate_phq9
      (VList [VBool true; VInt 0; VInt 0; VInt 0; VInt 0; VInt 0; VInt 0; VInt 0; VInt 0])
    = Ok r /\ TriageService.total_score r = 1.
Proof. eexists. split; vm_compute; reflexivity. Qed.

Remark number_for_answers_is_internal_error :
  let request := mkRequest 5 "casey" (Some (VInt 5)) "" in
  status (fst (submit_phq9 10 11 request Store.empty)) = 500 /\
  snd (submit_phq9 10 11 request Store.empty) = Store.empty.
Proof. split; vm_compute; reflexivity. Qed.

End RejectionProps.

(** ** The rule engine: unknown patients and the trend rule *)

Module TriageProps.

Import TriageService.

(** The exception classes that stand for a missing resource. *)
Definition not_found_error (e : PyExc) : bool :=
  match e with
  | DoesNotExist _ | Http404 => true
  | _ => false
  end.

Lemma get_no_match {A : Type} (model : string) (p : A -> bool) (rows : list A) :
  (forall r, In r rows -> p r = false) ->
  Orm.get model p rows = Raise (DoesNotExist model).
Proof.
  intro Hnone. unfold Orm.get.
  replace (filter p rows) with (@nil A); [reflexivity|].
  symmetry. induction rows as [|r rows IH]; [reflexivity|].
  cbn. rewrite (Hnone r (or_introl eq_refl)).
  apply IH. intros r' Hin. apply Hnone. right. exact Hin.
Qed.

(** C7, as the code has it.  For a [patient_id] that no patient carries,
    [process_triage] raises a [ValueError] with the message "Patient with
    ID <id> not found", whatever the survey type, score and severity, and
    writes nothing; the submission views answer a [ValueError] with status
    400. *)
Theorem unknown_patient_raises_value_error
        (now patient_id : Z) (survey_type : string) (score : Z)
        (severity_level : string) (st : Store.t) :
  (forall p, In p (Store.patients st) -> Patient.id p <> patient_id) ->
  let e := ValueError ("Patient with ID " ++ str_of_int patient_id ++ " not found") in
  process_triage now patient_id survey_type score severity_level st = (Raise e, st) /\
  SurveySubmissionViewSet.status (SurveySubmissionViewSet.handle_exception e) = 400.
Proof.
  intros Hnone e. split; [|reflexivity].
  unfold process_triage.
  rewrite (get_no_match "Patient"); [reflexivity|].
  intros p Hin. apply Z.eqb_neq. apply Hnone. exact Hin.
Qed.

Lemma unknown_patient_raises_value_error_witness :
  process_triage 0 1 "phq9" 3 "minimal" Store.empty
  = (Raise (ValueError "Patient with ID 1 not found"), Store.empty).
Proof.
  refine (proj1 (unknown_patient_raises_value_error 0 1 "phq9" 3 "minimal" Store.empty _)).
  intros p Hin. destruct Hin.
Defined.

(** C7, as the specification states it, fails: on the empty store the exception of
    [process_triage] for patient 1 is no not-found error, and the submission
    views do not answer it with status 404. *)
Lemma unknown_patient_is_not_not_found :
  ~ (exists e,
        fst (process_triage 0 1 "phq9" 3 "minimal" Store.empty) = Raise e /\
        (not_found_error e = true \/
         SurveySubmissionViewSet.status (SurveySubmissionViewSet.handle_exception e) = 404)).
Proof.
  intros [e [He Hclass]].
  vm_compute in He. inversion He; subst e.
  destruct Hclass as [H | H]; vm_compute in H; discriminate H.
Qed.

(** *** The trend rule in the submission flow *)

(** An account with no patient yet submits answers that sum to 8, and three
    days later answers that sum to 14. *)
Definition first_request : SurveySubmissionViewSet.Request :=
  SurveySubmissionViewSet.mkRequest 5 "casey"
    (Some (VList (map VInt [1; 1; 1; 1; 1; 1; 1; 1; 0]))) "".

Definition second_request : SurveySubmissionViewSet.Request :=
  SurveySubmissionViewSet.mkRequest 5 "casey"
    (Some (VList (map VInt [2; 2; 2; 2; 2; 1; 1; 1; 1]))) "".

Definition three_days : Z := timedelta_days 3.

Definition after_first : Store.t :=
  snd (SurveySubmissionViewSet.submit_phq9 0 0 first_request Store.empty).

(** The store once the second screening is saved, before its triage. *)
Definition second_saved : Store.t :=
  snd (Store.create_phq9 three_days
         (PHQ9Screening.new 1 2 2 2 2 2 1 1 1 1) after_first).

Definition triage_action_of (r : SurveySubmissionViewSet.Response) : string :=
  match SurveySubmissionViewSet.body r with
  | SurveySubmissionViewSet.SubmitBody _ _ _ action _ _ _ => action
  | SurveySubmissionViewSet.ErrorBody _ => ""
  end.

(** The previous screening found by the trend rule is the newest one in the
    window; when that row carries the score under triage, the rule sees no
    increase. *)
Lemma no_increase_against_itself (now : Z) (patient : Patient.t) (score : Z)
      (st : Store.t) (row : PHQ9Screening.t) :
  Orm.first_newest PHQ9Screening.created_at
    (filter (fun s => ((PHQ9Screening.patient s =? Patient.id patient) &&
                       (PHQ9Screening.created_at s >=? now - timedelta_days 14))%bool)
            (Store.phq9_screenings st)) = Some row ->
  PHQ9Screening.total_score row = score ->
  _check_score_increase now patient "phq9" score st = None.
Proof.
  intros Hrow Hscore. unfold _check_score_increase. cbn [String.eqb Ascii.eqb Bool.eqb].
  rewrite Hrow, Hscore, Z.sub_diag. reflexivity.
Qed.

(** C5 on the code.  The patient holds two PHQ-9 screenings three days
    apart, with totals 8 and 14.  [process_triage] for the second one, called
    once it is saved, recommends self-care and creates no alert: the store
    it returns is the store it was given.  Called before the second
    screening is saved, the same triage triggers the clinician alert. *)
Theorem trend_rule_compares_saved_screening_with_itself :
  map PHQ9Screening.total_score (Store.phq9_screenings second_saved) = [8; 14] /\
  map PHQ9Screening.created_at (Store.phq9_screenings second_saved) = [0; three_days] /\
  process_triage three_days 1 "phq9" 14 "moderate" second_saved
  = (Ok (mkTriage "RecommendSelfCare" (Some "Journaling and Gratitude") false false),
     second_saved) /\
  Store.screening_alerts second_saved = [] /\
  (let '(response, st) :=
     SurveySubmissionViewSet.submit_phq9 three_days three_days second_request after_first in
   triage_action_of response = "RecommendSelfCare" /\
   Store.screening_alerts st = [] /\ Store.task_queue st = []) /\
  (let '(outcome, st) := process_triage three_days 1 "phq9" 14 "moderate" after_first in
   outcome = Ok (mkTriage "TriggerClinicianAlert" None true false) /\
   map ScreeningAlert.alert_type (Store.screening_alerts st) = ["score_increase"]).
Proof.
  repeat split; vm_compute; reflexivity.
Qed.

End TriageProps.

(** ** The [latest] operations and the recommended pathways *)

Module LatestProps.

(** A patient (account 5) with a PHQ-9 screening of total 20 and, three
    days later, one of total 2; a GAD-7 screening of total 1 in between; and
    one active pathway for each of the tiers severe and minimal. *)
Definition history : Store.t :=
  let st0 := Store.with_patients [Patient.mk 1 5 "casey" ""] Store.empty in
  let st1 := snd (Store.create_phq9 0 (PHQ9Screening.new 1 3 3 3 3 3 3 2 0 0) st0) in
  let st2 := snd (Store.create_gad7 (TriageService.timedelta_days 1)
                    (GAD7Screening.new 1 1 0 0 0 0 0 0) st1) in
  let st3 := snd (Store.create_phq9 (TriageService.timedelta_days 3)
                    (PHQ9Screening.new 1 1 1 0 0 0 0 0 0 0) st2) in
  Store.mk (Store.patients st3) (Store.phq9_screenings st3) (Store.gad7_screenings st3)
           [] [] []
           [SelfCarePathway.mk 1 "Intensive support" "severe" true;
            SelfCarePathway.mk 2 "Daily wellbeing" "minimal" true]
           [] [] [] [] [] [] [].

Lemma min_by_none {A : Type} (key : A -> Z) (rows : list A) :
  Orm.min_by key rows = None -> rows = [].
Proof.
  destruct rows as [|x rows]; [reflexivity|]. cbn.
  destruct (Orm.min_by key rows) as [y|]; [|discriminate].
  destruct (key x <=? key y); discriminate.
Qed.

(** The part of C6 the code keeps: a patient with no screening of the
    instrument gets "No screenings found" with status 404. *)
Lemma latest_without_screenings (request_user : Z) (st : Store.t) (patient : Patient.t) :
  Orm.get "Patient" (fun p => Patient.user p =? request_user) (Store.patients st)
  = Ok patient ->
  (forall s, In s (Store.phq9_screenings st) ->
             PHQ9Screening.patient s <> Patient.id patient) ->
  PHQ9ScreeningViewSet.latest request_user st
  = Ok (ScreeningViews.mkResponse 404 (ScreeningViews.Message "No screenings found")).
Proof.
  intros Hget Hnone. unfold PHQ9ScreeningViewSet.latest. rewrite Hget. cbn [bind].
  replace (filter _ (Store.phq9_screenings st)) with (@nil PHQ9Screening.t); [reflexivity|].
  symmetry. induction (Store.phq9_screenings st) as [|s rows IH]; [reflexivity|].
  cbn. destruct (Z.eqb_spec (PHQ9Screening.patient s) (Patient.id patient)) as [Heq|_].
  - exfalso. exact (Hnone s (or_introl eq_refl) Heq).
  - apply IH. intros s' Hin. apply Hnone. right. exact Hin.
Qed.

Lemma min_by_least {A : Type} (key : A -> Z) (rows : list A) (x : A) :
  Orm.min_by key rows = Some x ->
  In x rows /\ forall y, In y rows -> key x <= key y.
Proof.
  revert x. induction rows as [|r rows IH]; intros x Hmin; [discriminate|].
  cbn in Hmin. destruct (Orm.min_by key rows) as [m|] eqn:Hm.
  - destruct (IH m eq_refl) as [Hin Hle].
    destruct (Z.leb_spec (key r) (key m)); inversion Hmin; subst x.
    + split; [left; reflexivity|].
      intros y [Hy | Hy]; [subst; lia | specialize (Hle y Hy); lia].
    + split; [right; exact Hin|].
      intros y [Hy | Hy]; [subst; lia | apply Hle; exact Hy].
  - inversion Hmin; subst x. apply min_by_none in Hm. subst rows.
    split; [left; reflexivity|]. intros y [Hy | []]. subst. lia.
Qed.

(** Whatever the store, the screening [latest] returns has the least
    primary key among the screenings of its patient. *)
Lemma latest_has_least_key (request_user : Z) (st : Store.t) (s : PHQ9Screening.t) :
  PHQ9ScreeningViewSet.latest request_user st
  = Ok (ScreeningViews.mkResponse 200 (ScreeningViews.Serialized s)) ->
  forall s', In s' (Store.phq9_screenings st) ->
             PHQ9Screening.patient s' = PHQ9Screening.patient s ->
             PHQ9Screening.id s <= PHQ9Screening.id s'.
Proof.
  unfold PHQ9ScreeningViewSet.latest. intros Hlatest s' Hin Hsame.
  destruct (Orm.get "Patient" _ (Store.patients st)) as [patient|e]; [|discriminate].
  cbn [bind] in Hlatest. unfold Orm.first_unordered in Hlatest.
  destruct (Orm.min_by PHQ9Screening.id _) as [m|] eqn:Hm; [|discriminate].
  inversion Hlatest; subst m.
  destruct (min_by_least _ _ _ Hm) as [Hs Hle].
  apply filter_In in Hs. destruct Hs as [_ Hs]. apply Z.eqb_eq in Hs.
  apply Hle. apply filter_In. split; [exact Hin|].
  apply Z.eqb_eq. congruence.
Qed.

(** C6 on the code.  [latest] returns, for both instruments, the screening
    with the least primary key, the patient's oldest: on [history] the
    PHQ-9 answer is the screening of total 20 created at time 0, although
    one of total 2 was created three days later. *)
Theorem latest_returns_oldest_screening :
  exists older newer,
    PHQ9ScreeningViewSet.latest 5 history
    = Ok (ScreeningViews.mkResponse 200 (ScreeningViews.Serialized older)) /\
    In newer (Store.phq9_screenings history) /\
    PHQ9Screening.patient newer = PHQ9Screening.patient older /\
    PHQ9Screening.created_at older < PHQ9Screening.created_at newer /\
    PHQ9Screening.total_score older = 20 /\
    PHQ9Screening.total_score newer = 2.
Proof.
  eexists. eexists. split; [vm_compute; reflexivity|].
  split; [right; left; reflexivity|].
  vm_compute. repeat split; reflexivity.
Qed.

(** C8 on the code.  On [history] the most recent totals are 2 (PHQ-9) and
    1 (GAD-7), whose tier is "minimal"; [recommended] takes the oldest
    PHQ-9 screening, of total 20, and returns the pathway of tier
    "severe". *)
Theorem recommended_uses_oldest_screening :
  option_map PHQ9Screening.total_score
    (Orm.first_newest PHQ9Screening.created_at (Store.phq9_screenings history)) = Some 2 /\
  option_map GAD7Screening.total_score
    (Orm.first_newest GAD7Screening.created_at (Store.gad7_screenings history)) = Some 1 /\
  SelfCarePathwayViewSet.recommended 5 history
  = Ok (SelfCarePathwayViewSet.mkResponse 200
          (SelfCarePathwayViewSet.Pathways
             [SelfCarePathway.mk 1 "Intensive support" "severe" true])).
Proof.
  repeat split; vm_compute; reflexivity.
Qed.

End LatestProps.

(** ** Clinician-scoped views *)

Module ClinicianProps.

Import ClinicianViews.

(** Patient [p] has an active assignment to clinician [c]. *)
Definition actively_assigned (st : Store.t) (c : Clinician.t) (p : Z) : Prop :=
  exists a,
    In a (Store.assignments st) /\
    PatientAssignment.clinician a = Clinician.id c /\
    PatientAssignment.is_active a = true /\
    PatientAssignment.patient a = p.

(** The calling account is a clinician to whom [p] is actively assigned. *)
Definition assigned_to_caller (request_user : Z) (st : Store.t) (p : Z) : Prop :=
  exists c, get_clinician request_user st = Ok c /\ actively_assigned st c p.

(** The rows of a table that belong to patients other than [p]. *)
Definition of_others {A : Type} (patient : A -> Z) (p : Z) (rows : list A) : list A :=
  filter (fun r => negb (patient r =? p)) rows.

(** The keys of the alerts raised for patient [p]. *)
Definition alert_ids_of (p : Z) (st : Store.t) : list Z :=
  map ScreeningAlert.id
      (filter (fun a => ScreeningAlert.patient a =? p) (Store.screening_alerts st)).

(** Two stores that differ at most in the data of patient [p]: the same
    clinicians and assignments, the same trends, plans, notes and alerts of
    every other patient, and the same responses to alerts of other
    patients. *)
Definition same_outside (p : Z) (st st' : Store.t) : Prop :=
  Store.clinicians st = Store.clinicians st' /\
  Store.assignments st = Store.assignments st' /\
  of_others PatientTrend.patient p (Store.trends st)
  = of_others PatientTrend.patient p (Store.trends st') /\
  of_others TreatmentPlan.patient p (Store.treatment_plans st)
  = of_others TreatmentPlan.patient p (Store.treatment_plans st') /\
  of_others ClinicalNote.patient p (Store.clinical_notes st)
  = of_others ClinicalNote.patient p (Store.clinical_notes st') /\
  of_others ScreeningAlert.patient p (Store.screening_alerts st)
  = of_others ScreeningAlert.patient p (Store.screening_alerts st') /\
  filter (fun r => negb (is_in (alert_ids_of p st) (AlertResponse.alert r)))
         (Store.alert_responses st)
  = filter (fun r => negb (is_in (alert_ids_of p st') (AlertResponse.alert r)))
           (Store.alert_responses st').

Lemma is_in_spec (ids : list Z) (v : Z) : is_in ids v = true <-> In v ids.
Proof.
  unfold is_in. rewrite existsb_exists. split.
  - intros [x [Hin Heq]]. apply Z.eqb_eq in Heq. subst. exact Hin.
  - intro Hin. exists v. split; [exact Hin | apply Z.eqb_refl].
Qed.

Lemma assigned_patients_spec (c : Clinician.t) (st : Store.t) (p : Z) :
  is_in (assigned_patients c st) p = true <-> actively_assigned st c p.
Proof.
  rewrite is_in_spec. unfold assigned_patients, actively_assigned.
  rewrite in_map_iff. split.
  - intros [a [Hp Hin]]. apply filter_In in Hin. destruct Hin as [Hin Hcond].
    apply andb_true_iff in Hcond. destruct Hcond as [Hc Hact].
    apply Z.eqb_eq in Hc. exists a. auto.
  - intros [a [Hin [Hc [Hact Hp]]]]. exists a. split; [exact Hp|].
    apply filter_In. split; [exact Hin|].
    apply andb_true_iff. split; [apply Z.eqb_eq; exact Hc | exact Hact].
Qed.

(** Filtering by [keep] sees only the rows that pass [wider], when every
    row kept passes [wider]. *)
Lemma filter_through {A : Type} (keep wider : A -> bool) (rows : list A) :
  (forall r, keep r = true -> wider r = true) ->
  filter keep rows = filter keep (filter wider rows).
Proof.
  intro Himp. induction rows as [|r rows IH]; [reflexivity|].
  cbn. destruct (keep r) eqn:Hk.
  - rewrite (Himp r Hk). cbn. rewrite Hk. f_equal. exact IH.
  - destruct (wider r); cbn; [rewrite Hk|]; exact IH.
Qed.

Lemma filter_ext_eq {A : Type} (f g : A -> bool) (rows : list A) :
  (forall r, f r = g r) -> filter f rows = filter g rows.
Proof.
  intro H. induction rows as [|r rows IH]; [reflexivity|].
  cbn. rewrite H, IH. reflexivity.
Qed.

(** Rows selected by patient among [ids] are the same in two tables that
    agree outside a patient [p] not among [ids]. *)
Lemma scoped_rows_equal {A : Type} (patient : A -> Z) (ids : list Z) (p : Z)
      (rows rows' : list A) :
  is_in ids p = false ->
  of_others patient p rows = of_others patient p rows' ->
  filter (fun r => is_in ids (patient r)) rows
  = filter (fun r => is_in ids (patient r)) rows'.
Proof.
  intros Hp Hsame.
  assert (Himp : forall r : A, is_in ids (patient r) = true ->
                               negb (patient r =? p) = true).
  { intros r Hr. destruct (Z.eqb_spec (patient r) p) as [Heq|]; [|reflexivity].
    rewrite Heq in Hr. congruence. }
  rewrite (filter_through _ _ rows Himp), (filter_through _ _ rows' Himp).
  unfold of_others in Hsame. rewrite Hsame. reflexivity.
Qed.

Lemma same_key_same_row {A : Type} (key : A -> Z) (rows : list A) :
  NoDup (map key rows) ->
  forall a b, In a rows -> In b rows -> key a = key b -> a = b.
Proof.
  induction rows as [|r rows IH]; intros Hnd a b Ha Hb Hkey; [destruct Ha|].
  cbn in Hnd. inversion Hnd as [|? ? Hnotin Hnd']; subst.
  destruct Ha as [Ha | Ha]; destruct Hb as [Hb | Hb]; subst.
  - reflexivity.
  - exfalso. apply Hnotin. rewrite Hkey. apply in_map. exact Hb.
  - exfalso. apply Hnotin. rewrite <- Hkey. apply in_map. exact Ha.
  - apply IH; assumption.
Qed.

(** With unique alert keys, a response to an alert of a patient among
    [ids] is no response to an alert of a patient [p] outside [ids]. *)
Lemma response_of_assigned_alert (ids : list Z) (p : Z) (st : Store.t)
      (r : AlertResponse.t) :
  NoDup (map ScreeningAlert.id (Store.screening_alerts st)) ->
  is_in ids p = false ->
  is_in (map ScreeningAlert.id
             (filter (fun a => is_in ids (ScreeningAlert.patient a))
                     (Store.screening_alerts st)))
        (AlertResponse.alert r) = true ->
  negb (is_in (alert_ids_of p st) (AlertResponse.alert r)) = true.
Proof.
  intros Hnd Hp Hr.
  destruct (is_in (alert_ids_of p st) (AlertResponse.alert r)) eqn:Hown; [|reflexivity].
  exfalso.
  apply is_in_spec in Hr. apply in_map_iff in Hr. destruct Hr as [a [Hida Hina]].
  apply filter_In in Hina. destruct Hina as [Hina Hassigned].
  apply is_in_spec in Hown. unfold alert_ids_of in Hown.
  apply in_map_iff in Hown. destruct Hown as [b [Hidb Hinb]].
  apply filter_In in Hinb. destruct Hinb as [Hinb Hpb]. apply Z.eqb_eq in Hpb.
  assert (a = b) by (apply (same_key_same_row ScreeningAlert.id _ Hnd); congruence).
  subst b. rewrite Hpb in Hassigned. congruence.
Qed.

Lemma unassigned_not_in (request_user : Z) (st : Store.t) (c : Clinician.t) (p : Z) :
  get_clinician request_user st = Ok c ->
  ~ assigned_to_caller request_user st p ->
  is_in (assigned_patients c st) p = false.
Proof.
  intros Hc Hun.
  destruct (is_in (assigned_patients c st) p) eqn:Hp; [|reflexivity].
  exfalso. apply Hun. exists c. split; [exact Hc|].
  apply assigned_patients_spec. exact Hp.
Qed.

Lemma assigned_patients_same (c : Clinician.t) (st st' : Store.t) :
  Store.assignments st = Store.assignments st' ->
  assigned_patients c st' = assigned_patients c st.
Proof. intro Has. unfold assigned_patients. rewrite Has. reflexivity. Qed.

(** C4.  Each clinician-scoped query set (patient trends, treatment plans,
    clinical notes, alert responses) holds only rows of patients actively
    assigned to the calling clinician; and it is the same in two stores that
    differ only in the data of a patient not assigned to the caller. *)
Theorem clinician_views_isolate_unassigned_patients (request_user : Z) (st : Store.t) :
  (forall rows r,
      PatientTrendViewSet.get_queryset request_user st = Ok rows -> In r rows ->
      assigned_to_caller request_user st (PatientTrend.patient r)) /\
  (forall rows r,
      TreatmentPlanViewSet.get_queryset request_user st = Ok rows -> In r rows ->
      assigned_to_caller request_user st (TreatmentPlan.patient r)) /\
  (forall rows r,
      ClinicalNoteViewSet.get_queryset request_user st = Ok rows -> In r rows ->
      assigned_to_caller request_user st (ClinicalNote.patient r)) /\
  (forall rows r,
      AlertResponseViewSet.get_queryset request_user st = Ok rows -> In r rows ->
      exists a, In a (Store.screening_alerts st) /\
                ScreeningAlert.id a = AlertResponse.alert r /\
                assigned_to_caller request_user st (ScreeningAlert.patient a)) /\
  (forall p st',
      ~ assigned_to_caller request_user st p ->
      same_outside p st st' ->
      PatientTrendViewSet.get_queryset request_user st
      = PatientTrendViewSet.get_queryset request_user st' /\
      (forall patient_id,
          PatientTrendViewSet.by_patient request_user patient_id st
          = PatientTrendViewSet.by_patient request_user patient_id st') /\
      TreatmentPlanViewSet.get_queryset request_user st
      = TreatmentPlanViewSet.get_queryset request_user st' /\
      ClinicalNoteViewSet.get_queryset request_user st
      = ClinicalNoteViewSet.get_queryset request_user st' /\
      (NoDup (map ScreeningAlert.id (Store.screening_alerts st)) ->
       NoDup (map ScreeningAlert.id (Store.screening_alerts st')) ->
       AlertResponseViewSet.get_queryset request_user st
       = AlertResponseViewSet.get_queryset request_user st')).
Proof.
  repeat apply conj.
  - intros rows r Hq Hin. unfold PatientTrendViewSet.get_queryset in Hq.
    destruct (get_clinician request_user st) as [c|e] eqn:Hc; cbn in Hq; [|discriminate].
    inversion Hq; subst rows. apply filter_In in Hin. destruct Hin as [_ Hin].
    exists c. split; [exact Hc | apply assigned_patients_spec; exact Hin].
  - intros rows r Hq Hin. unfold TreatmentPlanViewSet.get_queryset in Hq.
    destruct (get_clinician request_user st) as [c|e] eqn:Hc; cbn in Hq; [|discriminate].
    inversion Hq; subst rows. apply filter_In in Hin. destruct Hin as [_ Hin].
    exists c. split; [exact Hc | apply assigned_patients_spec; exact Hin].
  - intros rows r Hq Hin. unfold ClinicalNoteViewSet.get_queryset in Hq.
    destruct (get_clinician request_user st) as [c|e] eqn:Hc; cbn in Hq; [|discriminate].
    inversion Hq; subst rows. apply filter_In in Hin. destruct Hin as [_ Hin].
    exists c. split; [exact Hc | apply assigned_patients_spec; exact Hin].
  - intros rows r Hq Hin. unfold AlertResponseViewSet.get_queryset in Hq.
    destruct (get_clinician request_user st) as [c|e] eqn:Hc; cbn in Hq; [|discriminate].
    inversion Hq; subst rows. apply filter_In in Hin. destruct Hin as [_ Hin].
    apply is_in_spec in Hin. apply in_map_iff in Hin. destruct Hin as [a [Hid Hina]].
    apply filter_In in Hina. destruct Hina as [Hina Hassigned].
    exists a. split; [exact Hina|]. split; [exact Hid|].
    exists c. split; [exact Hc | apply assigned_patients_spec; exact Hassigned].
  - intros p st' Hun (Hcl & Has & Htr & Hpl & Hno & Hal & Hre).
    assert (Hget : get_clinician request_user st' = get_clinician request_user st).
    { unfold get_clinician. rewrite Hcl. reflexivity. }
    assert (Hq : PatientTrendViewSet.get_queryset request_user st
                 = PatientTrendViewSet.get_queryset request_user st').
    { unfold PatientTrendViewSet.get_queryset. rewrite Hget.
      destruct (get_clinician request_user st) as [c|e] eqn:Hc; cbn; [|reflexivity].
      f_equal. rewrite (assigned_patients_same c st st' Has).
      apply (scoped_rows_equal _ _ p); [|exact Htr].
      exact (unassigned_not_in request_user st c p Hc Hun). }
    split; [exact Hq|].
    split.
    { intros [pid|]; unfold PatientTrendViewSet.by_patient; [|reflexivity].
      rewrite Hq. reflexivity. }
    split.
    { unfold TreatmentPlanViewSet.get_queryset. rewrite Hget.
      destruct (get_clinician request_user st) as [c|e] eqn:Hc; cbn; [|reflexivity].
      f_equal. rewrite (assigned_patients_same c st st' Has).
      apply (scoped_rows_equal _ _ p); [|exact Hpl].
      exact (unassigned_not_in request_user st c p Hc Hun). }
    split.
    { unfold ClinicalNoteViewSet.get_queryset. rewrite Hget.
      destruct (get_clinician request_user st) as [c|e] eqn:Hc; cbn; [|reflexivity].
      f_equal. rewrite (assigned_patients_same c st st' Has).
      apply (scoped_rows_equal _ _ p); [|exact Hno].
      exact (unassigned_not_in request_user st c p Hc Hun). }
    intros Hnd Hnd'.
    unfold AlertResponseViewSet.get_queryset. rewrite Hget.
    destruct (get_clinician request_user st) as [c|e] eqn:Hc; cbn; [|reflexivity].
    f_equal.
    pose proof (unassigned_not_in request_user st c p Hc Hun) as Hp.
    rewrite (assigned_patients_same c st st' Has).
    assert (Halerts :
              filter (fun a => is_in (assigned_patients c st) (ScreeningAlert.patient a))
                     (Store.screening_alerts st)
              = filter (fun a => is_in (assigned_patients c st) (ScreeningAlert.patient a))
                       (Store.screening_alerts st')).
    { apply (scoped_rows_equal ScreeningAlert.patient _ p); assumption. }
    rewrite (filter_through _ _ (Store.alert_responses st)
               (fun r => response_of_assigned_alert _ p st r Hnd Hp)).
    rewrite Halerts.
    rewrite (filter_through _
               (fun r => negb (is_in (alert_ids_of p st') (AlertResponse.alert r)))
               (Store.alert_responses st')).
    + rewrite Hre. reflexivity.
    + intros r Hr.
      exact (response_of_assigned_alert _ p st' r Hnd' Hp Hr).
Qed.

Lemma filter_none {A : Type} (f : A -> bool) (rows : list A) :
  (forall r, f r = false) -> filter f rows = [].
Proof.
  intro Hf. induction rows as [|r rows IH]; [reflexivity|].
  cbn. rewrite Hf. exact IH.
Qed.

(** A clinician with no active assignment gets four empty query sets. *)
Lemma views_empty_without_assignment (request_user : Z) (st : Store.t) (c : Clinician.t) :
  get_clinician request_user st = Ok c ->
  (forall p, ~ actively_assigned st c p) ->
  PatientTrendViewSet.get_queryset request_user st = Ok [] /\
  TreatmentPlanViewSet.get_queryset request_user st = Ok [] /\
  ClinicalNoteViewSet.get_queryset request_user st = Ok [] /\
  AlertResponseViewSet.get_queryset request_user st = Ok [].
Proof.
  intros Hc Hnone.
  assert (Hout : forall p, is_in (assigned_patients c st) p = false).
  { intro p. destruct (is_in (assigned_patients c st) p) eqn:Hp; [|reflexivity].
    exfalso. apply (Hnone p). apply assigned_patients_spec. exact Hp. }
  unfold PatientTrendViewSet.get_queryset, TreatmentPlanViewSet.get_queryset,
    ClinicalNoteViewSet.get_queryset, AlertResponseViewSet.get_queryset.
  rewrite Hc. cbn [bind].
  repeat split; f_equal; try (apply filter_none; intro r; apply Hout).
  rewrite (filter_none _ (Store.screening_alerts st)) by (intro a; apply Hout).
  apply filter_none. reflexivity.
Qed.

(** A clinician (account 10) with patient 1 actively assigned and the
    assignment of patient 2 ended; both patients have a trend, a plan, a
    note, an alert and a response to it. *)
Definition ward : Store.t :=
  Store.mk [] [] []
    [ScreeningAlert.mk 1 1 "phq9_high_score" "PHQ-9 score of 16" false 100;
     ScreeningAlert.mk 2 2 "crisis" "Critical risk detected" false 200]
    [] [] []
    [Clinician.mk 1 10 "LIC-0001"]
    [PatientAssignment.mk 1 1 1 true; PatientAssignment.mk 2 2 1 false]
    [PatientTrend.mk 1 1 20 (Some 16) None "critical";
     PatientTrend.mk 2 2 20 (Some 3) None "low"]
    [TreatmentPlan.mk 1 1 1 "Moderate depression";
     TreatmentPlan.mk 2 2 1 "Generalised anxiety"]
    [ClinicalNote.mk 1 1 1 "progress" "Sleeping better";
     ClinicalNote.mk 2 2 1 "assessment" "First visit"]
    [AlertResponse.mk 1 1 1 "Called the patient";
     AlertResponse.mk 2 2 1 "Referred to crisis team"]
    [].

(** The same ward after the data of patient 2 changed: another trend,
    no plan, a second note, a new alert and other responses. *)
Definition ward_changed : Store.t :=
  Store.mk [] [] []
    [ScreeningAlert.mk 1 1 "phq9_high_score" "PHQ-9 score of 16" false 100;
     ScreeningAlert.mk 3 2 "score_increase" "Increase of 6 points" true 300]
    [] [] []
    [Clinician.mk 1 10 "LIC-0001"]
    [PatientAssignment.mk 1 1 1 true; PatientAssignment.mk 2 2 1 false]
    [PatientTrend.mk 2 2 20 (Some 21) (Some 15) "critical";
     PatientTrend.mk 1 1 20 (Some 16) None "critical"]
    [TreatmentPlan.mk 1 1 1 "Moderate depression"]
    [ClinicalNote.mk 1 1 1 "progress" "Sleeping better";
     ClinicalNote.mk 2 2 1 "assessment" "First visit";
     ClinicalNote.mk 3 2 1 "crisis" "Emergency contact reached"]
    [AlertResponse.mk 1 1 1 "Called the patient";
     AlertResponse.mk 3 3 1 "Reviewed"]
    [].

Lemma patient_2_unassigned : ~ assigned_to_caller 10 ward 2.
Proof.
  intros [c [Hc [a [Hin [Hcl [Hact Hp]]]]]].
  cbn in Hin. destruct Hin as [Ha | [Ha | []]]; subst a; cbn in Hact, Hp; discriminate.
Defined.

Lemma ward_same_outside : same_outside 2 ward ward_changed.
Proof. unfold same_outside. repeat split; vm_compute; reflexivity. Defined.

Lemma clinician_views_isolate_unassigned_patients_witness :
  PatientTrendViewSet.get_queryset 10 ward
  = PatientTrendViewSet.get_queryset 10 ward_changed /\
  AlertResponseViewSet.get_queryset 10 ward
  = AlertResponseViewSet.get_queryset 10 ward_changed.
Proof.
  destruct (proj2 (proj2 (proj2 (proj2
              (clinician_views_isolate_unassigned_patients 10 ward))))
              2 ward_changed patient_2_unassigned ward_same_outside)
    as [Htrends [_ [_ [_ Hresponses]]]].
  split; [exact Htrends|].
  apply Hresponses; cbn; repeat constructor; cbn; intuition discriminate.
Defined.

End ClinicianProps.

(** ** The intent recognizer on blank input *)

Module IntentProps.

Import IntentRecognizer.

(** Empty or made of white space only, the white space of Unicode
    included. *)
Definition blank (text : string) : Prop := strip text = "".

(** U+00A0, the no-break space, and U+2003, the em space. *)
Definition no_break_space : string :=
  String (ascii_of_nat 194) (String (ascii_of_nat 160) EmptyString).

Definition em_space : string :=
  String (ascii_of_nat 226) (String (ascii_of_nat 128)
    (String (ascii_of_nat 131) EmptyString)).

(** A text of a space, a no-break space, an em space and a line feed. *)
Definition unicode_blank : string := " " ++ no_break_space ++ em_space ++ nl.

(** What the module-level function makes of the method's answer for blank
    input once the threshold is applied to the confidence 0.0. *)
Definition gated_unknown (return_confidence : bool) (confidence_threshold : float)
  : Prediction :=
  let tag := if PrimFloat.ltb 0 confidence_threshold then "out_of_scope" else "unknown" in
  if return_confidence then TagConfidence tag 0%float else Tag tag.

(** A recognizer whose model was loaded. *)
Definition loaded (r : IntentRecognizer.t) : Prop := pipeline r <> None.

Lemma method_on_blank (self : IntentRecognizer.t) (text : string)
      (return_confidence : bool) :
  loaded self -> blank text ->
  IntentRecognizer.predict_intent self text return_confidence
  = (Ok (unknown return_confidence), []).
Proof.
  intros Hloaded Hblank. unfold IntentRecognizer.predict_intent.
  unfold loaded in Hloaded.
  destruct (pipeline self) as [classifier|]; [|exfalso; apply Hloaded; reflexivity].
  unfold blank in Hblank. rewrite Hblank. cbn [nonempty negb].
  rewrite Bool.orb_true_r. reflexivity.
Qed.

(** C9, as the code has it.  On empty or white-space-only text (the white
    space of Unicode, as [str.strip] removes it) the method
    [IntentRecognizer.predict_intent] of a loaded recognizer returns
    "unknown" with confidence 0.0 and hands nothing to the classifier.  The
    module-level [predict_intent] then applies its threshold: it returns
    "out_of_scope" when the threshold is above 0.0 and "unknown" otherwise,
    with confidence 0.0, still with no classifier call; when the model file
    is missing it returns "unknown" with confidence 0.0. *)
Theorem blank_input_prediction
        (construct : result IntentRecognizer.t) (instance : option IntentRecognizer.t)
        (text : string) (return_confidence : bool) (confidence_threshold : float) :
  blank text ->
  (forall r,
      instance = Some r \/ (instance = None /\ construct = Ok r) ->
      loaded r ->
      IntentRecognizer.predict_intent r text return_confidence
      = (Ok (unknown return_confidence), []) /\
      Intent.predict_intent construct instance text return_confidence confidence_threshold
      = Intent.mkOutcome (Ok (gated_unknown return_confidence confidence_threshold))
                         (Some r) []) /\
  (forall msg,
      instance = None -> construct = Raise (FileNotFoundError msg) ->
      Intent.predict_intent construct instance text return_confidence confidence_threshold
      = Intent.mkOutcome (Ok (unknown return_confidence)) None []).
Proof.
  intro Hblank. split.
  - intros r Hwhich Hloaded.
    split; [apply method_on_blank; assumption|].
    assert (Hrun :
              Intent.predict_intent construct (Some r) text return_confidence
                                    confidence_threshold
              = Intent.mkOutcome (Ok (gated_unknown return_confidence confidence_threshold))
                                 (Some r) []).
    { unfold Intent.predict_intent.
      rewrite (method_on_blank r text return_confidence Hloaded Hblank).
      unfold gated_unknown.
      destruct return_confidence; cbn.
      - reflexivity.
      - rewrite (method_on_blank r text true Hloaded Hblank). cbn. reflexivity. }
    destruct Hwhich as [Hi | [Hi Hc]]; subst instance; [exact Hrun|].
    subst construct. exact Hrun.
  - intros msg Hi Hc. subst instance construct. reflexivity.
Qed.

(** A recognizer whose classifier always answers "greeting" at 0.9. *)
Definition trained : IntentRecognizer.t :=
  IntentRecognizer.mk (Some (fun _ => Ok ("greeting", 0.9%float))) (fun text => Ok text).

Lemma blank_input_prediction_witness :
  Intent.predict_intent (Ok trained) None unicode_blank true 0%float
  = Intent.mkOutcome (Ok (TagConfidence "unknown" 0%float)) (Some trained) [].
Proof.
  refine (proj2 (proj1 (blank_input_prediction (Ok trained) None unicode_blank true 0%float
                          _)
                       trained (or_intror (conj eq_refl eq_refl)) _)).
  - vm_compute. reflexivity.
  - unfold loaded, trained. cbn. discriminate.
Defined.

(** C9, as the specification states it, fails: with a loaded recognizer and the
    default threshold 0.6, or the threshold the chatbot passes, the
    module-level function does not return "unknown" for a blank text. *)
Lemma blank_input_is_out_of_scope :
  blank "   " /\
  Intent.returned (Intent.predict_intent (Ok trained) None "   " true
                     Intent.DEFAULT_CONFIDENCE_THRESHOLD)
  <> Ok (TagConfidence "unknown" 0%float) /\
  Intent.returned (Intent.predict_intent (Ok trained) None "   " false
                     Intent.DEFAULT_CONFIDENCE_THRESHOLD)
  <> Ok (Tag "unknown") /\
  Intent.returned
    (Intent.predict_intent (Ok trained) None "" true
       (ChatbotConversationViewSet.float_max 0
          (PrimFloat.sub Intent.DEFAULT_CONFIDENCE_THRESHOLD 0.2)))
  = Ok (TagConfidence "out_of_scope" 0%float).
Proof.
  split; [reflexivity|].
  split; [vm_compute; discriminate|].
  split; [vm_compute; discriminate|].
  vm_compute. reflexivity.
Qed.

End IntentProps.

(** ** The crisis reply of the chatbot *)

Module ChatbotProps.

Import ChatbotConversationViewSet.

Section Crisis.

Variable to_lower : list string -> string -> list string -> string.
Variable keyword_scores : string -> list (string * float).
Variable construct : result IntentRecognizer.t.
Variable instance : option IntentRecognizer.t.

(** The crisis branch is the first test of [_generate_bot_response]. *)
Lemma crisis_branch_first (user_message emotion risk_level : string)
      (risk_keywords : list string) (triage_recommendation : option string) :
  risk_level = "critical" \/ risk_keywords <> [] ->
  _generate_bot_response to_lower construct instance user_message emotion risk_level
                         risk_keywords triage_recommendation
  = crisis_response.
Proof.
  intros [Hrisk | Hkeywords]; unfold _generate_bot_response.
  - subst risk_level. reflexivity.
  - destruct risk_keywords as [|k ks]; [congruence|].
    rewrite Bool.orb_true_r. reflexivity.
Qed.

(** A message the detector rates critical, or in which it finds a risk
    keyword, is not empty. *)
Lemma risky_message_nonempty (user_message : string) :
  EmotionDetector.assess_risk_level to_lower keyword_scores user_message = "critical" \/
  EmotionDetector.detect_risk_keywords to_lower user_message <> [] ->
  nonempty user_message = true.
Proof.
  destruct user_message as [|c rest]; [|reflexivity].
  intros [Hrisk | Hkeywords]; exfalso.
  - vm_compute in Hrisk. discriminate Hrisk.
  - apply Hkeywords. vm_compute. reflexivity.
Qed.

Lemma context_risk_level (text : string) :
  EmotionDetector.risk_level (EmotionDetector.get_emotional_context to_lower keyword_scores text)
  = EmotionDetector.assess_risk_level to_lower keyword_scores text.
Proof.
  unfold EmotionDetector.get_emotional_context.
  destruct (EmotionDetector.get_primary_emotion keyword_scores text). reflexivity.
Qed.

Lemma context_risk_keywords (text : string) :
  EmotionDetector.risk_keywords (EmotionDetector.get_emotional_context to_lower keyword_scores text)
  = EmotionDetector.detect_risk_keywords to_lower text.
Proof.
  unfold EmotionDetector.get_emotional_context.
  destruct (EmotionDetector.get_primary_emotion keyword_scores text). reflexivity.
Qed.

(** The reply [send_message] stores and returns as the bot message. *)
Definition bot_reply (r : Response) : option string :=
  match body r with
  | ReplyBody _ bot_response _ _ => Some (ChatbotMessage.content bot_response)
  | ErrorBody _ => None
  end.

Lemma send_message_crisis (now : Z) (conversation : ChatbotConversation.t)
      (message : string) (st : Store.t) :
  EmotionDetector.assess_risk_level to_lower keyword_scores (strip message) = "critical" \/
  EmotionDetector.detect_risk_keywords to_lower (strip message) <> [] ->
  let outcome :=
    send_message to_lower keyword_scores construct instance now (Some conversation)
                 (Some message) st in
  status (fst outcome) = 200 /\
  bot_reply (fst outcome) = Some crisis_response /\
  exists bot_msg,
    In bot_msg (Store.chatbot_messages (snd outcome)) /\
    ChatbotMessage.message_type bot_msg = "bot" /\
    ChatbotMessage.content bot_msg = crisis_response.
Proof.
  intros Hrisk outcome. subst outcome. unfold send_message.
  rewrite (risky_message_nonempty (strip message) Hrisk). cbn [negb].
  destruct (EmotionDetector.get_primary_emotion keyword_scores (strip message))
    as [primary_emotion confidence].
  rewrite context_risk_level, context_risk_keywords.
  rewrite (crisis_branch_first (strip message) primary_emotion _ _ _ Hrisk).
  cbn [fst snd status body bot_reply ChatbotMessage.content].
  split; [reflexivity|]. split; [reflexivity|].
  destruct (String.eqb
              (EmotionDetector.assess_risk_level to_lower keyword_scores (strip message))
              "critical");
    (eexists; split;
     [cbn; apply in_or_app; right; left; reflexivity | split; reflexivity]).
Qed.

End Crisis.

(** C2.  When the detector rates the user message critical or finds a risk
    keyword in it, the reply [send_message] generates is the fixed crisis
    template, which names the hotline 988, the text line 741741 and the
    emergency number 911, whatever the intent recognizer, the detected
    emotion, the triage recommendation and the rest of the message are; the
    template is none of the navigation replies. *)
Theorem crisis_reply_has_priority
        (to_lower : list string -> string -> list string -> string)
        (keyword_scores : string -> list (string * float))
        (construct : result IntentRecognizer.t)
        (instance : option IntentRecognizer.t)
        (now : Z) (conversation : ChatbotConversation.t)
        (message : string) (st : Store.t) :
  EmotionDetector.assess_risk_level to_lower keyword_scores (strip message) = "critical" \/
  EmotionDetector.detect_risk_keywords to_lower (strip message) <> [] ->
  let outcome :=
    send_message to_lower keyword_scores construct instance now (Some conversation)
                 (Some message) st in
  (forall emotion triage_recommendation,
      _generate_bot_response to_lower construct instance (strip message) emotion
        (EmotionDetector.assess_risk_level to_lower keyword_scores (strip message))
        (EmotionDetector.detect_risk_keywords to_lower (strip message))
        triage_recommendation
      = crisis_response) /\
  status (fst outcome) = 200 /\
  bot_reply (fst outcome) = Some crisis_response /\
  (exists bot_msg,
      In bot_msg (Store.chatbot_messages (snd outcome)) /\
      ChatbotMessage.message_type bot_msg = "bot" /\
      ChatbotMessage.content bot_msg = crisis_response) /\
  contains "Crisis Hotline: 988" crisis_response = true /\
  contains "Text HOME to: 741741" crisis_response = true /\
  contains "Emergency: 911" crisis_response = true /\
  crisis_response <> screening_navigation /\
  crisis_response <> self_care_navigation /\
  crisis_response <> dashboard_navigation /\
  crisis_response <> capability_menu.
Proof.
  intros Hrisk outcome.
  split.
  { intros emotion triage_recommendation. apply crisis_branch_first. exact Hrisk. }
  destruct (send_message_crisis to_lower keyword_scores construct instance now conversation
              message st Hrisk) as [Hstatus [Hreply Hstored]].
  split; [exact Hstatus|]. split; [exact Hreply|]. split; [exact Hstored|].
  repeat split; try (vm_compute; reflexivity); vm_compute; discriminate.
Qed.

(** A message that asks for a breathing exercise and states a wish to die,
    sent while the recognizer would read every text as a self-care request. *)
Definition mixed_message : string :=
  "  Show me a breathing exercise, I want to kill myself ".

Definition self_care_recognizer : IntentRecognizer.t :=
  IntentRecognizer.mk (Some (fun _ => Ok ("find_self_care", 0.95%float)))
                      (fun text => Ok text).

Lemma crisis_reply_has_priority_witness :
  any_in ["self care"; "self-care"; "breath"; "breathing"; "meditation";
          "mindful"; "exercise"] (lower ascii_to_lower (strip mixed_message)) = true /\
  bot_reply
    (fst (send_message ascii_to_lower (fun _ => [("sad", 1%float)])
            (Ok self_care_recognizer) None 50
            (Some (ChatbotConversation.mk 1 1 "session-1")) (Some mixed_message)
            Store.empty))
  = Some crisis_response.
Proof.
  split; [vm_compute; reflexivity|].
  refine (proj1 (proj2 (proj2
            (crisis_reply_has_priority ascii_to_lower (fun _ => [("sad", 1%float)])
               (Ok self_care_recognizer) None 50
               (ChatbotConversation.mk 1 1 "session-1") mixed_message Store.empty _)))).
  right. vm_compute. discriminate.
Defined.

End ChatbotProps.

(* ===================================================================== *)
(** * Part III.  Further properties of the code                           *)
(* ===================================================================== *)

(** ** The GAD-7 record and the flags of both records *)

Module RecordProps.

Import ScoringProps.

Definition gad7_on_scale (s : GAD7Screening.t) : Prop :=
  on_scale (GAD7Screening.q1_nervous s) /\ on_scale (GAD7Screening.q2_worry s) /\
  on_scale (GAD7Screening.q3_worry_control s) /\
  on_scale (GAD7Screening.q4_trouble_relaxing s) /\
  on_scale (GAD7Screening.q5_restless s) /\ on_scale (GAD7Screening.q6_irritable s) /\
  on_scale (GAD7Screening.q7_afraid s).

(** X1.  For a GAD-7 record whose seven answers lie in 0..3, [save] leaves a
    total equal to the sum of the answers (between 0 and 21), the severity
    of the band of the total, and the risk "critical" with both flags set
    exactly from a total of 15; below, "high" with the teleconsult flag from
    10, "medium" from 5 and "low" under 5. *)
Theorem gad7_save_scores_and_risk (self : GAD7Screening.t) :
  gad7_on_scale self ->
  let saved := GAD7Screening.save self in
  let total := SurveyProps.gad7_sum self in
  GAD7Screening.total_score saved = total /\
  0 <= total <= 21 /\
  gad7_band total (GAD7Screening.severity_level saved) /\
  ((GAD7Screening.risk_level saved = "critical" /\
    GAD7Screening.requires_immediate_attention saved = true /\
    GAD7Screening.requires_teleconsult saved = true) <-> total >= 15) /\
  (10 <= total < 15 ->
   GAD7Screening.risk_level saved = "high" /\
   GAD7Screening.requires_teleconsult saved = true) /\
  (5 <= total < 10 -> GAD7Screening.risk_level saved = "medium") /\
  (total < 5 -> GAD7Screening.risk_level saved = "low").
Proof.
  intros Hscale saved total.
  split; [apply SurveyProps.gad7_save_total|].
  split.
  { unfold gad7_on_scale, on_scale in Hscale. subst total.
    unfold SurveyProps.gad7_sum. lia. }
  split.
  { subst saved. rewrite SurveyProps.gad7_save_severity. apply gad7_severity_band. }
  subst saved total.
  unfold GAD7Screening.save. fold (SurveyProps.gad7_sum self).
  generalize (SurveyProps.gad7_sum self) as total. intro total.
  rewrite !Z.geb_leb.
  destruct (Z.leb_spec 15 total); cbn.
  { repeat split; intros; try lia; tauto. }
  destruct (Z.leb_spec 10 total); cbn.
  { repeat split; intros; try lia; try discriminate.
    match goal with H : _ /\ _ |- _ => destruct H as [H _]; discriminate H end. }
  destruct (Z.leb_spec 5 total); cbn.
  { repeat split; intros; try lia; try discriminate.
    match goal with H : _ /\ _ |- _ => destruct H as [H _]; discriminate H end. }
  repeat split; intros; try lia; try discriminate.
  match goal with H : _ /\ _ |- _ => destruct H as [H _]; discriminate H end.
Qed.

Lemma gad7_save_scores_and_risk_witness :
  GAD7Screening.total_score (GAD7Screening.save (GAD7Screening.new 1 1 1 1 1 1 1 1)) = 7.
Proof.
  refine (proj1 (gad7_save_scores_and_risk (GAD7Screening.new 1 1 1 1 1 1 1 1) _)).
  unfold gad7_on_scale, on_scale. cbn. lia.
Defined.

(** X2.  [save] never clears a flag: a record saved again after its
    answers were lowered keeps the flags it had.  On a record built with the
    default flags, the saved flags say exactly that the total reached 15 or
    the ninth answer 2 (immediate attention) and that the total reached 10
    or the ninth answer 2 (teleconsult); for the GAD-7, 15 and 10. *)
Theorem save_sets_flags_and_never_clears_them :
  (forall self : PHQ9Screening.t,
      (PHQ9Screening.requires_immediate_attention self = true ->
       PHQ9Screening.requires_immediate_attention (PHQ9Screening.save self) = true) /\
      (PHQ9Screening.requires_teleconsult self = true ->
       PHQ9Screening.requires_teleconsult (PHQ9Screening.save self) = true)) /\
  (forall self : GAD7Screening.t,
      (GAD7Screening.requires_immediate_attention self = true ->
       GAD7Screening.requires_immediate_attention (GAD7Screening.save self) = true) /\
      (GAD7Screening.requires_teleconsult self = true ->
       GAD7Screening.requires_teleconsult (GAD7Screening.save self) = true)) /\
  (forall patient q1 q2 q3 q4 q5 q6 q7 q8 q9,
      let saved := PHQ9Screening.save
                     (PHQ9Screening.new patient q1 q2 q3 q4 q5 q6 q7 q8 q9) in
      let total := q1 + q2 + q3 + q4 + q5 + q6 + q7 + q8 + q9 in
      (PHQ9Screening.requires_immediate_attention saved = true
       <-> total >= 15 \/ q9 >= 2) /\
      (PHQ9Screening.requires_teleconsult saved = true
       <-> total >= 10 \/ q9 >= 2)) /\
  (forall patient q1 q2 q3 q4 q5 q6 q7,
      let saved := GAD7Screening.save (GAD7Screening.new patient q1 q2 q3 q4 q5 q6 q7) in
      let total := q1 + q2 + q3 + q4 + q5 + q6 + q7 in
      (GAD7Screening.requires_immediate_attention saved = true <-> total >= 15) /\
      (GAD7Screening.requires_teleconsult saved = true <-> total >= 10)).
Proof.
  repeat apply conj.
  - intro self. unfold PHQ9Screening.save.
    destruct (_ || _)%bool; [split; reflexivity|].
    destruct (_ >=? 10); [split; [intro H; exact H | reflexivity]|].
    destruct (_ >=? 5); split; intro H; exact H.
  - intro self. unfold GAD7Screening.save.
    destruct (_ >=? 15); [split; reflexivity|].
    destruct (_ >=? 10); [split; [intro H; exact H | reflexivity]|].
    destruct (_ >=? 5); split; intro H; exact H.
  - intros patient q1 q2 q3 q4 q5 q6 q7 q8 q9 saved total. subst saved.
    unfold PHQ9Screening.save, PHQ9Screening.new. cbn.
    fold total. rewrite !Z.geb_leb.
    destruct (Z.leb_spec 15 total); cbn; [split; split; intros; try reflexivity; lia|].
    destruct (Z.leb_spec 2 q9); cbn; [split; split; intros; try reflexivity; lia|].
    destruct (Z.leb_spec 10 total); cbn.
    { split; split; intros; try reflexivity; try discriminate; lia. }
    destruct (Z.leb_spec 5 total); cbn;
      split; split; intros; try discriminate; lia.
  - intros patient q1 q2 q3 q4 q5 q6 q7 saved total. subst saved.
    unfold GAD7Screening.save, GAD7Screening.new. cbn.
    fold total. rewrite !Z.geb_leb.
    destruct (Z.leb_spec 15 total); cbn; [split; split; intros; try reflexivity; lia|].
    destruct (Z.leb_spec 10 total); cbn.
    { split; split; intros; try reflexivity; try discriminate; lia. }
    destruct (Z.leb_spec 5 total); cbn;
      split; split; intros; try discriminate; lia.
Qed.

End RecordProps.

(** ** The rule engine on a known patient *)

Module RuleEngineProps.

Import TriageService.

(** Rule 1 applies: either instrument with a score of 15 or more. *)
Definition referral_due (survey_type : string) (score : Z) : bool :=
  ((String.eqb survey_type "phq9" && (score >=? 15)) ||
   (String.eqb survey_type "gad7" && (score >=? 15)))%bool.

(** The reason Rule 1 writes on the referral. *)
Definition referral_reason (survey_type : string) (score : Z) (severity_level : string)
  : string :=
  if String.eqb survey_type "phq9" then
    "PHQ-9 score of " ++ str_of_int score ++ " indicates " ++ severity_level ++ " depression"
  else
    "GAD-7 score of " ++ str_of_int score ++ " indicates " ++ severity_level ++ " anxiety".

(** The increase Rule 2 acts on: the trend is checked for the PHQ-9 only. *)
Definition seen_increase (now : Z) (patient : Patient.t) (survey_type : string)
           (score : Z) (st : Store.t) : option Z :=
  if String.eqb survey_type "phq9"
  then _check_score_increase now patient survey_type score st
  else None.

Lemma check_after_referral now patient survey_type score sc reason st :
  _check_score_increase now patient survey_type score
    (_create_teleconsult_referral now patient survey_type sc reason st)
  = _check_score_increase now patient survey_type score st.
Proof. reflexivity. Qed.

Lemma check_at_least_5 now patient survey_type score st inc :
  _check_score_increase now patient survey_type score st = Some inc -> inc >= 5.
Proof.
  unfold _check_score_increase.
  destruct (String.eqb survey_type "phq9").
  - destruct (Orm.first_newest _ _) as [prev|]; [|discriminate].
    destruct (Z.geb_spec (score - PHQ9Screening.total_score prev) 5); [|discriminate].
    intro Heq; inversion Heq; subst. lia.
  - destruct (String.eqb survey_type "gad7"); [|discriminate].
    destruct (Orm.first_newest _ _) as [prev|]; [|discriminate].
    destruct (Z.geb_spec (score - GAD7Screening.total_score prev) 5); [|discriminate].
    intro Heq; inversion Heq; subst. lia.
Qed.

Lemma recommendation_nonempty survey_type score severity_level :
  nonempty (_get_self_care_recommendation survey_type score severity_level) = true.
Proof.
  unfold _get_self_care_recommendation.
  destruct (_ || _)%bool; [destruct (String.eqb survey_type "gad7"); reflexivity|].
  destruct (String.eqb severity_level "moderate"); [|reflexivity].
  destruct (String.eqb survey_type "gad7"); reflexivity.
Qed.

(** [process_triage] for a patient the store knows, rule by rule. *)
Lemma process_triage_known now patient_id survey_type score severity_level st patient :
  Orm.get "Patient" (fun p => Patient.id p =? patient_id) (Store.patients st) = Ok patient ->
  process_triage now patient_id survey_type score severity_level st
  = let due := referral_due survey_type score in
    let st1 :=
      if due then
        _create_teleconsult_referral now patient survey_type score
          (referral_reason survey_type score severity_level) st
      else st in
    match seen_increase now patient survey_type score st with
    | Some score_increase =>
        (Ok (mkTriage (if due then "TriggerReferral" else "TriggerClinicianAlert")
                      None true due),
         _create_clinician_alert now patient survey_type score_increase st1)
    | None =>
        (Ok (mkTriage (if due then "TriggerReferral" else "RecommendSelfCare")
                      (if due then None
                       else Some (_get_self_care_recommendation survey_type score
                                                                severity_level))
                      false due),
         st1)
    end.
Proof.
  intro Hget. unfold process_triage, referral_due, referral_reason, seen_increase.
  rewrite Hget.
  destruct (String.eqb survey_type "phq9") eqn:Hp;
    destruct (score >=? 15) eqn:H15;
    destruct (String.eqb survey_type "gad7") eqn:Hg;
    cbv beta iota zeta; cbn [andb orb].
  all: try rewrite check_after_referral.
  all: try (destruct (_check_score_increase now patient survey_type score st)
              as [inc|] eqn:Hc).
  all: try (pose proof (check_at_least_5 _ _ _ _ _ _ Hc) as Hinc;
            replace (negb (inc =? 0) && (inc >=? 5))%bool with true
              by (symmetry; apply andb_true_iff; split;
                  [apply negb_true_iff; apply Z.eqb_neq; lia | apply Z.geb_le; lia])).
  all: cbv beta iota zeta; cbn [String.eqb Ascii.eqb Bool.eqb];
    try rewrite recommendation_nonempty; reflexivity.
Qed.

(** X3.  For a patient the store knows, [process_triage] always succeeds
    and decides as follows: a referral is created exactly for a score of 15
    or more on either instrument; an alert only for the PHQ-9, and exactly
    when the trend check reports an increase; the action is
    "TriggerReferral" when a referral was created, else
    "TriggerClinicianAlert" when an alert was, else "RecommendSelfCare" with
    a module, and never "None". *)
Theorem triage_decision now patient_id survey_type score severity_level st patient :
  Orm.get "Patient" (fun p => Patient.id p =? patient_id) (Store.patients st) = Ok patient ->
  exists r st',
    process_triage now patient_id survey_type score severity_level st = (Ok r, st') /\
    (referralCreated r = true <->
     (survey_type = "phq9" \/ survey_type = "gad7") /\ score >= 15) /\
    (alertCreated r = true <->
     survey_type = "phq9" /\
     exists inc, _check_score_increase now patient "phq9" score st = Some inc /\ inc >= 5) /\
    triageAction r
    = (if referralCreated r then "TriggerReferral"
       else if alertCreated r then "TriggerClinicianAlert"
       else "RecommendSelfCare") /\
    recommendedModule r
    = (if (referralCreated r || alertCreated r)%bool then None
       else Some (_get_self_care_recommendation survey_type score severity_level)) /\
    triageAction r <> "None".
Proof.
  intro Hget. rewrite (process_triage_known _ _ _ _ _ _ _ Hget). cbv zeta.
  assert (Hdue : referral_due survey_type score = true <->
                 (survey_type = "phq9" \/ survey_type = "gad7") /\ score >= 15).
  { unfold referral_due. rewrite orb_true_iff, !andb_true_iff, !String.eqb_eq, Z.geb_le.
    split; [intros [[? ?] | [? ?]]; split; auto; lia | intros [[? | ?] ?]; [left | right]; split; auto; lia]. }
  unfold seen_increase.
  destruct (String.eqb survey_type "phq9") eqn:Hp.
  - apply String.eqb_eq in Hp. subst survey_type.
    destruct (_check_score_increase now patient "phq9" score st) as [inc|] eqn:Hc.
    + eexists. eexists. split; [reflexivity|]. cbn.
      split; [exact Hdue|].
      split; [split; [intros _; split; [reflexivity|]; exists inc; split;
                      [reflexivity | exact (check_at_least_5 _ _ _ _ _ _ Hc)]
                     | reflexivity]|].
      destruct (referral_due "phq9" score); repeat split; discriminate.
    + eexists. eexists. split; [reflexivity|]. cbn.
      split; [exact Hdue|].
      split; [split; [discriminate | intros [_ [inc [Hinc _]]]; discriminate Hinc]|].
      destruct (referral_due "phq9" score); repeat split; discriminate.
  - eexists. eexists. split; [reflexivity|]. cbn.
    split; [exact Hdue|].
    split; [split; [discriminate | intros [Heq _]; subst; discriminate Hp]|].
    destruct (referral_due survey_type score); repeat split; discriminate.
Qed.

(** A store with one patient, key 1, of account 5. *)
Definition one_patient : Store.t :=
  Store.with_patients [Patient.mk 1 5 "casey" ""] Store.empty.

Lemma triage_decision_witness :
  exists r st',
    process_triage 0 1 "gad7" 3 "minimal" one_patient = (Ok r, st') /\
    triageAction r = "RecommendSelfCare" /\
    recommendedModule r = Some "4-7-8 Breathing".
Proof.
  destruct (triage_decision 0 1 "gad7" 3 "minimal" one_patient (Patient.mk 1 5 "casey" "")
              eq_refl) as [r [st' [Hrun [Href [Halert [Haction [Hmodule _]]]]]]].
  exists r, st'. split; [exact Hrun|].
  vm_compute in Hrun. inversion Hrun; subst r st'. split; reflexivity.
Defined.

(** The tables the rule engine does not write. *)
Definition untouched_by_triage (st st' : Store.t) : Prop :=
  Store.patients st' = Store.patients st /\
  Store.phq9_screenings st' = Store.phq9_screenings st /\
  Store.gad7_screenings st' = Store.gad7_screenings st /\
  Store.chatbot_messages st' = Store.chatbot_messages st /\
  Store.pathways st' = Store.pathways st /\
  Store.clinicians st' = Store.clinicians st /\
  Store.assignments st' = Store.assignments st /\
  Store.trends st' = Store.trends st /\
  Store.treatment_plans st' = Store.treatment_plans st /\
  Store.clinical_notes st' = Store.clinical_notes st /\
  Store.alert_responses st' = Store.alert_responses st.

(** X4.  What [process_triage] writes for a known patient: nothing but
    appended rows.  A created referral is one pending row of priority
    "high" for the patient; a created alert is one unresolved row of type
    "score_increase" for the patient, and comes with exactly one
    notification job, for that alert at priority "high".  No job is queued
    without an alert, and every other table is left as it was. *)
Theorem triage_store_effects now patient_id survey_type score severity_level st patient :
  Orm.get "Patient" (fun p => Patient.id p =? patient_id) (Store.patients st) = Ok patient ->
  exists r st',
    process_triage now patient_id survey_type score severity_level st = (Ok r, st') /\
    untouched_by_triage st st' /\
    (exists reason,
        Store.teleconsult_referrals st'
        = (Store.teleconsult_referrals st ++
           (if referralCreated r then
              [TeleconsultReferral.mk
                 (Orm.next_pk TeleconsultReferral.id (Store.teleconsult_referrals st))
                 (Patient.id patient) reason "high" "pending" now]
            else []))%list) /\
    (exists message,
        Store.screening_alerts st'
        = (Store.screening_alerts st ++
           (if alertCreated r then
              [ScreeningAlert.mk
                 (Orm.next_pk ScreeningAlert.id (Store.screening_alerts st))
                 (Patient.id patient) "score_increase" message false now]
            else []))%list) /\
    Store.task_queue st'
    = (Store.task_queue st ++
       (if alertCreated r then
          [send_alert_notification
             (Orm.next_pk ScreeningAlert.id (Store.screening_alerts st)) "high"]
        else []))%list.
Proof.
  intro Hget. rewrite (process_triage_known _ _ _ _ _ _ _ Hget). cbv zeta.
  assert (Hhigh : referral_due survey_type score = true ->
                  (if score >=? 15 then "high" else "medium") = "high").
  { unfold referral_due. intro H. apply orb_true_iff in H.
    destruct H as [H | H]; apply andb_true_iff in H; destruct H as [_ H];
      rewrite H; reflexivity. }
  destruct (seen_increase now patient survey_type score st) as [inc|];
    destruct (referral_due survey_type score) eqn:Hdue;
    (eexists; eexists; split; [reflexivity|]);
    unfold untouched_by_triage, _create_clinician_alert, _create_teleconsult_referral,
      Store.create_alert, Store.create_referral, Store.delay;
    cbn; rewrite ?app_nil_r;
    try (rewrite (Hhigh eq_refl));
    (split; [repeat split|]);
    (split; [first [eexists; reflexivity | exists ""; reflexivity]|]);
    (split; [first [eexists; reflexivity | exists ""; reflexivity]|]);
    reflexivity.
Qed.

Lemma triage_store_effects_witness :
  exists r st',
    process_triage 70 1 "phq9" 16 "moderately_severe" one_patient = (Ok r, st') /\
    map TeleconsultReferral.priority (Store.teleconsult_referrals st') = ["high"] /\
    Store.task_queue st' = [].
Proof.
  destruct (triage_store_effects 70 1 "phq9" 16 "moderately_severe" one_patient
              (Patient.mk 1 5 "casey" "") eq_refl)
    as [r [st' [Hrun _]]].
  exists r, st'. split; [exact Hrun|].
  vm_compute in Hrun. inversion Hrun; subst r st'. split; reflexivity.
Defined.

End RuleEngineProps.

(** ** The two engines side by side, and the scheduling job *)

Module EngineProps.

Lemma score_at_least_spec (v k : Z) :
  0 < k -> TriageService.score_at_least (Some v) k = (v >=? k).
Proof.
  intro Hk. unfold TriageService.score_at_least.
  destruct (Z.eqb_spec v 0) as [Hv | Hv]; cbn; [|reflexivity].
  subst v. symmetry. rewrite Z.geb_leb. apply Z.leb_gt. exact Hk.
Qed.

(** X5.  The risk tier of [TriageService.get_comprehensive_assessment] on
    two given scores is the tier the legacy
    [TriageEngine.assess_risk_level] computes: "critical" exactly for
    suicidal ideation, a PHQ-9 score from 20 or a GAD-7 score from 15.  A
    missing score counts like a score of 0; the assessment always carries
    four recommendations, the legacy ones unless the tier is "critical". *)
Theorem engines_agree_on_risk_tier (phq9_score gad7_score : Z) (suicidal_ideation : bool) :
  let assessment :=
    TriageService.get_comprehensive_assessment (Some phq9_score) (Some gad7_score)
                                               suicidal_ideation in
  fst assessment = TriageEngine.assess_risk_level phq9_score gad7_score suicidal_ideation /\
  (fst assessment = "critical" <->
   suicidal_ideation = true \/ phq9_score >= 20 \/ gad7_score >= 15) /\
  TriageService.get_comprehensive_assessment None (Some gad7_score) suicidal_ideation
  = TriageService.get_comprehensive_assessment (Some 0) (Some gad7_score) suicidal_ideation /\
  TriageService.get_comprehensive_assessment (Some phq9_score) None suicidal_ideation
  = TriageService.get_comprehensive_assessment (Some phq9_score) (Some 0) suicidal_ideation /\
  List.length (snd assessment) = 4%nat /\
  (fst assessment <> "critical" ->
   snd assessment
   = TriageEngine.get_recommendations phq9_score gad7_score (fst assessment)).
Proof.
  intro assessment. subst assessment.
  unfold TriageService.get_comprehensive_assessment, TriageEngine.assess_risk_level.
  rewrite !score_at_least_spec by lia. cbn [TriageService.score_at_least fst snd].
  rewrite !Z.geb_leb.
  destruct suicidal_ideation; cbn [orb].
  { repeat split; try reflexivity; try (intros; auto; fail); try congruence. }
  destruct (Z.leb_spec 20 phq9_score); cbn [orb].
  { repeat split; try reflexivity; try congruence; intros; auto; lia. }
  destruct (Z.leb_spec 15 gad7_score); cbn [orb].
  { repeat split; try reflexivity; try congruence; intros; auto; lia. }
  destruct (Z.leb_spec 15 phq9_score); cbn [orb].
  { repeat split; try reflexivity; try discriminate.
    intros [Hs | [Hp | Hg]]; [discriminate | lia | lia]. }
  destruct (Z.leb_spec 10 gad7_score); cbn [orb].
  { repeat split; try reflexivity; try discriminate.
    intros [Hs | [Hp | Hg]]; [discriminate | lia | lia]. }
  destruct (Z.leb_spec 10 phq9_score); cbn [orb].
  { repeat split; try reflexivity; try discriminate.
    intros [Hs | [Hp | Hg]]; [discriminate | lia | lia]. }
  destruct (Z.leb_spec 7 gad7_score); cbn [orb].
  { repeat split; try reflexivity; try discriminate.
    intros [Hs | [Hp | Hg]]; [discriminate | lia | lia]. }
  repeat split; try reflexivity; try discriminate.
  intros [Hs | [Hp | Hg]]; [discriminate | lia | lia].
Qed.

Lemma next_pk_above {A : Type} (pk : A -> Z) (rows : list A) :
  forall r, In r rows -> pk r < Orm.next_pk pk rows.
Proof.
  unfold Orm.next_pk.
  assert (Hmono : forall l acc, acc <= fold_left (fun a r => Z.max a (pk r)) l acc).
  { induction l as [|x l IH]; intro acc; cbn; [lia|].
    specialize (IH (Z.max acc (pk x))). lia. }
  assert (Hall : forall l acc r, In r l ->
                                 pk r <= fold_left (fun a r => Z.max a (pk r)) l acc).
  { induction l as [|x l IH]; intros acc r Hin; [destruct Hin|].
    cbn. destruct Hin as [Heq | Hin].
    - subst x. specialize (Hmono l (Z.max acc (pk r))). lia.
    - apply IH. exact Hin. }
  intros r Hin. specialize (Hall rows 0 r Hin). lia.
Qed.

Lemma filter_drop_new {A : Type} (keep : A -> bool) (pk : A -> Z) (rows : list A) (x : A) :
  (forall r, In r rows -> pk r <> pk x) ->
  filter (fun r => negb (pk r =? pk x)) (filter keep (rows ++ [x]))
  = filter keep rows.
Proof.
  intro Hfresh. rewrite filter_app.
  rewrite filter_app.
  assert (Hlast : filter (fun r => negb (pk r =? pk x)) (filter keep [x]) = []).
  { cbn. destruct (keep x); cbn; [rewrite Z.eqb_refl|]; reflexivity. }
  rewrite Hlast, app_nil_r.
  induction rows as [|r rows IH]; [reflexivity|].
  cbn. destruct (keep r) eqn:Hk; cbn.
  - destruct (Z.eqb_spec (pk r) (pk x)) as [Heq | _].
    + exfalso. exact (Hfresh r (or_introl eq_refl) Heq).
    + cbn. f_equal. apply IH. intros r' Hin. apply Hfresh. right. exact Hin.
  - apply IH. intros r' Hin. apply Hfresh. right. exact Hin.
Qed.

(** X6.  The legacy trend check leaves the screening under triage out of
    its lookup.  Run on the store that already holds the new PHQ-9
    screening, it creates its "score_increase" alert exactly when the rule
    engine's check, run on the store before the screening was saved, reports
    an increase, and it reports the same number of points. *)
Theorem legacy_check_excludes_current (now t_create : Z) (patient : Patient.t)
        (unsaved : PHQ9Screening.t) (st : Store.t) :
  let row := fst (Store.create_phq9 t_create unsaved st) in
  let st' := snd (Store.create_phq9 t_create unsaved st) in
  TriageEngine._check_score_increase now (Patient.id patient)
    (PHQ9Screening.id row) (PHQ9Screening.total_score row) "phq9" st'
  = match TriageService._check_score_increase now patient "phq9"
            (PHQ9Screening.total_score row) st with
    | Some score_increase =>
        TriageEngine._create_alert now (Patient.id patient) "score_increase"
          ("Significant PHQ9 score increase of " ++ str_of_int score_increase
           ++ " points in 2 weeks") st'
    | None => st'
    end.
Proof.
  intros row st'.
  unfold TriageEngine._check_score_increase, TriageService._check_score_increase.
  cbn [String.eqb Ascii.eqb Bool.eqb].
  assert (Hrows : Store.phq9_screenings st' = (Store.phq9_screenings st ++ [row])%list)
    by reflexivity.
  rewrite Hrows.
  rewrite (filter_drop_new _ PHQ9Screening.id).
  - destruct (Orm.first_newest _ _) as [previous|]; cbn [option_map]; [|reflexivity].
    destruct (_ >=? 5); reflexivity.
  - intros r Hin. apply Z.lt_neq.
    exact (next_pk_above PHQ9Screening.id (Store.phq9_screenings st) r Hin).
Qed.

Lemma filter_map_same {A : Type} (keep : A -> bool) (f : A -> A) (rows : list A) :
  (forall r, keep (f r) = keep r) ->
  filter keep (map f rows) = map f (filter keep rows).
Proof.
  intro Hk. induction rows as [|r rows IH]; [reflexivity|].
  cbn. rewrite Hk. destruct (keep r); cbn; rewrite IH; reflexivity.
Qed.

(** The rewrite of the referrals by [schedule_teleconsult] when the key is
    found. *)
Definition schedule_row (referral_id : Z) (r : TeleconsultReferral.t)
  : TeleconsultReferral.t :=
  if TeleconsultReferral.id r =? referral_id then Tasks.mark_scheduled r else r.

Lemma schedule_found (referral_id : Z) (st : Store.t) (referral : TeleconsultReferral.t) :
  filter (fun r => TeleconsultReferral.id r =? referral_id)
         (Store.teleconsult_referrals st) = [referral] ->
  Tasks.schedule_teleconsult referral_id st
  = Store.with_teleconsult_referrals
      (map (schedule_row referral_id) (Store.teleconsult_referrals st)) st.
Proof.
  intro Hone. unfold Tasks.schedule_teleconsult, Orm.get. rewrite Hone.
  assert (Hin : In referral (filter (fun r => TeleconsultReferral.id r =? referral_id)
                                    (Store.teleconsult_referrals st)))
    by (rewrite Hone; left; reflexivity).
  apply filter_In in Hin. destruct Hin as [_ Hid]. apply Z.eqb_eq in Hid.
  f_equal. apply map_ext_in. intros r Hr. unfold schedule_row. rewrite Hid.
  destruct (Z.eqb_spec (TeleconsultReferral.id r) referral_id) as [Heq|]; [|reflexivity].
  assert (Hr' : In r (filter (fun r => TeleconsultReferral.id r =? referral_id)
                             (Store.teleconsult_referrals st))).
  { apply filter_In. split; [exact Hr | apply Z.eqb_eq; exact Heq]. }
  rewrite Hone in Hr'. destruct Hr' as [Hr' | []]. subst r. reflexivity.
Qed.

Lemma schedule_row_twice (referral_id : Z) (r : TeleconsultReferral.t) :
  schedule_row referral_id (schedule_row referral_id r) = schedule_row referral_id r.
Proof.
  unfold schedule_row.
  destruct (TeleconsultReferral.id r =? referral_id) eqn:Hr; cbn; rewrite Hr; reflexivity.
Qed.

(** X7.  [schedule_teleconsult] changes nothing but the status of the
    referral with the given key, which becomes "scheduled": the keys, the
    other referrals and every other table stay as they were; an unknown key
    changes nothing at all; and running the job again changes nothing
    more. *)
Theorem schedule_teleconsult_effects (referral_id : Z) (st : Store.t) :
  let st' := Tasks.schedule_teleconsult referral_id st in
  (forall referral,
      Orm.get "TeleconsultReferral" (fun r => TeleconsultReferral.id r =? referral_id)
              (Store.teleconsult_referrals st) = Ok referral ->
      Store.teleconsult_referrals st'
      = map (schedule_row referral_id) (Store.teleconsult_referrals st) /\
      In (Tasks.mark_scheduled referral) (Store.teleconsult_referrals st')) /\
  ((forall r, In r (Store.teleconsult_referrals st) ->
              TeleconsultReferral.id r <> referral_id) -> st' = st) /\
  map TeleconsultReferral.id (Store.teleconsult_referrals st')
  = map TeleconsultReferral.id (Store.teleconsult_referrals st) /\
  Store.screening_alerts st' = Store.screening_alerts st /\
  Store.task_queue st' = Store.task_queue st /\
  Store.patients st' = Store.patients st /\
  Tasks.schedule_teleconsult referral_id st' = st'.
Proof.
  intro st'. subst st'.
  destruct (Orm.get "TeleconsultReferral"
              (fun r => TeleconsultReferral.id r =? referral_id)
              (Store.teleconsult_referrals st)) as [referral|e] eqn:Hget.
  - (* the referral is found: exactly one row carries the key *)
    assert (Hone : filter (fun r => TeleconsultReferral.id r =? referral_id)
                          (Store.teleconsult_referrals st) = [referral]).
    { unfold Orm.get in Hget.
      destruct (filter _ (Store.teleconsult_referrals st)) as [|x [|y l]];
        inversion Hget; reflexivity. }
    assert (Hin : In referral (filter (fun r => TeleconsultReferral.id r =? referral_id)
                                      (Store.teleconsult_referrals st)))
      by (rewrite Hone; left; reflexivity).
    apply filter_In in Hin. destruct Hin as [Hin Hid]. apply Z.eqb_eq in Hid.
    rewrite (schedule_found referral_id st referral Hone).
    cbn [Store.teleconsult_referrals Store.with_teleconsult_referrals
         Store.screening_alerts Store.task_queue Store.patients].
    split.
    { intros referral' Heq. inversion Heq; subst referral'.
      split; [reflexivity|].
      apply in_map_iff. exists referral. split; [|exact Hin].
      unfold schedule_row. rewrite Hid, Z.eqb_refl. reflexivity. }
    split.
    { intro Hnone. exfalso. exact (Hnone referral Hin Hid). }
    split.
    { rewrite map_map. apply map_ext. intro r. unfold schedule_row.
      destruct (TeleconsultReferral.id r =? referral_id); reflexivity. }
    repeat (split; [reflexivity|]).
    (* the second run finds the scheduled referral and rewrites it as it is *)
    rewrite (schedule_found referral_id _ (Tasks.mark_scheduled referral)).
    + unfold Store.with_teleconsult_referrals.
      cbn [Store.teleconsult_referrals Store.patients Store.phq9_screenings
           Store.gad7_screenings Store.screening_alerts Store.chatbot_messages
           Store.pathways Store.clinicians Store.assignments Store.trends
           Store.treatment_plans Store.clinical_notes Store.alert_responses
           Store.task_queue].
      f_equal. rewrite map_map. apply map_ext. intro r. apply schedule_row_twice.
    + cbn [Store.teleconsult_referrals Store.with_teleconsult_referrals].
      rewrite filter_map_same.
      * rewrite Hone. cbn. unfold schedule_row. rewrite Hid, Z.eqb_refl. reflexivity.
      * intro r. unfold schedule_row.
        destruct (TeleconsultReferral.id r =? referral_id) eqn:Hr;
          cbn; rewrite Hr; reflexivity.
  - unfold Tasks.schedule_teleconsult. rewrite Hget.
    split; [intros referral Heq; discriminate Heq|].
    repeat (split; [reflexivity|]).
    rewrite Hget. reflexivity.
Qed.

End EngineProps.

(** ** The submission views on accepted answers *)

Module SubmissionProps.

Import SurveySubmissionViewSet.
Import ScoringProps.

Lemma filter_no_key {A : Type} (key : A -> Z) (rows : list A) (k : Z) :
  ~ In k (map key rows) -> filter (fun r => key r =? k) rows = [].
Proof.
  induction rows as [|r rows IH]; intro Hnotin; [reflexivity|].
  cbn. destruct (Z.eqb_spec (key r) k) as [Hk | _].
  - exfalso. apply Hnotin. left. exact Hk.
  - apply IH. intro H. apply Hnotin. right. exact H.
Qed.

(** Exactly one row of a table with unique keys carries the key of a row of
    the table. *)
Lemma get_unique {A : Type} (model : string) (key : A -> Z) (rows : list A) (x : A) :
  NoDup (map key rows) -> In x rows ->
  Orm.get model (fun r => key r =? key x) rows = Ok x.
Proof.
  intros Hnd Hin. unfold Orm.get.
  assert (Hone : filter (fun r => key r =? key x) rows = [x]).
  { induction rows as [|r rows IH]; [destruct Hin|].
    cbn in Hnd. inversion Hnd as [|? ? Hnotin Hnd']; subst.
    cbn. destruct Hin as [Heq | Hin].
    - subst r. rewrite Z.eqb_refl. f_equal. apply filter_no_key. exact Hnotin.
    - destruct (Z.eqb_spec (key r) (key x)) as [Hk | _].
      + exfalso. apply Hnotin. rewrite Hk. apply in_map. exact Hin.
      + apply IH; assumption. }
  rewrite Hone. reflexivity.
Qed.

Lemma get_found {A : Type} (model : string) (p : A -> bool) (rows : list A) (x : A) :
  Orm.get model p rows = Ok x -> filter p rows = [x].
Proof.
  unfold Orm.get. destruct (filter p rows) as [|y [|z l]]; intro H; inversion H.
  reflexivity.
Qed.

Lemma get_missing {A : Type} (model model' : string) (p : A -> bool) (rows : list A) :
  Orm.get model p rows = Raise (DoesNotExist model') -> filter p rows = [].
Proof.
  unfold Orm.get. destruct (filter p rows) as [|y [|z l]]; intro H; inversion H.
  reflexivity.
Qed.

Lemma filter_nil_none {A : Type} (p : A -> bool) (rows : list A) :
  filter p rows = [] -> forall r, In r rows -> p r = false.
Proof.
  intros Hnil r Hin. destruct (p r) eqn:Hp; [|reflexivity].
  assert (Hr : In r (filter p rows)) by (apply filter_In; split; assumption).
  rewrite Hnil in Hr. destruct Hr.
Qed.

(** X8.  [_get_or_create_patient] on success returns a patient of the
    calling account that the store holds, and a second call returns the
    same patient and writes nothing.  It either leaves the store as it was
    or appends that one patient, under a key above all others and with an
    identifier no other patient has, so that unique keys, accounts and
    identifiers stay unique; on failure the store is unchanged. *)
Theorem get_or_create_patient_once (request : Request) (st : Store.t) :
  (forall patient st1,
      _get_or_create_patient request st = (Ok patient, st1) ->
      Patient.user patient = user request /\
      In patient (Store.patients st1) /\
      _get_or_create_patient request st1 = (Ok patient, st1) /\
      (st1 = st \/
       st1 = Store.with_patients (Store.patients st ++ [patient]) st /\
       forall p, In p (Store.patients st) ->
                 Patient.id p < Patient.id patient /\
                 Patient.user p <> Patient.user patient /\
                 Patient.firebase_uid p <> Patient.firebase_uid patient)) /\
  (forall e st1, _get_or_create_patient request st = (Raise e, st1) -> st1 = st).
Proof.
  unfold _get_or_create_patient.
  destruct (Orm.get "Patient" (fun p => Patient.user p =? user request)
                    (Store.patients st)) as [found|e] eqn:Hget.
  - split; [|intros e st1 H; inversion H].
    intros patient st1 H. inversion H; subst patient st1.
    pose proof (get_found _ _ _ _ Hget) as Hone.
    assert (Hin : In found (filter (fun p => Patient.user p =? user request)
                                   (Store.patients st)))
      by (rewrite Hone; left; reflexivity).
    apply filter_In in Hin. destruct Hin as [Hin Huser]. apply Z.eqb_eq in Huser.
    split; [exact Huser|]. split; [exact Hin|].
    split; [rewrite Hget; reflexivity | left; reflexivity].
  - destruct e as [m|m|m|m|model|model|m|];
      try (split; [intros patient st1 H; inversion H
                  | intros e st1 H; inversion H; reflexivity]).
    pose proof (get_missing _ _ _ _ Hget) as Hnone.
    destruct (existsb _ (Store.patients st)) eqn:Htaken.
    + split; [intros patient st1 H; inversion H
             | intros e st1 H; inversion H; reflexivity].
    + split; [|intros e st1 H; inversion H].
      intros patient st1 H. inversion H; subst patient st1. clear H.
      cbn [Patient.user Patient.id Patient.firebase_uid
           Store.patients Store.with_patients].
      split; [reflexivity|].
      split; [apply in_or_app; right; left; reflexivity|].
      split.
      { unfold Orm.get. rewrite filter_app, Hnone. cbn.
        rewrite Z.eqb_refl. reflexivity. }
      right. split; [reflexivity|].
      intros p Hp. split; [|split].
      * apply (EngineProps.next_pk_above Patient.id). exact Hp.
      * pose proof (filter_nil_none _ _ Hnone p Hp) as Hu. cbn in Hu.
        apply Z.eqb_neq. exact Hu.
      * intro Hsame.
        assert (Hex : existsb
                        (fun p : Patient.t =>
                           String.eqb (Patient.firebase_uid p)
                             (if nonempty (firebase_uid request) then firebase_uid request
                              else username request))
                        (Store.patients st) = true).
        { apply existsb_exists. exists p. split; [exact Hp|].
          apply String.eqb_eq. exact Hsame. }
        congruence.
Qed.

Lemma get_or_create_patient_once_witness :
  _get_or_create_patient (mkRequest 5 "casey" None "") Store.empty
  = (Ok (Patient.mk 1 5 "casey" ""),
     Store.with_patients [Patient.mk 1 5 "casey" ""] Store.empty) /\
  _get_or_create_patient (mkRequest 5 "casey" None "")
    (Store.with_patients [Patient.mk 1 5 "casey" ""] Store.empty)
  = (Ok (Patient.mk 1 5 "casey" ""),
     Store.with_patients [Patient.mk 1 5 "casey" ""] Store.empty).
Proof.
  split; [reflexivity|].
  exact (proj1 (proj2 (proj2
           (proj1 (get_or_create_patient_once (mkRequest 5 "casey" None "") Store.empty)
                  (Patient.mk 1 5 "casey" "")
                  (Store.with_patients [Patient.mk 1 5 "casey" ""] Store.empty)
                  eq_refl)))).
Defined.

(** The total of an answer vector, as [sum] adds it up. *)
Definition total_of (l : list Z) : Z := fold_left Z.add l 0.

(** The store after a successful [_get_or_create_patient]: the store
    itself, or the store with the patient appended under a fresh key. *)
Lemma get_or_create_shape (request : Request) (st st1 : Store.t) (patient : Patient.t) :
  _get_or_create_patient request st = (Ok patient, st1) ->
  In patient (Store.patients st1) /\
  (st1 = st \/
   st1 = Store.with_patients (Store.patients st ++ [patient]) st /\
   forall p, In p (Store.patients st) -> Patient.id p < Patient.id patient).
Proof.
  unfold _get_or_create_patient.
  destruct (Orm.get "Patient" (fun p => Patient.user p =? user request)
                    (Store.patients st)) as [found|e] eqn:Hget.
  - intro H. inversion H; subst patient st1.
    pose proof (get_found _ _ _ _ Hget) as Hone.
    assert (Hin : In found (filter (fun p => Patient.user p =? user request)
                                   (Store.patients st)))
      by (rewrite Hone; left; reflexivity).
    apply filter_In in Hin. split; [exact (proj1 Hin) | left; reflexivity].
  - destruct e as [m|m|m|m|model|model|m|]; try (intro H; inversion H; fail).
    destruct (existsb _ (Store.patients st)); intro H; inversion H; subst patient st1.
    cbn [Store.patients Store.with_patients Patient.id].
    split; [apply in_or_app; right; left; reflexivity|].
    right. split; [reflexivity|].
    intros p Hp. exact (EngineProps.next_pk_above Patient.id _ p Hp).
Qed.

Lemma get_or_create_keeps_keys_unique (request : Request) (st st1 : Store.t)
      (patient : Patient.t) :
  _get_or_create_patient request st = (Ok patient, st1) ->
  NoDup (map Patient.id (Store.patients st)) ->
  NoDup (map Patient.id (Store.patients st1)).
Proof.
  intros Hgoc Hnd.
  destruct (get_or_create_shape request st st1 patient Hgoc)
    as [_ [Hsame | [Hnew Hfresh]]]; subst st1; [exact Hnd|].
  cbn [Store.patients Store.with_patients]. rewrite map_app. cbn [map].
  apply NoDup_app; [exact Hnd | repeat constructor; intros [] |].
  intros k Hk [Hlast | []]. subst k.
  apply in_map_iff in Hk. destruct Hk as [p [Hid Hp]].
  specialize (Hfresh p Hp). lia.
Qed.

(** [submit_phq9] on nine integers of the scale, for a patient that could
    be resolved: the screening is created and the rule engine is run on the
    total and its severity. *)
Lemma submit_phq9_accepted (t_create t_triage : Z) (request : Request) (st st1 : Store.t)
      (l : list Z) (patient : Patient.t) :
  answers request = Some (VList (map VInt l)) ->
  List.length l = 9%nat -> Forall on_scale l ->
  _get_or_create_patient request st = (Ok patient, st1) ->
  submit_phq9 t_create t_triage request st
  = let total := total_of l in
    let level := TriageService._get_phq9_severity total in
    let label := TriageService._get_severity_label level "phq9" in
    let created := Store.create_phq9 t_create (phq9_of_answers (Patient.id patient) l) st1 in
    match TriageService.process_triage t_triage (Patient.id patient) "phq9" total level
            (snd created) with
    | (Raise e, st3) => (handle_exception e, st3)
    | (Ok triage_result, st3) =>
        (mkResponse 201
           (SubmitBody total label level (TriageService.triageAction triage_result)
              (TriageService.recommendedModule triage_result)
              (PHQ9Screening.id (fst created))
              (_get_action_message (TriageService.triageAction triage_result) label
                 (TriageService.recommendedModule triage_result))),
         st3)
    end.
Proof.
  intros Hanswers Hlen Hscale Hgoc.
  unfold submit_phq9, request_answers. rewrite Hanswers.
  assert (Htruthy : truthy (VList (map VInt l)) = true).
  { destruct l; [discriminate Hlen | reflexivity]. }
  rewrite Htruthy. cbn [negb].
  unfold TriageService.calculate_phq9.
  rewrite (SurveyProps.calculate_on_scale "PHQ-9" 9 _ "phq9" l)
    by (try discriminate; assumption).
  cbn [TriageService.total_score TriageService.severity_level
       TriageService.severity_label].
  rewrite Hgoc. cbn [iter].
  rewrite !SurveyProps.answer_at_integers.
  reflexivity.
Qed.


Lemma phq9_save_patient (r : PHQ9Screening.t) :
  PHQ9Screening.patient (PHQ9Screening.save r) = PHQ9Screening.patient r.
Proof.
  unfold PHQ9Screening.save.
  destruct (_ || _)%bool; [reflexivity|].
  destruct (_ >=? 10); [reflexivity|].
  destruct (_ >=? 5); reflexivity.
Qed.


Lemma phq9_row_total (t : Z) (patient : Z) (l : list Z) (st : Store.t) :
  List.length l = 9%nat ->
  PHQ9Screening.total_score (fst (Store.create_phq9 t (phq9_of_answers patient l) st))
  = total_of l.
Proof.
  intro Hlen. cbn [fst Store.create_phq9 PHQ9Screening.total_score].
  rewrite phq9_save_total.
  do 10 (destruct l as [|? l]; try discriminate Hlen).
  unfold phq9_sum, phq9_of_answers, PHQ9Screening.new, total_of. cbn. lia.
Qed.


(** The action a submission response reports. *)
Definition action_of (r : Response) : string :=
  match body r with
  | SubmitBody _ _ _ action _ _ _ => action
  | ErrorBody _ => ""
  end.



Lemma max_by_last {A : Type} (key : A -> Z) (rows : list A) (x : A) :
  (forall r, In r rows -> key r < key x) ->
  Orm.max_by key (rows ++ [x]) = Some x.
Proof.
  induction rows as [|r rows IH]; intro Hlt; [reflexivity|].
  cbn. rewrite IH by (intros r' Hr'; apply Hlt; right; exact Hr').
  destruct (Z.leb_spec (key x) (key r)) as [Hle | _]; [|reflexivity].
  specialize (Hlt r (or_introl eq_refl)). lia.
Qed.

(** X10.  Under a clock that moves forward (the patient's earlier PHQ-9
    screenings were created before the new one, and the triage runs within
    fourteen days of the save), the trend rule never fires in [submit_phq9]:
    the screening just saved is the newest of the window, so the submission
    creates no alert and queues no notification, whatever the earlier
    scores were; its action is "TriggerReferral" from a total of 15 and
    "RecommendSelfCare" below. *)
Theorem submission_never_raises_trend_alert (t_create t_triage : Z) (request : Request)
        (st st1 : Store.t) (l : list Z) (patient : Patient.t) :
  answers request = Some (VList (map VInt l)) ->
  List.length l = 9%nat -> Forall on_scale l ->
  NoDup (map Patient.id (Store.patients st)) ->
  _get_or_create_patient request st = (Ok patient, st1) ->
  t_triage - TriageService.timedelta_days 14 <= t_create ->
  (forall s, In s (Store.phq9_screenings st) ->
             PHQ9Screening.patient s = Patient.id patient ->
             PHQ9Screening.created_at s < t_create) ->
  let outcome := submit_phq9 t_create t_triage request st in
  status (fst outcome) = 201 /\
  action_of (fst outcome)
  = (if total_of l >=? 15 then "TriggerReferral" else "RecommendSelfCare") /\
  Store.screening_alerts (snd outcome) = Store.screening_alerts st /\
  Store.task_queue (snd outcome) = Store.task_queue st.
Proof.
  intros Hanswers Hlen Hscale Hnd Hgoc Hwindow Hbefore outcome. subst outcome.
  rewrite (submit_phq9_accepted _ _ _ _ _ _ _ Hanswers Hlen Hscale Hgoc). cbv zeta.
  destruct (get_or_create_shape _ _ _ _ Hgoc) as [Hin Hshape].
  pose proof (get_or_create_keeps_keys_unique _ _ _ _ Hgoc Hnd) as Hnd1.
  rewrite (RuleEngineProps.process_triage_known _ _ _ _ _ _ patient)
    by (cbn [snd Store.create_phq9 Store.patients Store.with_phq9_screenings];
        apply get_unique; assumption).
  cbv zeta.
  assert (Hrows : Store.phq9_screenings st1 = Store.phq9_screenings st)
    by (destruct Hshape as [H | [H _]]; subst st1; reflexivity).
  assert (Halerts : Store.screening_alerts st1 = Store.screening_alerts st)
    by (destruct Hshape as [H | [H _]]; subst st1; reflexivity).
  assert (Hqueue : Store.task_queue st1 = Store.task_queue st)
    by (destruct Hshape as [H | [H _]]; subst st1; reflexivity).
  set (row := fst (Store.create_phq9 t_create
                     (phq9_of_answers (Patient.id patient) l) st1)).
  assert (Hnone :
            RuleEngineProps.seen_increase t_triage patient "phq9" (total_of l)
              (snd (Store.create_phq9 t_create
                      (phq9_of_answers (Patient.id patient) l) st1)) = None).
  { unfold RuleEngineProps.seen_increase. cbn [String.eqb Ascii.eqb Bool.eqb].
    apply (TriageProps.no_increase_against_itself _ _ _ _ row);
      [|exact (phq9_row_total t_create (Patient.id patient) l st1 Hlen)].
    change (Store.phq9_screenings
              (snd (Store.create_phq9 t_create
                      (phq9_of_answers (Patient.id patient) l) st1)))
      with (Store.phq9_screenings st1 ++ [row])%list.
    rewrite filter_app.
    assert (Hkeep : filter
                      (fun s => ((PHQ9Screening.patient s =? Patient.id patient) &&
                                 (PHQ9Screening.created_at s
                                  >=? t_triage - TriageService.timedelta_days 14))%bool)
                      [row] = [row]).
    { cbn [filter]. subst row.
      cbn [fst Store.create_phq9 PHQ9Screening.patient PHQ9Screening.created_at
           PHQ9Screening.save phq9_of_answers PHQ9Screening.new].
      rewrite phq9_save_patient. cbn [PHQ9Screening.patient].
      rewrite Z.eqb_refl. cbn [andb].
      rewrite Z.geb_leb. rewrite (proj2 (Z.leb_le _ _) Hwindow). reflexivity. }
    rewrite Hkeep. unfold Orm.first_newest. apply max_by_last.
    intros s Hs. apply filter_In in Hs. destruct Hs as [Hs Hcond].
    apply andb_true_iff in Hcond. destruct Hcond as [Hp _]. apply Z.eqb_eq in Hp.
    rewrite Hrows in Hs.
    assert (Hcreated : PHQ9Screening.created_at row = t_create) by reflexivity.
    rewrite Hcreated. apply Hbefore; assumption. }
  rewrite Hnone.
  assert (Hdue : RuleEngineProps.referral_due "phq9" (total_of l) = (total_of l >=? 15)).
  { unfold RuleEngineProps.referral_due. cbn. rewrite orb_false_r. reflexivity. }
  rewrite Hdue.
  destruct (total_of l >=? 15); cbn; rewrite Halerts, Hqueue; repeat split; reflexivity.
Qed.

Lemma submission_never_raises_trend_alert_witness :
  action_of (fst (submit_phq9 TriageProps.three_days TriageProps.three_days
                    TriageProps.second_request TriageProps.after_first))
  = "RecommendSelfCare".
Proof.
  refine (proj1 (proj2
            (submission_never_raises_trend_alert
               TriageProps.three_days TriageProps.three_days
               TriageProps.second_request TriageProps.after_first TriageProps.after_first
               [2; 2; 2; 2; 2; 1; 1; 1; 1] (Patient.mk 1 5 "casey" "")
               eq_refl eq_refl _ _ eq_refl _ _))).
  - repeat constructor; unfold on_scale; lia.
  - cbn. repeat constructor. intros [].
  - vm_compute. discriminate.
  - intros s Hs _. vm_compute in Hs. destruct Hs as [Hs | []]. subst s.
    vm_compute. reflexivity.
Defined.



End SubmissionProps.


(** ** The screening summary *)

Module SummaryProps.

Import ScreeningSummaryViewSet.

(** The order of the four risk levels; any other text counts as "low". *)
Definition rank (level : string) : Z :=
  if String.eqb level "critical" then 3
  else if String.eqb level "high" then 2
  else if String.eqb level "medium" then 1
  else 0.

Definition rank_of (level : option string) : Z :=
  match level with
  | Some l => rank l
  | None => 0
  end.

(** What the GAD-7 branch of [list] can contribute: "high" and "critical"
    only. *)
Definition gad7_weight (level : option string) : Z :=
  if rank_of level >=? 2 then rank_of level else 0.

Lemma escalate_spec (phq9_risk gad7_risk : option string) :
  rank (fst (escalate phq9_risk gad7_risk))
  = Z.max (rank_of phq9_risk) (gad7_weight gad7_risk) /\
  In (fst (escalate phq9_risk gad7_risk)) ["low"; "medium"; "high"; "critical"] /\
  snd (escalate phq9_risk gad7_risk) = (rank (fst (escalate phq9_risk gad7_risk)) >=? 2).
Proof.
  unfold escalate, gad7_weight, rank_of, rank.
  destruct phq9_risk as [p|]; destruct gad7_risk as [g|];
    repeat match goal with
           | |- context [String.eqb ?a ?b] =>
               is_var a; destruct (String.eqb_spec a b); [subst a|]
           end;
    cbn; repeat split; auto 6.
Qed.

(** X12.  The summary [list] returns carries one of the four risk levels.
    Its level is the higher of the PHQ-9 screening's level and of the
    GAD-7 screening's, where the GAD-7 counts only when it is "high" or
    "critical": a GAD-7 at "medium" never raises the summary.  The
    attention flag is set exactly at "high" and "critical". *)
Theorem summary_risk_level (request_user : Z) (st : Store.t) (s : Summary) :
  list request_user st = Ok s ->
  exists patient phq9 gad7,
    In patient (Store.patients st) /\
    Patient.user patient = request_user /\
    patient_id s = Patient.id patient /\
    phq9 = Orm.first_unordered PHQ9Screening.id
             (filter (fun r => PHQ9Screening.patient r =? Patient.id patient)
                     (Store.phq9_screenings st)) /\
    gad7 = Orm.first_unordered GAD7Screening.id
             (filter (fun r => GAD7Screening.patient r =? Patient.id patient)
                     (Store.gad7_screenings st)) /\
    rank (risk_level s)
    = Z.max (rank_of (option_map PHQ9Screening.risk_level phq9))
            (gad7_weight (option_map GAD7Screening.risk_level gad7)) /\
    In (risk_level s) ["low"; "medium"; "high"; "critical"] /\
    (requires_attention s = true <-> risk_level s = "high" \/ risk_level s = "critical").
Proof.
  unfold list. intro Hlist.
  destruct (Orm.get "Patient" (fun p => Patient.user p =? request_user)
                    (Store.patients st)) as [patient|e] eqn:Hget; [|discriminate Hlist].
  cbn [bind] in Hlist.
  pose proof (SubmissionProps.get_found _ _ _ _ Hget) as Hone.
  assert (Hin : In patient (filter (fun p => Patient.user p =? request_user)
                                   (Store.patients st)))
    by (rewrite Hone; left; reflexivity).
  apply filter_In in Hin. destruct Hin as [Hin Huser]. apply Z.eqb_eq in Huser.
  set (phq9 := Orm.first_unordered PHQ9Screening.id
                 (filter (fun r => PHQ9Screening.patient r =? Patient.id patient)
                         (Store.phq9_screenings st))) in *.
  set (gad7 := Orm.first_unordered GAD7Screening.id
                 (filter (fun r => GAD7Screening.patient r =? Patient.id patient)
                         (Store.gad7_screenings st))) in *.
  destruct (escalate_spec (option_map PHQ9Screening.risk_level phq9)
                          (option_map GAD7Screening.risk_level gad7))
    as [Hrank [Hrange Hflag]].
  destruct (escalate (option_map PHQ9Screening.risk_level phq9)
                     (option_map GAD7Screening.risk_level gad7))
    as [level attention] eqn:Hesc.
  cbn [fst snd] in Hrank, Hrange, Hflag.
  inversion Hlist; subst s; clear Hlist.
  exists patient, phq9, gad7. cbn [patient_id risk_level requires_attention].
  repeat (split; [first [assumption | reflexivity]|]).
  rewrite Hflag.
  destruct Hrange as [H | [H | [H | [H | []]]]]; subst level; cbn;
    split; intro Hx; try discriminate Hx; try reflexivity; auto;
    destruct Hx as [Hx | Hx]; discriminate Hx.
Qed.

Lemma summary_risk_level_witness :
  exists s,
    list 5 TriageProps.after_first = Ok s /\
    In (risk_level s) ["low"; "medium"; "high"; "critical"].
Proof.
  destruct (list 5 TriageProps.after_first) as [s|e] eqn:Hlist;
    [|vm_compute in Hlist; discriminate Hlist].
  exists s. split; [reflexivity|].
  destruct (summary_risk_level 5 TriageProps.after_first s Hlist)
    as [patient [phq9 [gad7 [_ [_ [_ [_ [_ [_ [Hrange _]]]]]]]]]].
  exact Hrange.
Defined.

End SummaryProps.


(** ** What a chatbot message does to the store *)

Module ConversationProps.

Import ChatbotConversationViewSet.

Lemma next_pk_app {A : Type} (pk : A -> Z) (rows : list A) (x : A) :
  pk x = Orm.next_pk pk rows ->
  Orm.next_pk pk (rows ++ [x]) = pk x + 1.
Proof.
  unfold Orm.next_pk. intro Hx. rewrite fold_left_app. cbn. lia.
Qed.

Lemma nonempty_of_ne (s : string) : s <> "" -> nonempty s = true.
Proof. destruct s; [congruence | reflexivity]. Qed.

(** No reply of the intent routing is the crisis template. *)
Lemma intent_reply_not_crisis (intent_tag message_lower : string)
      (triage_recommendation : option string) (reply : string) :
  intent_reply intent_tag message_lower triage_recommendation = Some reply ->
  reply <> crisis_response.
Proof.
  unfold intent_reply. intro Hreply.
  repeat match type of Hreply with
         | context [if ?c then _ else _] => destruct c
         end;
    inversion Hreply; subst reply; clear Hreply;
    intro Heq; apply (f_equal (take 6)) in Heq; vm_compute in Heq; discriminate Heq.
Qed.

(** Nor is any of the emotion-based replies. *)
Lemma emotion_reply_not_crisis (user_message message_lower emotion : string)
      (triage_recommendation : option string) :
  emotion_reply user_message message_lower emotion triage_recommendation
  <> crisis_response.
Proof.
  unfold emotion_reply.
  destruct (String.eqb emotion "sad");
    [|destruct (String.eqb emotion "anxious");
      [|destruct (String.eqb emotion "happy");
        [|destruct (given triage_recommendation);
          [destruct (any_in _ message_lower); [|destruct (_ <? _)%nat]
          |destruct (_ <? _)%nat]]]];
    intro Heq; apply (f_equal (take 6)) in Heq; vm_compute in Heq; discriminate Heq.
Qed.

Section Effects.

Variable to_lower : list string -> string -> list string -> string.
Variable keyword_scores : string -> list (string * float).
Variable construct : result IntentRecognizer.t.
Variable instance : option IntentRecognizer.t.

(** A detected risk keyword makes the level critical. *)
Lemma keywords_make_critical (text : string) :
  EmotionDetector.detect_risk_keywords to_lower text <> [] ->
  EmotionDetector.assess_risk_level to_lower keyword_scores text = "critical".
Proof.
  unfold EmotionDetector.assess_risk_level.
  destruct (EmotionDetector.detect_risk_keywords to_lower text); [congruence | reflexivity].
Qed.

(** Outside the crisis branch the reply is not the crisis template. *)
Lemma calm_reply_not_crisis (user_message emotion risk_level : string)
      (triage_recommendation : option string) :
  risk_level <> "critical" ->
  _generate_bot_response to_lower construct instance user_message emotion risk_level []
                         triage_recommendation
  <> crisis_response.
Proof.
  intro Hcalm. unfold _generate_bot_response.
  destruct (String.eqb_spec risk_level "critical") as [Hc | _]; [contradiction|].
  cbn [orb].
  match goal with
  | |- match ?routed with Some _ => _ | None => _ end <> _ =>
      destruct routed as [reply|] eqn:Hrouted
  end.
  - destruct (Intent.returned _) as [[tag | tag confidence] | e];
      try discriminate Hrouted;
      exact (intent_reply_not_crisis _ _ _ _ Hrouted).
  - apply emotion_reply_not_crisis.
Qed.

(** The normal form of [send_message] on a message that is not blank. *)
Lemma send_message_accepted (now : Z) (conversation : ChatbotConversation.t)
      (message : option string) (st : Store.t) :
  let text := strip (match message with Some m => m | None => "" end) in
  let level := EmotionDetector.assess_risk_level to_lower keyword_scores text in
  let keywords := EmotionDetector.detect_risk_keywords to_lower text in
  let emotion := EmotionDetector.get_primary_emotion keyword_scores text in
  text <> "" ->
  exists recommendation,
    let user_msg :=
      ChatbotMessage.mk (Orm.next_pk ChatbotMessage.id (Store.chatbot_messages st))
        (ChatbotConversation.id conversation) "user" text
        (fst emotion) (Some (snd emotion)) level keywords now in
    let bot_msg :=
      ChatbotMessage.mk (Orm.next_pk ChatbotMessage.id (Store.chatbot_messages st) + 1)
        (ChatbotConversation.id conversation) "bot"
        (_generate_bot_response to_lower construct instance text (fst emotion) level keywords
                                recommendation)
        "" None "" [] now in
    let st2 :=
      Store.with_chatbot_messages (Store.chatbot_messages st ++ [user_msg; bot_msg])%list
                                  st in
    send_message to_lower keyword_scores construct instance now (Some conversation) message st
    = (mkResponse 200
         (ReplyBody user_msg bot_msg
            (EmotionDetector.get_emotional_context to_lower keyword_scores text) recommendation),
       if String.eqb level "critical" then
         Store.delay
           (send_alert_notification
              (Orm.next_pk ScreeningAlert.id (Store.screening_alerts st)) "critical")
           (snd (Store.create_alert now (ChatbotConversation.patient conversation) "crisis"
                   ("Critical risk detected in chatbot conversation: " ++ take 100 text)
                   st2))
       else st2).
Proof.
  intros text level keywords emotion Htext. unfold send_message.
  fold text. rewrite (nonempty_of_ne text Htext). cbn [negb].
  rewrite ChatbotProps.context_risk_level, ChatbotProps.context_risk_keywords.
  fold level keywords.
  subst emotion.
  destruct (EmotionDetector.get_primary_emotion keyword_scores text)
    as [primary_emotion confidence].
  cbn [fst snd].
  eexists.
  cbv zeta.
  cbn [Store.chatbot_messages Store.with_chatbot_messages].
  rewrite next_pk_app by reflexivity.
  cbn [ChatbotMessage.id].
  rewrite <- app_assoc. cbn [app].
  destruct (String.eqb level "critical"); reflexivity.
Qed.

End Effects.



(** X14.  For a message that is not blank, three things coincide: the
    detector rates the message critical; the reply stored and returned is
    the crisis template; an alert is created.  In particular a crisis reply
    is never given without an alert for the clinicians, and no alert is
    raised behind an ordinary reply. *)
Theorem crisis_reply_iff_alert
        (to_lower : list string -> string -> list string -> string)
        (keyword_scores : string -> list (string * float))
        (construct : result IntentRecognizer.t) (instance : option IntentRecognizer.t)
        (now : Z) (conversation : ChatbotConversation.t)
        (message : option string) (st : Store.t) :
  strip (match message with Some m => m | None => "" end) <> "" ->
  (ChatbotProps.bot_reply
     (fst (send_message to_lower keyword_scores construct instance now (Some conversation)
             message st))
   = Some crisis_response
   <-> EmotionDetector.assess_risk_level to_lower keyword_scores
         (strip (match message with Some m => m | None => "" end)) = "critical") /\
  (Store.screening_alerts
     (snd (send_message to_lower keyword_scores construct instance now (Some conversation)
             message st))
   <> Store.screening_alerts st
   <-> EmotionDetector.assess_risk_level to_lower keyword_scores
         (strip (match message with Some m => m | None => "" end)) = "critical").
Proof.
  intro Htext.
  destruct (send_message_accepted to_lower keyword_scores construct instance now conversation
              message st Htext) as [recommendation Hrun].
  cbv zeta in Hrun. rewrite Hrun. clear Hrun.
  cbn [fst snd ChatbotProps.bot_reply body ChatbotMessage.content].
  set (text := strip (match message with Some m => m | None => "" end)) in *.
  destruct (String.eqb_spec (EmotionDetector.assess_risk_level to_lower keyword_scores text)
                            "critical") as [Hcritical | Hcalm].
  - split; split; intro H; try exact Hcritical.
    + rewrite (ChatbotProps.crisis_branch_first to_lower construct instance text _ _ _ _
                 (or_introl Hcritical)).
      reflexivity.
    + cbn. intro Heq. apply (f_equal (@List.length _)) in Heq.
      rewrite length_app in Heq. cbn in Heq. lia.
  - split; split; intro H; try contradiction; try (exfalso; apply H; reflexivity).
    exfalso.
    destruct (EmotionDetector.detect_risk_keywords to_lower text) as [|k ks] eqn:Hkeywords.
    + inversion H as [Hreply].
      exact (calm_reply_not_crisis to_lower construct instance text _ _ _ Hcalm Hreply).
    + apply Hcalm. apply keywords_make_critical. rewrite Hkeywords. discriminate.
Qed.

Lemma crisis_reply_iff_alert_witness :
  ChatbotProps.bot_reply
    (fst (send_message ascii_to_lower (fun _ => []) (Raise (FileNotFoundError "intent_model.pkl")) None 50
            (Some (ChatbotConversation.mk 1 1 "session-1")) (Some " I want to die ")
            Store.empty))
  = Some crisis_response.
Proof.
  refine (proj2 (proj1
            (crisis_reply_iff_alert ascii_to_lower (fun _ => [])
               (Raise (FileNotFoundError "intent_model.pkl")) None 50
               (ChatbotConversation.mk 1 1 "session-1") (Some " I want to die ")
               Store.empty _)) _).
  - vm_compute. discriminate.
  - vm_compute. reflexivity.
Defined.

End ConversationProps.


(** ** The confidence gate of the intent recognizer and the chatbot's routing *)

Module GatingProps.

Import IntentRecognizer.
Import ChatbotConversationViewSet.

(** The test [not text or not text.strip()] of the method. *)
Definition is_blank (text : string) : bool := negb (nonempty (strip text)).

Lemma blank_test (text : string) :
  (negb (nonempty text) || negb (nonempty (strip text)))%bool = is_blank text.
Proof.
  unfold is_blank. destruct text as [|c rest]; reflexivity.
Qed.

(** What the method of a loaded recognizer takes as tag and confidence:
    the classifier's answer, or "unknown" at 0.0 for blank text and when
    the classifier raises; the exception of the preprocessing leaves the
    method. *)
Definition answer (r : IntentRecognizer.t) (classifier : string -> result (string * float))
           (text : string) : result (string * float) :=
  if is_blank text then Ok ("unknown", 0%float)
  else
    preprocessed <- _preprocess r text ;;
    match classifier preprocessed with
    | Ok p => Ok p
    | Raise _ => Ok ("unknown", 0%float)
    end.

(** The threshold applied to a tag and its confidence. *)
Definition gate (return_confidence : bool) (confidence_threshold : float)
           (p : string * float) : Prediction :=
  let tag := if PrimFloat.ltb (snd p) confidence_threshold then "out_of_scope" else fst p in
  if return_confidence then TagConfidence tag (snd p) else Tag tag.

(** The texts handed to the classifier during one call of the module-level
    function. *)
Definition calls (r : IntentRecognizer.t) (text : string) (return_confidence : bool)
  : list string :=
  if is_blank text then []
  else match _preprocess r text with
       | Raise _ => []
       | Ok preprocessed =>
           if return_confidence then [preprocessed] else [preprocessed; preprocessed]
       end.

(** The recognizer a call of the module-level function works with. *)
Definition resolves_to (construct : result IntentRecognizer.t)
           (instance : option IntentRecognizer.t) (r : IntentRecognizer.t) : Prop :=
  instance = Some r \/ (instance = None /\ construct = Ok r).

Lemma predict_loaded (construct : result IntentRecognizer.t)
      (instance : option IntentRecognizer.t) (r : IntentRecognizer.t)
      (classifier : string -> result (string * float))
      (text : string) (return_confidence : bool) (confidence_threshold : float) :
  resolves_to construct instance r ->
  pipeline r = Some classifier ->
  Intent.predict_intent construct instance text return_confidence confidence_threshold
  = Intent.mkOutcome
      (match answer r classifier text with
       | Ok p => Ok (gate return_confidence confidence_threshold p)
       | Raise e => Raise e
       end)
      (Some r) (calls r text return_confidence).
Proof.
  intros Hwhich Hpipe.
  assert (Hrun :
            Intent.predict_intent construct (Some r) text return_confidence
                                  confidence_threshold
            = Intent.mkOutcome
                (match answer r classifier text with
                 | Ok p => Ok (gate return_confidence confidence_threshold p)
                 | Raise e => Raise e
                 end)
                (Some r) (calls r text return_confidence)).
  { unfold Intent.predict_intent, IntentRecognizer.predict_intent, gate, answer, calls.
    rewrite Hpipe, blank_test.
    destruct (is_blank text).
    - destruct return_confidence; reflexivity.
    - destruct (_preprocess r text) as [preprocessed | e]; cbn [bind];
        [|destruct return_confidence; reflexivity].
      destruct (classifier preprocessed) as [[tag confidence] | e];
        destruct return_confidence; reflexivity. }
  destruct Hwhich as [Hi | [Hi Hc]]; subst; exact Hrun.
Qed.

(** X15.  The module-level [predict_intent] on text that is not blank,
    with a loaded recognizer.  An exception of the preprocessing leaves the
    function, before any classification.  Otherwise the function returns:
    "out_of_scope" when the classifier's confidence is below the threshold
    and the classifier's tag otherwise, with the confidence unchanged when
    it is asked for; when the classifier raises, "unknown" at 0.0 put
    through the same threshold.  Without [return_confidence] the classifier
    is run twice on the same preprocessed text, with it once; the
    recognizer stays the global instance. *)
Theorem confidence_gating (construct : result IntentRecognizer.t)
        (instance : option IntentRecognizer.t) (r : IntentRecognizer.t)
        (classifier : string -> result (string * float))
        (text : string) (return_confidence : bool) (confidence_threshold : float) :
  resolves_to construct instance r ->
  pipeline r = Some classifier ->
  strip text <> "" ->
  (forall e,
      _preprocess r text = Raise e ->
      Intent.predict_intent construct instance text return_confidence confidence_threshold
      = Intent.mkOutcome (Raise e) (Some r) []) /\
  (forall preprocessed,
      _preprocess r text = Ok preprocessed ->
      (forall tag confidence,
          classifier preprocessed = Ok (tag, confidence) ->
          Intent.predict_intent construct instance text return_confidence
                                confidence_threshold
          = Intent.mkOutcome
              (Ok (if return_confidence
                   then TagConfidence (if PrimFloat.ltb confidence confidence_threshold
                                       then "out_of_scope" else tag) confidence
                   else Tag (if PrimFloat.ltb confidence confidence_threshold
                             then "out_of_scope" else tag)))
              (Some r)
              (if return_confidence then [preprocessed]
               else [preprocessed; preprocessed])) /\
      (forall e,
          classifier preprocessed = Raise e ->
          Intent.predict_intent construct instance text return_confidence
                                confidence_threshold
          = Intent.mkOutcome
              (Ok (if return_confidence
                   then TagConfidence (if PrimFloat.ltb 0 confidence_threshold
                                       then "out_of_scope" else "unknown") 0%float
                   else Tag (if PrimFloat.ltb 0 confidence_threshold
                             then "out_of_scope" else "unknown")))
              (Some r)
              (if return_confidence then [preprocessed]
               else [preprocessed; preprocessed]))).
Proof.
  intros Hwhich Hpipe Htext.
  rewrite (predict_loaded _ _ r classifier _ _ _ Hwhich Hpipe).
  unfold gate, answer, calls, is_blank.
  rewrite (ConversationProps.nonempty_of_ne _ Htext). cbn [negb].
  split.
  - intros e Hpre. rewrite Hpre. reflexivity.
  - intros preprocessed Hpre. rewrite Hpre. cbn [bind]. split.
    + intros tag confidence Hanswer. rewrite Hanswer. reflexivity.
    + intros e Hanswer. rewrite Hanswer. reflexivity.
Qed.

Lemma confidence_gating_witness :
  Intent.returned
    (Intent.predict_intent (Ok IntentProps.trained) None "hello there" false 0.95%float)
  = Ok (Tag "out_of_scope").
Proof.
  refine (f_equal Intent.returned
            (proj1 (proj2 (confidence_gating (Ok IntentProps.trained) None
                             IntentProps.trained (fun _ => Ok ("greeting", 0.9%float))
                             "hello there" false 0.95%float
                             (or_intror (conj eq_refl eq_refl)) eq_refl _)
                          "hello there" eq_refl)
                   "greeting" 0.9%float eq_refl)).
  vm_compute. discriminate.
Defined.

(** The threshold [_generate_bot_response] passes. *)
Definition chat_threshold : float :=
  float_max 0 (PrimFloat.sub Intent.DEFAULT_CONFIDENCE_THRESHOLD 0.2).

(** The four replies of the keyword router. *)
Definition router_replies : list string :=
  [screening_navigation; self_care_navigation; dashboard_navigation; capability_menu].

Lemma router_reply (message_lower : string) (triage_recommendation : option string) :
  exists reply,
    intent_reply "out_of_scope" message_lower triage_recommendation = Some reply /\
    intent_reply "out_of_scope" message_lower None = Some reply /\
    In reply router_replies.
Proof.
  unfold intent_reply, router_replies. cbn [String.eqb Ascii.eqb Bool.eqb].
  destruct (any_in _ message_lower);
    [|destruct (any_in _ message_lower); [|destruct (any_in _ message_lower)]];
    eexists; (split; [reflexivity|]); (split; [reflexivity|]); cbn; auto.
Qed.

(** X16.  Outside the crisis branch, with a loaded recognizer, a message
    the classifier is not confident about (below the chatbot's threshold,
    0.6 - 0.2) gets one of the four replies of the keyword router, chosen
    by the words of the message alone: the classifier's tag, the detected
    emotion and the triage recommendation play no part.  The same holds
    when the classifier raises. *)
Theorem low_confidence_is_routed_by_keywords
        (to_lower : list string -> string -> list string -> string)
        (construct : result IntentRecognizer.t) (instance : option IntentRecognizer.t)
        (r : IntentRecognizer.t) (classifier : string -> result (string * float))
        (user_message emotion risk_level : string)
        (triage_recommendation : option string) (p : string * float) :
  resolves_to construct instance r ->
  pipeline r = Some classifier ->
  risk_level <> "critical" ->
  answer r classifier user_message = Ok p ->
  PrimFloat.ltb (snd p) chat_threshold = true ->
  In (_generate_bot_response to_lower construct instance user_message emotion risk_level []
                             triage_recommendation)
     router_replies /\
  Some (_generate_bot_response to_lower construct instance user_message emotion
                               risk_level [] triage_recommendation)
  = intent_reply "out_of_scope" (lower to_lower user_message) None.
Proof.
  intros Hwhich Hpipe Hcalm Hanswer Hlow. unfold _generate_bot_response.
  destruct (String.eqb_spec risk_level "critical") as [Hc | _]; [contradiction|].
  cbn [orb].
  fold chat_threshold.
  rewrite (predict_loaded _ _ r classifier _ _ _ Hwhich Hpipe).
  rewrite Hanswer.
  cbn [Intent.returned]. unfold gate. rewrite Hlow.
  destruct (router_reply (lower to_lower user_message) triage_recommendation)
    as [reply [Hreply [Hnone Hin]]].
  rewrite Hreply, Hnone. split; [exact Hin | reflexivity].
Qed.

(** A recognizer whose classifier answers "greeting" at 0.3. *)
Definition hesitant : IntentRecognizer.t :=
  IntentRecognizer.mk (Some (fun _ => Ok ("greeting", 0.3%float))) (fun text => Ok text).

Lemma low_confidence_is_routed_by_keywords_witness :
  In (_generate_bot_response ascii_to_lower (Ok hesitant) None
        "show me my progress" "happy" "low" [] (Some "Try a breathing exercise"))
     router_replies.
Proof.
  refine (proj1 (low_confidence_is_routed_by_keywords ascii_to_lower
                   (Ok hesitant) None hesitant (fun _ => Ok ("greeting", 0.3%float))
                   "show me my progress" "happy" "low" (Some "Try a breathing exercise")
                   ("greeting", 0.3%float)
                   (or_intror (conj eq_refl eq_refl)) eq_refl _ _ _)).
  - discriminate.
  - vm_compute. reflexivity.
  - vm_compute. reflexivity.
Defined.

(** X17.  When the recognizer cannot be constructed (the model file is
    missing, or loading it fails) and no instance exists yet, the chatbot
    still answers: outside the crisis branch its reply is the emotion-based
    one, and the global instance stays unset. *)
Theorem chatbot_without_model
        (to_lower : list string -> string -> list string -> string)
        (e : PyExc) (user_message emotion risk_level : string)
        (triage_recommendation : option string) (confidence_threshold : float) :
  risk_level <> "critical" ->
  _generate_bot_response to_lower (Raise e) None user_message emotion risk_level []
                         triage_recommendation
  = emotion_reply user_message (lower to_lower user_message) emotion
                  triage_recommendation /\
  Intent.instance_after
    (Intent.predict_intent (Raise e) None user_message true confidence_threshold) = None /\
  Intent.classifier_calls
    (Intent.predict_intent (Raise e) None user_message true confidence_threshold) = [].
Proof.
  intro Hcalm. unfold _generate_bot_response.
  destruct (String.eqb_spec risk_level "critical") as [Hc | _]; [contradiction|].
  cbn [orb].
  destruct e; cbn; repeat split; reflexivity.
Qed.

(** Eleven times the letter e with an acute accent: eleven characters in
    twenty-two bytes. *)
Definition accented : string :=
  join (repeat (String (ascii_of_nat 195) (String (ascii_of_nat 169) EmptyString)) 11).

Lemma chatbot_without_model_witness :
  len accented = 11%nat /\
  contains "I'd like to understand better."
    (_generate_bot_response ascii_to_lower (Raise (FileNotFoundError "intent_model.pkl"))
       None accented "neutral" "low" [] None) = true.
Proof.
  split; [vm_compute; reflexivity|].
  rewrite (proj1 (chatbot_without_model ascii_to_lower
                    (FileNotFoundError "intent_model.pkl")
                    accented "neutral" "low" None 0%float ltac:(discriminate))).
  vm_compute. reflexivity.
Defined.

End GatingProps.


(** ** Self-care: recommended pathways and the progress of a pathway *)

Module PathwayProps.

Import SelfCarePathwayViewSet.

(** X18.  For an account with a patient, [recommended] answers 200 with
    the active pathways of exactly one tier.  The tier is "minimal" as soon
    as the patient lacks a PHQ-9 or a GAD-7 screening, whatever the score
    of the other; with both, it follows the greater of the two totals of
    the screenings looked up: "severe" from 15, "moderate" from 10, "mild"
    from 5, "minimal" below. *)
Theorem recommended_pathways (request_user : Z) (st : Store.t) (patient : Patient.t) :
  Orm.get "Patient" (fun p => Patient.user p =? request_user) (Store.patients st)
  = Ok patient ->
  exists tier rows,
    recommended request_user st = Ok (mkResponse 200 (Pathways rows)) /\
    (forall p, In p rows <->
               In p (Store.pathways st) /\ SelfCarePathway.is_active p = true /\
               SelfCarePathway.target_severity p = tier) /\
    (Orm.first_unordered PHQ9Screening.id
       (filter (fun s => PHQ9Screening.patient s =? Patient.id patient)
               (Store.phq9_screenings st)) = None \/
     Orm.first_unordered GAD7Screening.id
       (filter (fun s => GAD7Screening.patient s =? Patient.id patient)
               (Store.gad7_screenings st)) = None ->
     tier = "minimal") /\
    (forall p g,
        Orm.first_unordered PHQ9Screening.id
          (filter (fun s => PHQ9Screening.patient s =? Patient.id patient)
                  (Store.phq9_screenings st)) = Some p ->
        Orm.first_unordered GAD7Screening.id
          (filter (fun s => GAD7Screening.patient s =? Patient.id patient)
                  (Store.gad7_screenings st)) = Some g ->
        (tier = "severe"
         <-> 15 <= Z.max (PHQ9Screening.total_score p) (GAD7Screening.total_score g)) /\
        (tier = "moderate"
         <-> 10 <= Z.max (PHQ9Screening.total_score p) (GAD7Screening.total_score g) < 15) /\
        (tier = "mild"
         <-> 5 <= Z.max (PHQ9Screening.total_score p) (GAD7Screening.total_score g) < 10) /\
        (tier = "minimal"
         <-> Z.max (PHQ9Screening.total_score p) (GAD7Screening.total_score g) < 5)).
Proof.
  intro Hget. unfold recommended. rewrite Hget. cbv zeta.
  set (phq9 := Orm.first_unordered PHQ9Screening.id _).
  set (gad7 := Orm.first_unordered GAD7Screening.id _).
  exists (target_severity phq9 gad7). eexists. split; [reflexivity|].
  split.
  { intro p. unfold queryset. rewrite !filter_In.
    split.
    - intros [[Hin Hactive] Htier]. apply String.eqb_eq in Htier. auto.
    - intros [Hin [Hactive Htier]]. repeat split; try assumption.
      apply String.eqb_eq. exact Htier. }
  split.
  { intros [Hnone | Hnone]; rewrite Hnone; [reflexivity|].
    destruct phq9; reflexivity. }
  intros p g Hp Hg. rewrite Hp, Hg. unfold target_severity.
  set (m := Z.max (PHQ9Screening.total_score p) (GAD7Screening.total_score g)).
  destruct (Z.geb_spec m 15); [|destruct (Z.geb_spec m 10); [|destruct (Z.geb_spec m 5)]];
    (split; [|split; [|split]]); (split; intro Hx);
    try lia; try reflexivity; try discriminate Hx.
Qed.

Lemma recommended_pathways_witness :
  exists tier rows,
    recommended 5 TriageProps.after_first = Ok (mkResponse 200 (Pathways rows)) /\
    tier = "minimal".
Proof.
  destruct (recommended_pathways 5 TriageProps.after_first (Patient.mk 1 5 "casey" "")
              eq_refl) as [tier [rows [Hrun [_ [Hlacks _]]]]].
  exists tier, rows. split; [exact Hrun|].
  apply Hlacks. right. reflexivity.
Defined.

End PathwayProps.

Module ProgressProps.

Import PatientSelfCareProgressViewSet.

Lemma SFcompare_lt_gt (x y : spec_float) :
  SFcompare x y = Some Lt -> SFcompare y x = Some Gt.
Proof.
  destruct x as [[|]|[|]| |[|] m1 e1]; destruct y as [[|]|[|]| |[|] m2 e2]; cbn;
    intro H; try discriminate H; try reflexivity;
    rewrite (Z.compare_antisym e1 e2);
    change (PosDef.Pos.compare_cont Eq m2 m1) with (Pos.compare m2 m1);
    change (PosDef.Pos.compare_cont Eq m1 m2) with (Pos.compare m1 m2) in H;
    rewrite (Pos.compare_antisym m1 m2);
    destruct (Z.compare e1 e2); cbn in *; try discriminate H; try reflexivity;
    destruct (Pos.compare m1 m2); cbn in *; try discriminate H; reflexivity.
Qed.

Lemma ltb_leb (x y : float) : PrimFloat.ltb x y = true -> PrimFloat.leb x y = true.
Proof.
  rewrite ltb_spec, leb_spec. unfold SFltb, SFleb.
  destruct (SFcompare (Prim2SF x) (Prim2SF y)) as [[ | | ]|]; intro H;
    try discriminate H; reflexivity.
Qed.

Lemma ltb_not_geb (x y : float) : PrimFloat.ltb x y = true -> PrimFloat.leb y x = false.
Proof.
  rewrite ltb_spec, leb_spec. unfold SFltb, SFleb.
  destruct (SFcompare (Prim2SF x) (Prim2SF y)) as [[ | | ]|] eqn:Hc; intro H;
    try discriminate H.
  rewrite (SFcompare_lt_gt _ _ Hc). reflexivity.
Qed.

(** The percentage after one more exercise. *)
Definition stepped (progress : PatientSelfCareProgress.t) : float :=
  PrimFloat.add (PatientSelfCareProgress.progress_percentage progress) 10%float.

(** The update of the progress record, case by case. *)
Lemma advance_cases (now : Z) (progress : PatientSelfCareProgress.t) :
  PatientSelfCareProgress.id (advance now progress) = PatientSelfCareProgress.id progress /\
  PatientSelfCareProgress.patient (advance now progress)
  = PatientSelfCareProgress.patient progress /\
  PatientSelfCareProgress.pathway (advance now progress)
  = PatientSelfCareProgress.pathway progress /\
  PrimFloat.leb (PatientSelfCareProgress.progress_percentage (advance now progress))
                100%float = true /\
  (PrimFloat.ltb (stepped progress) 100%float = true ->
   advance now progress
   = PatientSelfCareProgress.mk (PatientSelfCareProgress.id progress)
       (PatientSelfCareProgress.patient progress) (PatientSelfCareProgress.pathway progress)
       (PatientSelfCareProgress.is_completed progress)
       (PatientSelfCareProgress.completed_at progress) (stepped progress)) /\
  (PrimFloat.ltb (stepped progress) 100%float = false ->
   advance now progress
   = PatientSelfCareProgress.mk (PatientSelfCareProgress.id progress)
       (PatientSelfCareProgress.patient progress) (PatientSelfCareProgress.pathway progress)
       true (Some now) 100%float).
Proof.
  unfold advance, float_min, stepped.
  destruct (PrimFloat.ltb
              (PrimFloat.add (PatientSelfCareProgress.progress_percentage progress) 10)
              100) eqn:Hlt.
  - rewrite (ltb_not_geb _ _ Hlt). cbn.
    repeat split; try reflexivity; try discriminate.
    exact (ltb_leb _ _ Hlt).
  - replace (PrimFloat.leb 100 100) with true by (vm_compute; reflexivity). cbn.
    repeat split; try reflexivity; try discriminate.
Qed.

Lemma get_object_found (request_user pk : Z) (st : Store.t) (db : SelfCareDb.t)
      (progress : PatientSelfCareProgress.t) :
  get_object request_user pk st db = Ok progress ->
  In progress (SelfCareDb.progress db) /\ PatientSelfCareProgress.id progress = pk /\
  exists patient,
    Orm.get "Patient" (fun p => Patient.user p =? request_user) (Store.patients st)
    = Ok patient /\
    PatientSelfCareProgress.patient progress = Patient.id patient.
Proof.
  unfold get_object, get_queryset. intro Hobj.
  destruct (Orm.get "Patient" _ (Store.patients st)) as [patient|e] eqn:Hpatient;
    [|discriminate Hobj].
  cbn [bind] in Hobj.
  destruct (Orm.get "PatientSelfCareProgress" _ _) as [row|e] eqn:Hrow.
  - inversion Hobj; subst row.
    pose proof (SubmissionProps.get_found _ _ _ _ Hrow) as Hone.
    assert (Hin : In progress
                     (filter (fun r => PatientSelfCareProgress.id r =? pk)
                        (filter (fun r => PatientSelfCareProgress.patient r
                                          =? Patient.id patient)
                                (SelfCareDb.progress db))))
      by (rewrite Hone; left; reflexivity).
    apply filter_In in Hin. destruct Hin as [Hin Hpk].
    apply filter_In in Hin. destruct Hin as [Hin Hp].
    apply Z.eqb_eq in Hpk. apply Z.eqb_eq in Hp.
    split; [exact Hin|]. split; [exact Hpk|].
    exists patient. split; [reflexivity | exact Hp].
  - destruct e; discriminate Hobj.
Qed.

(** X19.  A successful [complete_exercise] records one completion for the
    patient of the progress row and advances that row by ten points, never
    beyond 100.0: the row stays below 100.0 and keeps its completion state
    when the advanced percentage is less than 100.0; otherwise it is set to
    exactly 100.0, marked completed and stamped.  A completed pathway is
    never reopened, rows of other keys are untouched, and the exercise is
    looked up among all exercises, active or not. *)
Theorem completion_advances_progress
        (now request_user pk exercise_id : Z) (duration_actual rating : option Z)
        (notes : string) (st : Store.t) (db : SelfCareDb.t)
        (progress : PatientSelfCareProgress.t) (exercise : SelfCareExercise.t) :
  get_object request_user pk st db = Ok progress ->
  exercise_id <> 0 ->
  Orm.get "SelfCareExercise" (fun e => SelfCareExercise.id e =? exercise_id)
          (SelfCareDb.exercises db) = Ok exercise ->
  (forall c, In c (SelfCareDb.completions db) ->
             ExerciseCompletion.patient c = PatientSelfCareProgress.patient progress ->
             ExerciseCompletion.exercise c = exercise_id ->
             ExerciseCompletion.completed_at c <> now) ->
  exists row db',
    complete_exercise now request_user pk (Some exercise_id) duration_actual rating notes
                      st db
    = (Ok (mkResponse 200 "Exercise completed successfully"), db') /\
    SelfCareDb.completions db'
    = (SelfCareDb.completions db
       ++ [ExerciseCompletion.mk
             (Orm.next_pk ExerciseCompletion.id (SelfCareDb.completions db))
             (PatientSelfCareProgress.patient progress) exercise_id now
             duration_actual rating notes])%list /\
    SelfCareDb.exercises db' = SelfCareDb.exercises db /\
    In row (SelfCareDb.progress db') /\
    PatientSelfCareProgress.id row = pk /\
    PatientSelfCareProgress.patient row = PatientSelfCareProgress.patient progress /\
    PrimFloat.leb (PatientSelfCareProgress.progress_percentage row) 100%float = true /\
    (PatientSelfCareProgress.is_completed progress = true ->
     PatientSelfCareProgress.is_completed row = true) /\
    (PrimFloat.ltb (stepped progress) 100%float = true ->
     PatientSelfCareProgress.progress_percentage row = stepped progress /\
     PatientSelfCareProgress.is_completed row
     = PatientSelfCareProgress.is_completed progress /\
     PatientSelfCareProgress.completed_at row
     = PatientSelfCareProgress.completed_at progress) /\
    (PrimFloat.ltb (stepped progress) 100%float = false ->
     PatientSelfCareProgress.progress_percentage row = 100%float /\
     PatientSelfCareProgress.is_completed row = true /\
     PatientSelfCareProgress.completed_at row = Some now) /\
    (forall r, In r (SelfCareDb.progress db) -> PatientSelfCareProgress.id r <> pk ->
               In r (SelfCareDb.progress db')).
Proof.
  intros Hobj Hid Hexercise Hfresh.
  destruct (get_object_found _ _ _ _ _ Hobj) as [Hin [Hpk _]].
  assert (Hsame : SelfCareExercise.id exercise = exercise_id).
  { pose proof (SubmissionProps.get_found _ _ _ _ Hexercise) as Hone.
    assert (Hx : In exercise (filter (fun e => SelfCareExercise.id e =? exercise_id)
                                     (SelfCareDb.exercises db)))
      by (rewrite Hone; left; reflexivity).
    apply filter_In in Hx. destruct Hx as [_ Hx]. apply Z.eqb_eq. exact Hx. }
  unfold complete_exercise. rewrite Hobj.
  destruct (Z.eqb_spec exercise_id 0) as [H0 | _]; [contradiction|].
  rewrite Hexercise.
  assert (Hnone : existsb
                    (fun c => ((ExerciseCompletion.patient c
                                =? PatientSelfCareProgress.patient progress) &&
                               (ExerciseCompletion.exercise c
                                =? SelfCareExercise.id exercise) &&
                               (ExerciseCompletion.completed_at c =? now))%bool)
                    (SelfCareDb.completions db) = false).
  { destruct (existsb _ (SelfCareDb.completions db)) eqn:Hex; [|reflexivity].
    apply existsb_exists in Hex. destruct Hex as [c [Hc Hmatch]].
    apply andb_true_iff in Hmatch. destruct Hmatch as [Hmatch Hnow].
    apply andb_true_iff in Hmatch. destruct Hmatch as [Hp He].
    apply Z.eqb_eq in Hp. apply Z.eqb_eq in He. apply Z.eqb_eq in Hnow.
    rewrite Hsame in He. exfalso. exact (Hfresh c Hc Hp He Hnow). }
  rewrite Hnone. cbv zeta. rewrite Hsame.
  destruct (advance_cases now progress)
    as [Hrid [Hrpatient [_ [Hcap [Hbelow Hreached]]]]].
  exists (advance now progress). eexists. split; [reflexivity|].
  unfold save_progress. cbn [SelfCareDb.completions SelfCareDb.exercises SelfCareDb.progress].
  split; [reflexivity|]. split; [reflexivity|].
  split.
  { apply in_map_iff. exists progress. split; [|exact Hin].
    rewrite Hrid, Z.eqb_refl. reflexivity. }
  split; [rewrite Hrid; exact Hpk|].
  split; [exact Hrpatient|].
  split; [exact Hcap|].
  split.
  { intro Hdone.
    destruct (PrimFloat.ltb (stepped progress) 100) eqn:Hlt.
    - rewrite (Hbelow eq_refl). exact Hdone.
    - rewrite (Hreached eq_refl). reflexivity. }
  split; [intro Hlt; rewrite (Hbelow Hlt); repeat split; reflexivity|].
  split; [intro Hlt; rewrite (Hreached Hlt); repeat split; reflexivity|].
  intros r Hr Hother. apply in_map_iff. exists r. split; [|exact Hr].
  rewrite Hrid, Hpk.
  destruct (Z.eqb_spec (PatientSelfCareProgress.id r) pk) as [Heq | _];
    [contradiction | reflexivity].
Qed.

(** A patient one exercise short of finishing a pathway. *)
Definition nearly_done : SelfCareDb.t :=
  SelfCareDb.mk [SelfCareExercise.mk 3 "Box breathing" "breathing" false]
                [PatientSelfCareProgress.mk 7 1 2 false None 90%float]
                [].

Lemma completion_advances_progress_witness :
  exists row db',
    complete_exercise 50 5 7 (Some 3) None (Some 4) "" TriageProps.after_first nearly_done
    = (Ok (mkResponse 200 "Exercise completed successfully"), db') /\
    In row (SelfCareDb.progress db') /\
    PatientSelfCareProgress.is_completed row = true.
Proof.
  destruct (completion_advances_progress 50 5 7 3 None (Some 4) ""
              TriageProps.after_first nearly_done
              (PatientSelfCareProgress.mk 7 1 2 false None 90%float)
              (SelfCareExercise.mk 3 "Box breathing" "breathing" false)
              eq_refl ltac:(discriminate) eq_refl ltac:(intros c [])) 
    as [row [db' [Hrun [_ [_ [Hin [_ [_ [_ [_ [_ [Hreached _]]]]]]]]]]]].
  exists row, db'. split; [exact Hrun|]. split; [exact Hin|].
  apply Hreached. vm_compute. reflexivity.
Defined.

(** X20.  [complete_exercise] writes only when it answers 200.  With the
    progress row found, a missing or zero [exercise_id] is answered with
    400 and an identifier of no exercise with 404, and the tables are left
    as they were. *)
Theorem complete_exercise_failures
        (now request_user pk : Z) (exercise_id : option Z)
        (duration_actual rating : option Z) (notes : string)
        (st : Store.t) (db : SelfCareDb.t) :
  (fst (complete_exercise now request_user pk exercise_id duration_actual rating notes
          st db)
   <> Ok (mkResponse 200 "Exercise completed successfully") ->
   snd (complete_exercise now request_user pk exercise_id duration_actual rating notes
          st db) = db) /\
  (forall progress,
      get_object request_user pk st db = Ok progress ->
      (exercise_id = None \/ exercise_id = Some 0 ->
       complete_exercise now request_user pk exercise_id duration_actual rating notes st db
       = (Ok (mkResponse 400 "Exercise ID required"), db)) /\
      (forall e, exercise_id = Some e -> e <> 0 ->
                 (forall x, In x (SelfCareDb.exercises db) -> SelfCareExercise.id x <> e) ->
                 complete_exercise now request_user pk exercise_id duration_actual rating
                                   notes st db
                 = (Ok (mkResponse 404 "Exercise not found"), db))).
Proof.
  split.
  - unfold complete_exercise.
    destruct (get_object request_user pk st db) as [progress|e]; [|reflexivity].
    destruct exercise_id as [e|]; [|reflexivity].
    destruct (e =? 0); [reflexivity|].
    destruct (Orm.get "SelfCareExercise" _ _) as [exercise|[]]; try reflexivity.
    destruct (existsb _ _); [reflexivity|].
    cbv zeta. cbn [fst snd]. intro Hnot. exfalso. apply Hnot. reflexivity.
  - intros progress Hobj. unfold complete_exercise. rewrite Hobj. split.
    + intros [Hnone | Hzero]; subst exercise_id; reflexivity.
    + intros e He Hnz Hmissing. subst exercise_id.
      destruct (Z.eqb_spec e 0) as [H0 | _]; [contradiction|].
      rewrite (TriageProps.get_no_match "SelfCareExercise").
      * reflexivity.
      * intros x Hx. apply Z.eqb_neq. exact (Hmissing x Hx).
Qed.

(** X21.  The progress row is looked up among the caller's own: a key that
    belongs to no row of the caller's patient, for instance the row of
    another patient, raises [Http404], and nothing is written. *)
Theorem foreign_progress_is_not_found
        (now request_user pk : Z) (exercise_id : option Z)
        (duration_actual rating : option Z) (notes : string)
        (st : Store.t) (db : SelfCareDb.t) (patient : Patient.t) :
  Orm.get "Patient" (fun p => Patient.user p =? request_user) (Store.patients st)
  = Ok patient ->
  (forall r, In r (SelfCareDb.progress db) -> PatientSelfCareProgress.id r = pk ->
             PatientSelfCareProgress.patient r <> Patient.id patient) ->
  complete_exercise now request_user pk exercise_id duration_actual rating notes st db
  = (Raise Http404, db).
Proof.
  intros Hpatient Hforeign.
  unfold complete_exercise, get_object, get_queryset. rewrite Hpatient. cbn [bind].
  rewrite (TriageProps.get_no_match "PatientSelfCareProgress"); [reflexivity|].
  intros r Hr. apply filter_In in Hr. destruct Hr as [Hr Hp]. apply Z.eqb_eq in Hp.
  apply Z.eqb_neq. intro Hpk. exact (Hforeign r Hr Hpk Hp).
Qed.

Lemma foreign_progress_is_not_found_witness :
  complete_exercise 50 5 7 (Some 3) None None "" TriageProps.after_first
    (SelfCareDb.mk [SelfCareExercise.mk 3 "Box breathing" "breathing" true]
                   [PatientSelfCareProgress.mk 7 2 2 false None 90%float] [])
  = (Raise Http404,
     SelfCareDb.mk [SelfCareExercise.mk 3 "Box breathing" "breathing" true]
                   [PatientSelfCareProgress.mk 7 2 2 false None 90%float] []).
Proof.
  refine (foreign_progress_is_not_found 50 5 7 (Some 3) None None ""
            TriageProps.after_first _ (Patient.mk 1 5 "casey" "") eq_refl _).
  intros r [Hr | []] _. subst r. cbn. discriminate.
Defined.

End ProgressProps.


(** ** Clinician dashboard and appointments *)

Module DashboardProps.

Import ClinicianDashboardViewSet.

Lemma nodup_within (l l' : list Z) :
  incl l l' -> (List.length (nodup Z.eq_dec l) <= List.length l')%nat.
Proof.
  intro Hincl. apply NoDup_incl_length; [apply NoDup_nodup|].
  intros x Hx. apply Hincl. apply (nodup_In Z.eq_dec). exact Hx.
Qed.

Lemma is_in_In (ids : list Z) (v : Z) : ClinicianViews.is_in ids v = true -> In v ids.
Proof.
  unfold ClinicianViews.is_in. intro H. apply existsb_exists in H.
  destruct H as [x [Hx Heq]]. apply Z.eqb_eq in Heq. subst x. exact Hx.
Qed.

(** The rows at "high" and the rows at "critical" make up the rows at
    either level. *)
Lemma high_or_critical_rows (ids : list Z) (rows : list PatientTrend.t) :
  List.length
    (filter (fun r => (ClinicianViews.is_in ids (PatientTrend.patient r) &&
                       (String.eqb (PatientTrend.risk_level r) "high" ||
                        String.eqb (PatientTrend.risk_level r) "critical"))%bool) rows)
  = (List.length
       (filter (fun r => (ClinicianViews.is_in ids (PatientTrend.patient r) &&
                          String.eqb (PatientTrend.risk_level r) "high")%bool) rows)
     + List.length
         (filter (fun r => (ClinicianViews.is_in ids (PatientTrend.patient r) &&
                            String.eqb (PatientTrend.risk_level r) "critical")%bool) rows))%nat.
Proof.
  induction rows as [|r rows IH]; [reflexivity|].
  cbn [filter].
  destruct (ClinicianViews.is_in ids (PatientTrend.patient r)); cbn [andb]; [|exact IH].
  destruct (String.eqb_spec (PatientTrend.risk_level r) "high") as [Hh | _].
  - rewrite Hh. cbn. rewrite IH. reflexivity.
  - cbn [orb]. destruct (String.eqb (PatientTrend.risk_level r) "critical"); cbn; lia.
Qed.

(** X22.  For a clinician's account [stats] answers 200.  The number of
    high-risk patients counts distinct patients, so it never exceeds the
    number of assigned patients, nor the number of trend rows at "high" or
    "critical" it is drawn from; pending alerts are at most the alerts of
    the store; the count of new screenings is always 0.  An account with no
    clinician is answered with 404. *)
Theorem stats_counts (date_of : Z -> Z) (today request_user : Z) (st : Store.t)
        (appointments : list Appointment.t) :
  (forall clinician,
      ClinicianViews.get_clinician request_user st = Ok clinician ->
      exists s,
        stats date_of today request_user st appointments = Ok (200, StatsBody s) /\
        total_patients s
        = count (ClinicianViews.assigned_patients clinician st) /\
        0 <= high_risk_patients s <= total_patients s /\
        high_risk_patients s <= risk_high s + risk_critical s /\
        0 <= alerts_pending s <= count (Store.screening_alerts st) /\
        0 <= appointments_today s <= count appointments /\
        new_screenings_today s = 0) /\
  (forall model,
      ClinicianViews.get_clinician request_user st = Raise (DoesNotExist model) ->
      stats date_of today request_user st appointments
      = Ok (404, ErrorBody "Clinician not found")).
Proof.
  split.
  - intros clinician Hclinician. unfold stats. rewrite Hclinician. cbv zeta.
    eexists. split; [reflexivity|].
    cbn [total_patients high_risk_patients risk_high risk_critical alerts_pending
         appointments_today new_screenings_today].
    unfold count, trends_at.
    set (ids := ClinicianViews.assigned_patients clinician st).
    split; [reflexivity|].
    split.
    { split; [lia|]. apply Nat2Z.inj_le. apply nodup_within.
      intros p Hp. apply in_map_iff in Hp. destruct Hp as [r [Hr Hin]]. subst p.
      apply filter_In in Hin. destruct Hin as [_ Hin].
      apply andb_true_iff in Hin. destruct Hin as [Hin _]. exact (is_in_In _ _ Hin). }
    split.
    { rewrite <- Nat2Z.inj_add. apply Nat2Z.inj_le.
      rewrite <- high_or_critical_rows.
      rewrite <- (length_map PatientTrend.patient).
      apply nodup_within. apply incl_refl. }
    split; [split; [lia | apply Nat2Z.inj_le; apply filter_length_le]|].
    split; [split; [lia | apply Nat2Z.inj_le; apply filter_length_le]|].
    reflexivity.
  - intros model Hmissing. unfold stats. rewrite Hmissing. reflexivity.
Qed.

End DashboardProps.

Module AppointmentProps.

Import AppointmentViewSet.

Lemma NoDup_map_filter {A : Type} (key : A -> Z) (p : A -> bool) (rows : list A) :
  NoDup (map key rows) -> NoDup (map key (filter p rows)).
Proof.
  induction rows as [|r rows IH]; intro Hnd; [exact Hnd|].
  cbn in Hnd. inversion Hnd as [|? ? Hnotin Hnd']; subst.
  cbn [filter]. destruct (p r); [|exact (IH Hnd')].
  cbn [map]. constructor; [|exact (IH Hnd')].
  intro Hin. apply Hnotin. apply in_map_iff in Hin. destruct Hin as [x [Hx Hin]].
  apply filter_In in Hin. destruct Hin as [Hin _].
  apply in_map_iff. exists x. split; assumption.
Qed.

(** X23.  [complete] reaches only the caller's own appointments.  On one
    of them it sets the status to "completed", stamps it and stores the
    notes of the request, keeping patient, clinician and date; every other
    appointment is left as it is.  A key of no appointment of the caller,
    for instance another clinician's appointment, raises [Http404]. *)
Theorem complete_own_appointment_only
        (now request_user pk : Z) (clinician_notes : string) (st : Store.t)
        (appointments : list Appointment.t) (clinician : Clinician.t) :
  ClinicianViews.get_clinician request_user st = Ok clinician ->
  NoDup (map Appointment.id appointments) ->
  (forall appointment,
      In appointment appointments -> Appointment.id appointment = pk ->
      Appointment.clinician appointment = Clinician.id clinician ->
      complete now request_user pk clinician_notes st appointments
      = Ok (map (fun a => if Appointment.id a =? pk
                          then Appointment.mk pk (Appointment.patient appointment)
                                 (Appointment.clinician appointment)
                                 (Appointment.scheduled_date appointment)
                                 "completed" clinician_notes (Some now)
                          else a)
                appointments) /\
      In (Appointment.mk pk (Appointment.patient appointment)
            (Appointment.clinician appointment) (Appointment.scheduled_date appointment)
            "completed" clinician_notes (Some now))
         (map (fun a => if Appointment.id a =? pk
                        then Appointment.mk pk (Appointment.patient appointment)
                               (Appointment.clinician appointment)
                               (Appointment.scheduled_date appointment)
                               "completed" clinician_notes (Some now)
                        else a)
              appointments)) /\
  ((forall a, In a appointments -> Appointment.id a = pk ->
              Appointment.clinician a <> Clinician.id clinician) ->
   complete now request_user pk clinician_notes st appointments = Raise Http404).
Proof.
  intros Hclinician Hnd. split.
  - intros appointment Hin Hpk Hown.
    unfold complete, get_queryset. rewrite Hclinician. cbn [bind].
    assert (Hget : Orm.get "Appointment" (fun a => Appointment.id a =? pk)
                     (filter (fun a => Appointment.clinician a =? Clinician.id clinician)
                             appointments) = Ok appointment).
    { rewrite <- Hpk. apply (SubmissionProps.get_unique "Appointment" Appointment.id).
      - apply NoDup_map_filter. exact Hnd.
      - apply filter_In. split; [exact Hin | apply Z.eqb_eq; exact Hown]. }
    rewrite Hget. cbn [Appointment.id]. rewrite Hpk.
    split; [reflexivity|].
    apply in_map_iff. exists appointment. split; [|exact Hin].
    rewrite Hpk, Z.eqb_refl. reflexivity.
  - intro Hforeign. unfold complete, get_queryset. rewrite Hclinician. cbn [bind].
    rewrite (TriageProps.get_no_match "Appointment"); [reflexivity|].
    intros a Ha. apply filter_In in Ha. destruct Ha as [Ha Hown]. apply Z.eqb_eq in Hown.
    apply Z.eqb_neq. intro Hpk. exact (Hforeign a Ha Hpk Hown).
Qed.

(** A store with one clinician, key 4, of account 9. *)
Definition one_clinician : Store.t :=
  Store.mk [] [] [] [] [] [] [] [Clinician.mk 4 9 "LIC-0004"] [] [] [] [] [] [].

Lemma complete_own_appointment_only_witness :
  complete 80 9 2 "seen" one_clinician
    [Appointment.mk 1 1 4 60 "scheduled" "" None;
     Appointment.mk 2 1 7 61 "scheduled" "" None]
  = Raise Http404.
Proof.
  refine (proj2 (complete_own_appointment_only 80 9 2 "seen" one_clinician
                   [Appointment.mk 1 1 4 60 "scheduled" "" None;
                    Appointment.mk 2 1 7 61 "scheduled" "" None]
                   (Clinician.mk 4 9 "LIC-0004") eq_refl _) _).
  - repeat constructor; cbn; intuition discriminate.
  - intros a [Ha | [Ha | []]] Hpk; subst a; cbn in *; discriminate.
Defined.

End AppointmentProps.

(** ** Patient-scoped views *)

Module ScopeProps.

Import PatientScopedViews.

(** With unique patient keys a patient key belongs to one account. *)
Lemma owned_by_one_account (u1 u2 : Z) (st : Store.t) (patient : Z) :
  NoDup (map Patient.id (Store.patients st)) ->
  owned_by u1 st patient = true -> owned_by u2 st patient = true -> u1 = u2.
Proof.
  unfold owned_by. intros Hnd H1 H2.
  apply existsb_exists in H1. destruct H1 as [p1 [Hp1 H1]].
  apply existsb_exists in H2. destruct H2 as [p2 [Hp2 H2]].
  apply andb_true_iff in H1. destruct H1 as [Hid1 Hu1].
  apply andb_true_iff in H2. destruct H2 as [Hid2 Hu2].
  apply Z.eqb_eq in Hid1. apply Z.eqb_eq in Hid2.
  apply Z.eqb_eq in Hu1. apply Z.eqb_eq in Hu2.
  assert (Hsame : p1 = p2)
    by (apply (ClinicianProps.same_key_same_row Patient.id (Store.patients st) Hnd);
        try assumption; congruence).
  subst p2. congruence.
Qed.

(** X24.  With unique patient keys, the query sets of the patient-facing
    views of two different accounts share no row: no screening, alert or
    referral is listed to more than one account, and each listed row
    belongs to a patient of the calling account. *)
Theorem patient_views_are_disjoint (u1 u2 : Z) (st : Store.t) :
  NoDup (map Patient.id (Store.patients st)) ->
  u1 <> u2 ->
  (forall s, In s (phq9_queryset u1 st) ->
             ~ In s (phq9_queryset u2 st) /\
             exists p, In p (Store.patients st) /\ Patient.user p = u1 /\
                       Patient.id p = PHQ9Screening.patient s) /\
  (forall s, In s (gad7_queryset u1 st) ->
             ~ In s (gad7_queryset u2 st) /\
             exists p, In p (Store.patients st) /\ Patient.user p = u1 /\
                       Patient.id p = GAD7Screening.patient s) /\
  (forall a, In a (alert_queryset u1 st) ->
             ~ In a (alert_queryset u2 st) /\
             exists p, In p (Store.patients st) /\ Patient.user p = u1 /\
                       Patient.id p = ScreeningAlert.patient a) /\
  (forall r, In r (referral_queryset u1 st) ->
             ~ In r (referral_queryset u2 st) /\
             exists p, In p (Store.patients st) /\ Patient.user p = u1 /\
                       Patient.id p = TeleconsultReferral.patient r).
Proof.
  intros Hnd Hne.
  assert (Howner : forall patient,
             owned_by u1 st patient = true ->
             owned_by u2 st patient <> true /\
             exists p, In p (Store.patients st) /\ Patient.user p = u1 /\
                       Patient.id p = patient).
  { intros patient H1. split.
    - intro H2. apply Hne. exact (owned_by_one_account u1 u2 st patient Hnd H1 H2).
    - unfold owned_by in H1. apply existsb_exists in H1. destruct H1 as [p [Hp H1]].
      apply andb_true_iff in H1. destruct H1 as [Hid Hu].
      apply Z.eqb_eq in Hid. apply Z.eqb_eq in Hu. exists p. auto. }
  unfold phq9_queryset, gad7_queryset, alert_queryset, referral_queryset.
  repeat split.
  all: try (intro H2; apply filter_In in H; apply filter_In in H2;
            destruct H as [_ H]; destruct H2 as [_ H2];
            exact (proj1 (Howner _ H) H2)).
  all: apply filter_In in H; destruct H as [_ H]; exact (proj2 (Howner _ H)).
Qed.

Lemma patient_views_are_disjoint_witness :
  Forall (fun s => ~ In s (phq9_queryset 6 TriageProps.after_first))
         (phq9_queryset 5 TriageProps.after_first).
Proof.
  apply Forall_forall. intros s Hs.
  refine (proj1 (proj1 (patient_views_are_disjoint 5 6 TriageProps.after_first _ _) s Hs)).
  - cbn. repeat constructor. intros [].
  - discriminate.
Defined.

(** The patient [_get_or_create_patient] settles on is the caller's. *)
Lemma get_or_create_user (request : SurveySubmissionViewSet.Request) (st st1 : Store.t)
      (patient : Patient.t) :
  SurveySubmissionViewSet._get_or_create_patient request st = (Ok patient, st1) ->
  Patient.user patient = SurveySubmissionViewSet.user request.
Proof.
  unfold SurveySubmissionViewSet._get_or_create_patient.
  destruct (Orm.get "Patient" _ (Store.patients st)) as [found|e] eqn:Hget.
  - intro H. inversion H; subst found st1.
    pose proof (SubmissionProps.get_found _ _ _ _ Hget) as Hone.
    assert (Hin : In patient
                     (filter (fun p => Patient.user p =? SurveySubmissionViewSet.user request)
                             (Store.patients st)))
      by (rewrite Hone; left; reflexivity).
    apply filter_In in Hin. destruct Hin as [_ Hu]. apply Z.eqb_eq. exact Hu.
  - destruct e; try (intro H; discriminate H).
    destruct (existsb _ _); intro H; inversion H. reflexivity.
Qed.

(** X25.  A PHQ-9 screening accepted by [submit_phq9] is listed to the
    account that submitted it by [PHQ9ScreeningViewSet.get_queryset], and,
    patient keys being unique, to no other account. *)
Theorem submitted_screening_is_listed_to_submitter
        (t_create t_triage : Z) (request : SurveySubmissionViewSet.Request)
        (st st1 : Store.t) (l : list Z) (patient : Patient.t) :
  SurveySubmissionViewSet.answers request = Some (VList (map VInt l)) ->
  List.length l = 9%nat -> Forall ScoringProps.on_scale l ->
  NoDup (map Patient.id (Store.patients st)) ->
  SurveySubmissionViewSet._get_or_create_patient request st = (Ok patient, st1) ->
  In (fst (Store.create_phq9 t_create
             (ScoringProps.phq9_of_answers (Patient.id patient) l) st1))
     (phq9_queryset (SurveySubmissionViewSet.user request)
        (snd (SurveySubmissionViewSet.submit_phq9 t_create t_triage request st))) /\
  forall other,
    other <> SurveySubmissionViewSet.user request ->
    ~ In (fst (Store.create_phq9 t_create
                 (ScoringProps.phq9_of_answers (Patient.id patient) l) st1))
         (phq9_queryset other
            (snd (SurveySubmissionViewSet.submit_phq9 t_create t_triage request st))).
Proof.
  intros Hanswers Hlen Hscale Hnd Hgoc.
  rewrite (SubmissionProps.submit_phq9_accepted _ _ _ _ _ _ _ Hanswers Hlen Hscale Hgoc).
  cbv zeta.
  destruct (SubmissionProps.get_or_create_shape _ _ _ _ Hgoc) as [Hin _].
  pose proof (SubmissionProps.get_or_create_keeps_keys_unique _ _ _ _ Hgoc Hnd) as Hnd1.
  pose proof (get_or_create_user _ _ _ _ Hgoc) as Huser.
  rewrite (RuleEngineProps.process_triage_known _ _ _ _ _ _ patient)
    by (cbn [snd Store.create_phq9 Store.patients Store.with_phq9_screenings];
        apply SubmissionProps.get_unique; assumption).
  cbv zeta.
  set (row := fst (Store.create_phq9 t_create
                     (ScoringProps.phq9_of_answers (Patient.id patient) l) st1)).
  match goal with
  | |- In row (phq9_queryset _ (snd ?outcome)) /\ _ =>
      assert (Htables : Store.patients (snd outcome) = Store.patients st1 /\
                        Store.phq9_screenings (snd outcome)
                        = (Store.phq9_screenings st1 ++ [row])%list)
        by (destruct (RuleEngineProps.seen_increase _ _ _ _ _);
            destruct (RuleEngineProps.referral_due _ _); split; reflexivity);
      generalize dependent (snd outcome)
  end.
  intros st' [Hpatients Hrows].
  assert (Hrow : PHQ9Screening.patient row = Patient.id patient)
    by (subst row; cbn [fst Store.create_phq9 PHQ9Screening.patient];
        apply SubmissionProps.phq9_save_patient).
  unfold phq9_queryset, owned_by. rewrite Hpatients, Hrows. split.
  - apply filter_In. split; [apply in_or_app; right; left; reflexivity|].
    rewrite Hrow. apply existsb_exists. exists patient. split; [exact Hin|].
    rewrite Huser, !Z.eqb_refl. reflexivity.
  - intros other Hother Hlisted. apply filter_In in Hlisted.
    destruct Hlisted as [_ Howned]. rewrite Hrow in Howned.
    apply existsb_exists in Howned. destruct Howned as [p [Hp Hmatch]].
    apply andb_true_iff in Hmatch. destruct Hmatch as [Hid Hu].
    apply Z.eqb_eq in Hid. apply Z.eqb_eq in Hu.
    assert (Hsame : p = patient)
      by (apply (ClinicianProps.same_key_same_row Patient.id (Store.patients st1) Hnd1);
          assumption).
    subst p. apply Hother. congruence.
Qed.

Lemma submitted_screening_is_listed_to_submitter_witness :
  In (fst (Store.create_phq9 10
             (ScoringProps.phq9_of_answers 1 [0; 1; 2; 1; 0; 2; 1; 0; 1])
             (Store.with_patients [Patient.mk 1 5 "casey" ""] Store.empty)))
     (phq9_queryset 5
        (snd (SurveySubmissionViewSet.submit_phq9 10 11
                (SurveySubmissionViewSet.mkRequest 5 "casey"
                   (Some (VList (map VInt [0; 1; 2; 1; 0; 2; 1; 0; 1]))) "")
                Store.empty))).
Proof.
  exact (proj1 (submitted_screening_is_listed_to_submitter 10 11
                  (SurveySubmissionViewSet.mkRequest 5 "casey"
                     (Some (VList (map VInt [0; 1; 2; 1; 0; 2; 1; 0; 1]))) "")
                  Store.empty
                  (Store.with_patients [Patient.mk 1 5 "casey" ""] Store.empty)
                  [0; 1; 2; 1; 0; 2; 1; 0; 1] (Patient.mk 1 5 "casey" "")
                  eq_refl eq_refl SurveyProps.on_scale_example (NoDup_nil Z) eq_refl)).
Defined.

End ScopeProps.


(** ** Risk keywords and the recommendation of the chatbot *)

Module RiskProps.

Import ChatbotConversationViewSet.

Lemma prefix_app (k h b : string) :
  String.prefix k h = true -> String.prefix k (h ++ b) = true.
Proof.
  revert h. induction k as [|c k IH]; intros h Hp; [destruct (h ++ b); reflexivity|].
  destruct h as [|d h]; [discriminate Hp|].
  cbn in *. destruct (Ascii.ascii_dec c d); [|discriminate Hp].
  apply IH. exact Hp.
Qed.

Lemma contains_app_r (k h b : string) :
  contains k h = true -> contains k (h ++ b) = true.
Proof.
  induction h as [|c h IH]; intro Hc.
  - destruct k as [|c k]; [|discriminate Hc]. destruct b; reflexivity.
  - cbn [contains] in Hc. apply orb_true_iff in Hc.
    change (String c h ++ b) with (String c (h ++ b)). cbn [contains].
    apply orb_true_iff. destruct Hc as [Hp | Hc].
    + left. exact (prefix_app k (String c h) b Hp).
    + right. exact (IH Hc).
Qed.

Lemma contains_app_l (k a h : string) :
  contains k h = true -> contains k (a ++ h) = true.
Proof.
  intro Hc. induction a as [|c a IH]; [exact Hc|].
  change (String c a ++ h) with (String c (a ++ h)). cbn [contains].
  rewrite IH. apply orb_true_r.
Qed.

(** Text in ASCII: every byte is below 128. *)
Fixpoint is_ascii (s : string) : bool :=
  match s with
  | EmptyString => true
  | String c t => (Nat.ltb (nat_of_ascii c) 128 && is_ascii t)%bool
  end.

(** What the lowercase mapping of Unicode does to the ASCII characters:
    the letters A-Z become a-z and the others stay, whatever stands around
    them. *)
Definition lowers_ascii (to_lower : list string -> string -> list string -> string)
  : Prop :=
  forall before c after,
    Nat.ltb (nat_of_ascii c) 128 = true ->
    to_lower before (String c EmptyString) after = String (lower_char c) EmptyString.

Lemma ascii_to_lower_lowers_ascii : lowers_ascii ascii_to_lower.
Proof. intros before c after _. reflexivity. Qed.

Lemma is_ascii_app (a b : string) :
  is_ascii (a ++ b) = (is_ascii a && is_ascii b)%bool.
Proof.
  induction a as [|c a IH]; [reflexivity|]. cbn. rewrite IH. apply andb_assoc.
Qed.

Lemma map_bytes_app (f : ascii -> ascii) (a b : string) :
  map_bytes f (a ++ b) = map_bytes f a ++ map_bytes f b.
Proof.
  induction a as [|c a IH]; [reflexivity|]. cbn. rewrite IH. reflexivity.
Qed.

(** The characters of ASCII text are its bytes. *)
Lemma code_points_ascii (s : string) :
  is_ascii s = true ->
  code_points s = map (fun c => String c EmptyString) (list_ascii_of_string s).
Proof.
  induction s as [|c t IH]; intro Hs; [reflexivity|].
  cbn [is_ascii] in Hs. apply andb_true_iff in Hs. destruct Hs as [_ Ht].
  cbn [code_points list_ascii_of_string map]. rewrite (IH Ht).
  destruct t as [|d t']; [reflexivity|].
  cbn [is_ascii] in Ht. apply andb_true_iff in Ht. destruct Ht as [Hd _].
  assert (Hcont : is_continuation d = false).
  { unfold is_continuation. apply Nat.ltb_lt in Hd.
    destruct (Nat.leb_spec 128 (nat_of_ascii d)) as [Hle | _]; [lia | reflexivity]. }
  rewrite Hcont. reflexivity.
Qed.

Lemma lower_points_ascii (to_lower : list string -> string -> list string -> string)
      (s : string) :
  lowers_ascii to_lower -> is_ascii s = true ->
  forall before,
    join (lower_points to_lower before
            (map (fun c => String c EmptyString) (list_ascii_of_string s)))
    = map_bytes lower_char s.
Proof.
  intros Hlowers. induction s as [|c t IH]; intros Hs before; [reflexivity|].
  cbn [is_ascii] in Hs. apply andb_true_iff in Hs. destruct Hs as [Hc Ht].
  cbn [list_ascii_of_string map lower_points join map_bytes].
  rewrite (Hlowers _ c _ Hc), (IH Ht). reflexivity.
Qed.

(** On ASCII text [lower] lowers the letters byte by byte. *)
Lemma lower_ascii (to_lower : list string -> string -> list string -> string)
      (s : string) :
  lowers_ascii to_lower -> is_ascii s = true ->
  lower to_lower s = map_bytes lower_char s.
Proof.
  intros Hlowers Hs. unfold lower. rewrite (code_points_ascii s Hs).
  apply lower_points_ascii; assumption.
Qed.

Lemma any_in_context (to_lower : list string -> string -> list string -> string)
      (words : list string) (before text after : string) :
  lowers_ascii to_lower -> is_ascii (before ++ text ++ after) = true ->
  any_in words (lower to_lower text) = true ->
  any_in words (lower to_lower (before ++ text ++ after)) = true.
Proof.
  intros Hlowers Hall. unfold any_in. intro Hany. apply existsb_exists in Hany.
  destruct Hany as [k [Hk Hc]]. apply existsb_exists. exists k. split; [exact Hk|].
  pose proof Hall as Hparts. rewrite !is_ascii_app in Hparts.
  apply andb_true_iff in Hparts. destruct Hparts as [_ Hparts].
  apply andb_true_iff in Hparts. destruct Hparts as [Htext _].
  rewrite (lower_ascii to_lower _ Hlowers Hall), !map_bytes_app.
  rewrite (lower_ascii to_lower _ Hlowers Htext) in Hc.
  apply contains_app_l. apply contains_app_r. exact Hc.
Qed.

(** X26.  [detect_risk_keywords] returns the categories in a fixed order,
    each at most once; a text in which it finds one is rated "critical",
    and [assess_risk_level] returns one of the four levels.  In ASCII
    text, which [str.lower] lowers letter by letter, a category found in a
    text is still found when the text stands inside a longer one: the text
    around a risk phrase never hides it, and the longer text is rated
    "critical". *)
Theorem risk_phrases_survive_context
        (to_lower : list string -> string -> list string -> string)
        (keyword_scores : string -> list (string * float))
        (before text after : string) :
  In (EmotionDetector.detect_risk_keywords to_lower text)
     [[]; ["suicidal_ideation"]; ["self_harm"]; ["suicidal_ideation"; "self_harm"]] /\
  (EmotionDetector.detect_risk_keywords to_lower text <> [] ->
   EmotionDetector.assess_risk_level to_lower keyword_scores text = "critical") /\
  In (EmotionDetector.assess_risk_level to_lower keyword_scores text)
     ["critical"; "high"; "medium"; "low"] /\
  (lowers_ascii to_lower ->
   is_ascii (before ++ text ++ after) = true ->
   (forall category,
       In category (EmotionDetector.detect_risk_keywords to_lower text) ->
       In category
          (EmotionDetector.detect_risk_keywords to_lower (before ++ text ++ after))) /\
   (EmotionDetector.detect_risk_keywords to_lower text <> [] ->
    EmotionDetector.assess_risk_level to_lower keyword_scores (before ++ text ++ after)
    = "critical")).
Proof.
  split.
  { unfold EmotionDetector.detect_risk_keywords. cbv zeta.
    destruct (existsb _ EmotionDetector.suicidal_keywords);
      destruct (existsb _ EmotionDetector.self_harm_keywords); cbn; auto. }
  split.
  { intro Hfound. unfold EmotionDetector.assess_risk_level.
    destruct (EmotionDetector.detect_risk_keywords to_lower text);
      [congruence | reflexivity]. }
  split.
  { unfold EmotionDetector.assess_risk_level.
    destruct (EmotionDetector.detect_risk_keywords to_lower text); [|cbn; auto].
    destruct (PrimFloat.ltb 0 _); [cbn; auto|].
    destruct (_ || _)%bool; [cbn; auto|].
    destruct (_ || _)%bool; cbn; auto. }
  intros Hlowers Hall.
  assert (Hkeep : forall category,
             In category (EmotionDetector.detect_risk_keywords to_lower text) ->
             In category
                (EmotionDetector.detect_risk_keywords to_lower (before ++ text ++ after))).
  { unfold EmotionDetector.detect_risk_keywords. cbv zeta.
    fold (any_in EmotionDetector.suicidal_keywords (lower to_lower text)).
    fold (any_in EmotionDetector.self_harm_keywords (lower to_lower text)).
    fold (any_in EmotionDetector.suicidal_keywords
                 (lower to_lower (before ++ text ++ after))).
    fold (any_in EmotionDetector.self_harm_keywords
                 (lower to_lower (before ++ text ++ after))).
    intros category Hin. apply in_app_or in Hin. apply in_or_app.
    destruct Hin as [Hin | Hin]; [left | right].
    - destruct (any_in EmotionDetector.suicidal_keywords (lower to_lower text)) eqn:Hany;
        [|destruct Hin].
      rewrite (any_in_context to_lower _ before text after Hlowers Hall Hany). exact Hin.
    - destruct (any_in EmotionDetector.self_harm_keywords (lower to_lower text)) eqn:Hany;
        [|destruct Hin].
      rewrite (any_in_context to_lower _ before text after Hlowers Hall Hany). exact Hin. }
  split; [exact Hkeep|].
  intro Hfound. unfold EmotionDetector.assess_risk_level.
  destruct (EmotionDetector.detect_risk_keywords to_lower text) as [|category rest]
    eqn:Htext; [congruence|].
  specialize (Hkeep category (or_introl eq_refl)).
  destruct (EmotionDetector.detect_risk_keywords to_lower (before ++ text ++ after));
    [destruct Hkeep | reflexivity].
Qed.

Lemma risk_phrases_survive_context_witness :
  EmotionDetector.assess_risk_level ascii_to_lower (fun _ => [])
    ("Please help. " ++ "I WANT TO DIE" ++ " tonight")
  = "critical".
Proof.
  refine (proj2 (proj2 (proj2 (proj2
                   (risk_phrases_survive_context ascii_to_lower (fun _ => [])
                      "Please help. " "I WANT TO DIE" " tonight")))
                   ascii_to_lower_lowers_ascii _) _).
  - vm_compute. reflexivity.
  - vm_compute. discriminate.
Defined.

Lemma max_by_none {A : Type} (key : A -> Z) (rows : list A) :
  Orm.max_by key rows = None -> rows = [].
Proof.
  destruct rows as [|x rows]; [reflexivity|]. cbn.
  destruct (Orm.max_by key rows) as [y|]; [|discriminate].
  destruct (key y <=? key x); discriminate.
Qed.

(** The recommendation a reply of [send_message] carries. *)
Definition recommendation_of (r : Response) : option string :=
  match body r with
  | ReplyBody _ _ _ triage_recommendation => triage_recommendation
  | ErrorBody _ => None
  end.

(** The first recommendation of each risk tier. *)
Definition leading_recommendations : list string :=
  ["Immediate crisis intervention"; "Urgent teleconsultation within 24 hours";
   "Teleconsultation within 1 week"; "Self-care pathway"].

Lemma first_recommendation (phq9_score gad7_score : option Z) (suicidal_ideation : bool) :
  exists r rest,
    snd (TriageService.get_comprehensive_assessment phq9_score gad7_score
           suicidal_ideation) = r :: rest /\
    In r leading_recommendations.
Proof.
  unfold TriageService.get_comprehensive_assessment, leading_recommendations.
  destruct suicidal_ideation; [|destruct (_ || _)%bool; [|destruct (_ || _)%bool;
                                 [|destruct (_ || _)%bool]]];
    cbn; do 2 eexists; (split; [reflexivity|]); cbn; auto.
Qed.

(** X27.  The reply to a message that is not blank carries a triage
    recommendation exactly when the patient of the conversation has a
    PHQ-9 or a GAD-7 screening; it is then the first treatment
    recommendation of one of the four risk tiers. *)
Theorem recommendation_needs_a_screening
        (to_lower : list string -> string -> list string -> string)
        (keyword_scores : string -> list (string * float))
        (construct : result IntentRecognizer.t) (instance : option IntentRecognizer.t)
        (now : Z) (conversation : ChatbotConversation.t)
        (message : option string) (st : Store.t) :
  strip (match message with Some m => m | None => "" end) <> "" ->
  (recommendation_of
     (fst (send_message to_lower keyword_scores construct instance now (Some conversation)
             message st)) = None
   <-> (forall s, In s (Store.phq9_screenings st) ->
                  PHQ9Screening.patient s <> ChatbotConversation.patient conversation) /\
       (forall s, In s (Store.gad7_screenings st) ->
                  GAD7Screening.patient s <> ChatbotConversation.patient conversation)) /\
  (forall r,
      recommendation_of
        (fst (send_message to_lower keyword_scores construct instance now (Some conversation)
                message st)) = Some r ->
      In r leading_recommendations).
Proof.
  intro Htext. unfold send_message.
  rewrite (ConversationProps.nonempty_of_ne _ Htext). cbn [negb].
  destruct (EmotionDetector.get_primary_emotion keyword_scores _)
    as [primary_emotion confidence].
  cbv zeta.
  match goal with
  | |- context [recommendation_of (fst (mkResponse 200 (ReplyBody _ _ _ ?t), _))] =>
      change (recommendation_of (fst (mkResponse 200 (ReplyBody _ _ _ t), _))) with t
  end.
  assert (Hempty_phq9 :
            forall rows : list PHQ9Screening.t,
              filter (fun s => PHQ9Screening.patient s
                               =? ChatbotConversation.patient conversation) rows = [] <->
              (forall s, In s rows ->
                         PHQ9Screening.patient s <> ChatbotConversation.patient conversation)).
  { intro rows. split.
    - intros Hnil s Hs.
      apply Z.eqb_neq. exact (SubmissionProps.filter_nil_none _ _ Hnil s Hs).
    - intro Hall. induction rows as [|x rows IH]; [reflexivity|].
      cbn. rewrite (proj2 (Z.eqb_neq _ _) (Hall x (or_introl eq_refl))).
      apply IH. intros s Hs. apply Hall. right. exact Hs. }
  assert (Hempty_gad7 :
            forall rows : list GAD7Screening.t,
              filter (fun s => GAD7Screening.patient s
                               =? ChatbotConversation.patient conversation) rows = [] <->
              (forall s, In s rows ->
                         GAD7Screening.patient s <> ChatbotConversation.patient conversation)).
  { intro rows. split.
    - intros Hnil s Hs.
      apply Z.eqb_neq. exact (SubmissionProps.filter_nil_none _ _ Hnil s Hs).
    - intro Hall. induction rows as [|x rows IH]; [reflexivity|].
      cbn. rewrite (proj2 (Z.eqb_neq _ _) (Hall x (or_introl eq_refl))).
      apply IH. intros s Hs. apply Hall. right. exact Hs. }
  rewrite <- Hempty_phq9, <- Hempty_gad7.
  unfold Orm.first_newest.
  destruct (Orm.max_by PHQ9Screening.created_at _) as [p|] eqn:Hp;
    destruct (Orm.max_by GAD7Screening.created_at _) as [g|] eqn:Hg.
  - destruct (first_recommendation (option_map PHQ9Screening.total_score (Some p))
                (option_map GAD7Screening.total_score (Some g))
                (PHQ9Screening.q9_suicidal p >=? 2)) as [r [rest [Hrec Hin]]].
    rewrite Hrec. split.
    + split; [discriminate|].
      intros [Hnil _]. rewrite Hnil in Hp. discriminate Hp.
    + intros r' Hr'. inversion Hr'; subst r'. exact Hin.
  - destruct (first_recommendation (option_map PHQ9Screening.total_score (Some p))
                (option_map GAD7Screening.total_score None)
                (PHQ9Screening.q9_suicidal p >=? 2)) as [r [rest [Hrec Hin]]].
    rewrite Hrec. split.
    + split; [discriminate|].
      intros [Hnil _]. rewrite Hnil in Hp. discriminate Hp.
    + intros r' Hr'. inversion Hr'; subst r'. exact Hin.
  - destruct (first_recommendation (option_map PHQ9Screening.total_score None)
                (option_map GAD7Screening.total_score (Some g)) false)
      as [r [rest [Hrec Hin]]].
    rewrite Hrec. split.
    + split; [discriminate|].
      intros [_ Hnil]. rewrite Hnil in Hg. discriminate Hg.
    + intros r' Hr'. inversion Hr'; subst r'. exact Hin.
  - split.
    + split; [|reflexivity]. intros _.
      split; [exact (max_by_none _ _ Hp) | exact (max_by_none _ _ Hg)].
    + intros r' Hr'. discriminate Hr'.
Qed.

Lemma recommendation_needs_a_screening_witness :
  match recommendation_of
          (fst (send_message ascii_to_lower (fun _ => []) (Raise (FileNotFoundError "intent_model.pkl"))
                  None 50 (Some (ChatbotConversation.mk 1 1 "session-1")) (Some "hello")
                  TriageProps.after_first))
  with
  | Some r => In r leading_recommendations
  | None => False
  end.
Proof.
  destruct (recommendation_of _) as [r|] eqn:Hr.
  - refine (proj2 (recommendation_needs_a_screening ascii_to_lower (fun _ => [])
                     (Raise (FileNotFoundError "intent_model.pkl")) None 50
                     (ChatbotConversation.mk 1 1 "session-1") (Some "hello")
                     TriageProps.after_first _) r Hr).
    vm_compute. discriminate.
  - vm_compute in Hr. discriminate Hr.
Defined.

End RiskProps.
